(** * doc-processing-tool: a shallow embedding of [src/index.ts]

    The service is one Express handler, [POST /process], in front of a
    [DocumentProcessor] that classifies an upload by file name, flattens
    spreadsheets locally, asks a remote Tika server for text and metadata, and
    archives the result.  This file embeds the route with its upload
    middleware, the handler, the processor and the library calls they make
    (string methods, [path], [Date], [JSON.stringify], the decoding of UTF-8,
    the quote-free path of Papa Parse) and proves the properties recorded for
    them.

    Conventions.
    - A JavaScript string is a [string]: the sequence of its UTF-8 bytes.  All
      the characters the program inspects ([.], [/], [:], tab, newline, the
      letters of the extensions) are ASCII, so every test of the source reads
      the same on bytes as on UTF-16 code units.
    - A [Buffer] is a [string] too; [buffer.toString('utf-8')] keeps the
      well-formed sequences of the buffer and puts the replacement character
      in place of the others ([toString_utf8]).
    - [await] sequences effects, so an [async] method is a computation in the
      state-and-exception monad [M] over the [World] (file system, clock,
      remote calls, console). *)

From Stdlib Require Import Ascii String List Bool Arith NArith ZArith Lia.
From stdpp Require Import gmap strings.

Set Warnings "-register-all".

Local Open Scope stdpp_scope.
Import ListNotations.

(** ** JavaScript strings *)

Module Js.

Definition nl : string := String "010"%char "".
Definition cr : string := String "013"%char "".
Definition tab : string := String "009"%char "".
Definition dquote : ascii := "034"%char.

(** [String.prototype.toLowerCase], on the ASCII range.  Bytes above 127 are
    left as they are: no character outside ASCII lowers to one of the letters
    of the five extensions the program knows, to [.] or to [/]. *)
Definition lower_char (c : ascii) : ascii :=
  let n := nat_of_ascii c in
  if (65 <=? n) && (n <=? 90) then ascii_of_nat (n + 32) else c.

Fixpoint toLowerCase (s : string) : string :=
  match s with
  | "" => ""
  | String c r => String (lower_char c) (toLowerCase r)
  end.

(** [s.slice(i)] for [0 <= i]. *)
Fixpoint drop (i : nat) (s : string) : string :=
  match i, s with
  | S i', String _ r => drop i' r
  | _, _ => s
  end.

(** [s.slice(0, n)]. *)
Fixpoint take (n : nat) (s : string) : string :=
  match n, s with
  | S n', String c r => String c (take n' r)
  | _, _ => ""
  end.

(** [s.slice(i, j)] for [0 <= i] and [0 <= j]. *)
Definition slice (i j : nat) (s : string) : string := take (j - i) (drop i s).

(** [s.startsWith(p)]. *)
Fixpoint startsWith (s p : string) {struct p} : bool :=
  match p, s with
  | "", _ => true
  | String a p', String b s' => if Ascii.eqb a b then startsWith s' p' else false
  | String _ _, "" => false
  end.

(** [s.endsWith(suffix)]: the last [suffix.length] characters of [s] are
    compared with [suffix]; a longer [suffix] never matches. *)
Definition endsWith (s suffix : string) : bool :=
  let n := String.length s in
  let m := String.length suffix in
  if m <=? n then String.eqb (drop (n - m) s) suffix else false.

(** [s.indexOf(c) !== -1] for a single character. *)
Fixpoint includes_char (c : ascii) (s : string) : bool :=
  match s with
  | "" => false
  | String a r => Ascii.eqb a c || includes_char c r
  end.

(** [Array.prototype.join] on an array of strings. *)
Fixpoint join (sep : string) (l : list string) : string :=
  match l with
  | [] => ""
  | [x] => x
  | x :: rest => x +:+ sep +:+ join sep rest
  end.

(** [s.split(sep)] for a separator of one or more characters.  [skip] counts
    the characters of a separator just matched that are still to be passed
    over; [cur] holds the current piece, reversed. *)
Fixpoint split_go (sep s : string) (skip : nat) (cur : string) : list string :=
  match s with
  | "" => [String.rev cur]
  | String c r =>
      match skip with
      | S k => split_go sep r k cur
      | O =>
          if startsWith s sep
          then String.rev cur :: split_go sep r (String.length sep - 1) ""
          else split_go sep r 0 (String c cur)
      end
  end.

Definition split (sep s : string) : list string :=
  match sep with
  | "" => [s]  (* never called with an empty separator *)
  | _ => split_go sep s 0 ""
  end.

(** [s.replace(/[:.]/g, '-')]. *)
Definition dash_char (c : ascii) : ascii :=
  if Ascii.eqb c ":" || Ascii.eqb c "." then "-"%char else c.

Fixpoint replace_colon_dot (s : string) : string :=
  match s with
  | "" => ""
  | String c r => String (dash_char c) (replace_colon_dot r)
  end.

End Js.


(** ** Node's [path] module (POSIX flavour) *)

Module Path.

(** The loop state of [path.extname]: the five variables of Node's
    implementation.  [-1] for "not seen yet" is [None]. *)
Record ext_state := {
  startDot : option nat;
  startPart : nat;
  end_ : option nat;
  matchedSlash : bool;
  preDotState : Z
}.

Definition ext_init : ext_state :=
  {| startDot := None; startPart := 0; end_ := None;
     matchedSlash := true; preDotState := 0 |}.

(** The loop [for (i = path.length - 1; i >= 0; --i)], run over the reversed
    path: the head of [rpath] is [path[i]] and [i] is the length of what is
    left.  A [/] met after a non-separator ends the scan ([break]). *)
Fixpoint extname_loop (rpath : string) (st : ext_state) : ext_state :=
  match rpath with
  | "" => st
  | String code rest =>
      let i := String.length rest in
      if Ascii.eqb code "/" then
        if negb (matchedSlash st)
        then {| startDot := startDot st; startPart := i + 1; end_ := end_ st;
                matchedSlash := matchedSlash st; preDotState := preDotState st |}
        else extname_loop rest st
      else
        let st1 :=
          match end_ st with
          | None => {| startDot := startDot st; startPart := startPart st;
                       end_ := Some (i + 1); matchedSlash := false;
                       preDotState := preDotState st |}
          | Some _ => st
          end in
        let st2 :=
          if Ascii.eqb code "." then
            match startDot st1 with
            | None => {| startDot := Some i; startPart := startPart st1;
                         end_ := end_ st1; matchedSlash := matchedSlash st1;
                         preDotState := preDotState st1 |}
            | Some _ =>
                if negb (preDotState st1 =? 1)%Z
                then {| startDot := startDot st1; startPart := startPart st1;
                        end_ := end_ st1; matchedSlash := matchedSlash st1;
                        preDotState := 1 |}
                else st1
            end
          else
            match startDot st1 with
            | Some _ => {| startDot := startDot st1; startPart := startPart st1;
                           end_ := end_ st1; matchedSlash := matchedSlash st1;
                           preDotState := (-1) |}
            | None => st1
            end in
        extname_loop rest st2
  end.

(** [path.extname(path)]: from the last [.] of the last path component to its
    end; empty when there is no [.], when the only [.] starts the component,
    or when the component is [..]. *)
Definition extname (path : string) : string :=
  let st := extname_loop (String.rev path) ext_init in
  match startDot st, end_ st with
  | Some sd, Some e =>
      if (preDotState st =? 0)%Z
         || ((preDotState st =? 1)%Z && (sd =? e - 1) && (sd =? startPart st + 1))
      then ""
      else Js.slice sd e path
  | _, _ => ""
  end.

(** [normalizeString], one path segment at a time: empty segments and [.] are
    dropped, [..] removes the segment before it, or stays when there is none
    to remove and the path is relative.  [res] is the result so far, last
    segment first. *)
Fixpoint normalize_segments (allowAboveRoot : bool) (segs res : list string)
  : list string :=
  match segs with
  | [] => rev res
  | seg :: rest =>
      if String.eqb seg "" || String.eqb seg "." then
        normalize_segments allowAboveRoot rest res
      else if String.eqb seg ".." then
        match res with
        | last :: res' =>
            if String.eqb last ".."
            then normalize_segments allowAboveRoot rest
                   (if allowAboveRoot then ".." :: res else res)
            else normalize_segments allowAboveRoot rest res'
        | [] =>
            normalize_segments allowAboveRoot rest
              (if allowAboveRoot then [".."] else [])
        end
      else normalize_segments allowAboveRoot rest (seg :: res)
  end.

Definition normalizeString (path : string) (allowAboveRoot : bool) : string :=
  Js.join "/" (normalize_segments allowAboveRoot (Js.split "/" path) []).

(** [path.normalize]. *)
Definition normalize (path : string) : string :=
  match path with
  | "" => "."
  | _ =>
      let isAbsolute := Js.startsWith path "/" in
      let trailingSeparator := Js.endsWith path "/" in
      let p := normalizeString path (negb isAbsolute) in
      match p with
      | "" => if isAbsolute then "/" else if trailingSeparator then "./" else "."
      | _ =>
          let p' := if trailingSeparator then p +:+ "/" else p in
          if isAbsolute then "/" +:+ p' else p'
      end
  end.

(** [path.join(...args)]: the non-empty arguments, joined by [/], normalized. *)
Definition join (args : list string) : string :=
  match List.filter (fun a => negb (String.eqb a "")) args with
  | [] => "."
  | parts => normalize (Js.join "/" parts)
  end.

(** The loop of [path.dirname], [for (i = path.length - 1; i >= 1; --i)], over
    the reversed path; the result is [end], [None] for [-1]. *)
Fixpoint dirname_loop (rpath : string) (matchedSlash : bool) : option nat :=
  match rpath with
  | "" => None
  | String code rest =>
      let i := String.length rest in
      if i <? 1 then None
      else if Ascii.eqb code "/" then
        if negb matchedSlash then Some i else dirname_loop rest matchedSlash
      else dirname_loop rest false
  end.

(** [path.dirname]. *)
Definition dirname (path : string) : string :=
  match path with
  | "" => "."
  | _ =>
      let hasRoot := Js.startsWith path "/" in
      match dirname_loop (String.rev path) true with
      | None => if hasRoot then "/" else "."
      | Some e => if hasRoot && (e =? 1) then "//" else Js.slice 0 e path
      end
  end.

End Path.

(** ** [Date] *)

(** A [Date], by its UTC components ([getUTCFullYear], [getUTCMonth() + 1],
    [getUTCDate], ...).  Years before 0 do not occur as readings of the
    current time. *)
Record Date := {
  year : N;
  month : N;
  day : N;
  hours : N;
  minutes : N;
  seconds : N;
  milliseconds : N
}.

Definition digit (n : N) : ascii := ascii_of_N (48 + n mod 10).

Definition pad2 (n : N) : string :=
  String (digit (n / 10)) (String (digit n) "").

Definition pad3 (n : N) : string := String (digit (n / 100)) (pad2 n).

Definition pad4 (n : N) : string := String (digit (n / 1000)) (pad3 n).

Definition pad6 (n : N) : string :=
  String (digit (n / 100000)) (String (digit (n / 10000)) (pad4 n)).

(** [Date.prototype.toISOString]: [YYYY-MM-DDTHH:mm:ss.sssZ], the year on six
    digits with a sign beyond 9999. *)
Definition toISOString (d : Date) : string :=
  (if (year d <=? 9999)%N then pad4 (year d) else "+" +:+ pad6 (year d))
  +:+ "-" +:+ pad2 (month d) +:+ "-" +:+ pad2 (day d)
  +:+ "T" +:+ pad2 (hours d) +:+ ":" +:+ pad2 (minutes d)
  +:+ ":" +:+ pad2 (seconds d) +:+ "." +:+ pad3 (milliseconds d) +:+ "Z".

(** ** JSON values and [JSON.stringify] *)

(** A number is carried with the text [JSON.stringify] prints for it. *)
Inductive json :=
| JNull
| JBool (b : bool)
| JNumber (shown : string)
| JString (s : string)
| JArray (items : list json)
| JObject (props : list (string * json)).

Module Json.

Definition hex_digit (n : nat) : ascii :=
  if n <? 10 then ascii_of_nat (48 + n) else ascii_of_nat (87 + n).

(** One character inside a JSON string literal. *)
Definition escape_char (c : ascii) : string :=
  let n := nat_of_ascii c in
  if Ascii.eqb c Js.dquote then String "\" (String Js.dquote "")
  else if Ascii.eqb c "\" then "\\"
  else if n =? 8 then "\b"
  else if n =? 9 then "\t"
  else if n =? 10 then "\n"
  else if n =? 12 then "\f"
  else if n =? 13 then "\r"
  else if n <? 32 then "\u00" +:+ String (hex_digit (n / 16)) (String (hex_digit (n mod 16)) "")
  else String c "".

Fixpoint escape (s : string) : string :=
  match s with
  | "" => ""
  | String c r => escape_char c +:+ escape r
  end.

(** [QuoteJSONString]. *)
Definition quote (s : string) : string :=
  String Js.dquote (escape s +:+ String Js.dquote "").

(** The members of an array or object between their brackets: on one line
    when [gap] is empty, one member per line at [indent] otherwise, the
    closing bracket back at [stepback]. *)
Definition wrap (open close gap stepback indent : string) (partial : list string)
  : string :=
  match partial with
  | [] => open +:+ close
  | _ =>
      if String.eqb gap "" then open +:+ Js.join "," partial +:+ close
      else open +:+ Js.nl +:+ indent
           +:+ Js.join ("," +:+ Js.nl +:+ indent) partial
           +:+ Js.nl +:+ stepback +:+ close
  end.

(** [SerializeJSONProperty] with the current [indent]. *)
Fixpoint serialize (gap indent : string) (v : json) {struct v} : string :=
  match v with
  | JNull => "null"
  | JBool true => "true"
  | JBool false => "false"
  | JNumber shown => shown
  | JString s => quote s
  | JArray items =>
      let indent' := indent +:+ gap in
      wrap "[" "]" gap indent indent' (map (serialize gap indent') items)
  | JObject props =>
      let indent' := indent +:+ gap in
      wrap "{" "}" gap indent indent'
        (map (fun kv =>
                match kv with
                | (k, x) =>
                    quote k +:+ ":" +:+ (if String.eqb gap "" then "" else " ")
                    +:+ serialize gap indent' x
                end) props)
  end.

Definition stringify2 (v : json) : string := serialize "  " "" v.

End Json.

(** ** Papa Parse, for input without a quote character

    [Papa.parse(content, { complete, error, skipEmptyLines: true })] on a
    string runs synchronously: the byte-order mark is stripped, the line
    ending and the delimiter are guessed, the text is cut into rows and
    fields, empty lines are removed and [complete] receives the rows.  When
    the input holds no double quote the parser takes its fast path, which is the one
    embedded here (version 5 of the library). *)

Module Papa.

Definition bom : string :=
  String "239"%char (String "187"%char (String "191"%char "")).

Definition stripBom (s : string) : string :=
  if Js.startsWith s bom then Js.drop 3 s else s.

(** [input.substring(0, 1024 * 1024)]. *)
Fixpoint substring0 (n : N) (s : string) : string :=
  match s with
  | "" => ""
  | String c r => if (n =? 0)%N then "" else String c (substring0 (N.pred n) r)
  end.

Definition head_is_nl (s : string) : bool :=
  match s with
  | String c _ => Ascii.eqb c "010"
  | "" => false
  end.

(** [guessLineEndings]. *)
Definition guessLineEndings (input : string) : string :=
  let input := substring0 1048576 input in
  let r := Js.split Js.cr input in
  let n := Js.split Js.nl input in
  let nAppearsFirst :=
    (1 <? length n)
    && (String.length (hd "" n) <? String.length (hd "" r)) in
  if (length r =? 1) || nAppearsFirst then Js.nl
  else
    let numWithN := length (List.filter head_is_nl r) in
    if length r <=? 2 * numWithN then Js.cr +:+ Js.nl else Js.cr.

(** The fast path of [Parser.parse]: rows are the pieces between line
    endings, fields the pieces between delimiters; with a [preview] only
    that many rows are kept. *)
Definition parse_rows (delim newline : string) (preview : option nat)
    (input : string) : list (list string) :=
  match input with
  | "" => []
  | _ =>
      let data := map (Js.split delim) (Js.split newline input) in
      match preview with
      | Some p => firstn p data
      | None => data
      end
  end.

(** [testEmptyLine] when [skipEmptyLines] is [true] (not ['greedy']). *)
Definition testEmptyLine (row : list string) : bool :=
  match row with
  | [field] => String.length field =? 0
  | _ => false
  end.

Definition delimitersToGuess : list string :=
  [","; Js.tab; "|"; ";"; String "030"%char ""; String "031"%char ""].

(** The inner loop of [guessDelimiter] over the preview rows: the sum of the
    field counts, the number of empty lines, the accumulated change of the
    field count from one row to the next, and the last field count seen. *)
Record tally := {
  fieldSum : nat;
  emptyLinesCount : nat;
  delta : nat;
  fieldCountPrevRow : option nat
}.

Definition tally_row (t : tally) (row : list string) : tally :=
  if testEmptyLine row then
    {| fieldSum := fieldSum t; emptyLinesCount := S (emptyLinesCount t);
       delta := delta t; fieldCountPrevRow := fieldCountPrevRow t |}
  else
    let fieldCount := length row in
    match fieldCountPrevRow t with
    | None =>
        {| fieldSum := fieldSum t + fieldCount;
           emptyLinesCount := emptyLinesCount t; delta := delta t;
           fieldCountPrevRow := Some fieldCount |}
    | Some prev =>
        if 0 <? fieldCount then
          {| fieldSum := fieldSum t + fieldCount;
             emptyLinesCount := emptyLinesCount t;
             delta := delta t + (fieldCount - prev) + (prev - fieldCount);
             fieldCountPrevRow := Some fieldCount |}
        else
          {| fieldSum := fieldSum t + fieldCount;
             emptyLinesCount := emptyLinesCount t; delta := delta t;
             fieldCountPrevRow := fieldCountPrevRow t |}
    end.

(** The best candidate so far: the delimiter, its [delta], and its average
    field count as a fraction [sum / rows]. *)
Record best := {
  bestDelim : string;
  bestDelta : nat;
  maxFieldSum : nat;
  maxFieldRows : nat
}.

(** One candidate of [guessDelimiter].  The average field count is
    [sum / (rows - empty)]; it is compared as a fraction, and with no
    non-empty row (a division of zero by zero) no comparison holds. *)
Definition try_delimiter (input newline : string) (b : option best)
    (delim : string) : option best :=
  let data := parse_rows delim newline (Some 10) input in
  let t := fold_left tally_row data
             {| fieldSum := 0; emptyLinesCount := 0; delta := 0;
                fieldCountPrevRow := None |} in
  let rows := length data - emptyLinesCount t in
  let defined := (length data =? 0) || (0 <? rows) in
  let rows := if length data =? 0 then 1 else rows in
  let candidate :=
    {| bestDelim := delim; bestDelta := delta t;
       maxFieldSum := fieldSum t; maxFieldRows := rows |} in
  let above_1_99 := 199 * rows <? 100 * fieldSum t in
  match b with
  | None => if defined && above_1_99 then Some candidate else b
  | Some old =>
      if defined && (delta t <=? bestDelta old)
         && (maxFieldSum old * rows <? fieldSum t * maxFieldRows old)
         && above_1_99
      then Some candidate else b
  end.

Definition guessDelimiter (input newline : string) : option string :=
  bestDelim <$> fold_left (try_delimiter input newline) delimitersToGuess None.

Definition DefaultDelimiter : string := ",".

(** [results.data] as handed to [complete]; [None] when the input holds a
    quote character and the parser leaves its fast path. *)
Definition parse (input : string) : option (list (list string)) :=
  let input := stripBom input in
  if Js.includes_char Js.dquote input then None
  else
    let newline := guessLineEndings input in
    let delimiter := default DefaultDelimiter (guessDelimiter input newline) in
    let data := parse_rows delimiter newline None input in
    Some (List.filter (fun d => negb (testEmptyLine d)) data).

End Papa.

(** ** The world the service runs in *)

Definition Buffer := string.

(** Decoding of UTF-8 as Node does it for [buffer.toString('utf-8')]: every
    well-formed sequence is kept, and each maximal ill-formed run of bytes (a
    byte no sequence starts with, a sequence cut short, an overlong or
    surrogate encoding) becomes one U+FFFD. *)
Module Utf8.

(** U+FFFD, the replacement character. *)
Definition replacement : string :=
  String "239"%char (String "191"%char (String "189"%char "")).

(** What the first byte of a sequence announces: a character of its own, the
    number of bytes that must follow with the range of the next one, or
    nothing a sequence starts with. *)
Inductive first_byte :=
| Single
| Lead (needed : nat) (lower upper : N)
| Invalid.

Definition classify (c : N) : first_byte :=
  (if c <=? 127 then Single
   else if (194 <=? c) && (c <=? 223) then Lead 1 128 191
   else if (224 <=? c) && (c <=? 239)
        then Lead 2 (if c =? 224 then 160 else 128) (if c =? 237 then 159 else 191)
   else if (240 <=? c) && (c <=? 244)
        then Lead 3 (if c =? 240 then 144 else 128) (if c =? 244 then 143 else 191)
   else Invalid)%N.

(** The decoder, byte by byte.  [needed] bytes are still to come for the
    sequence begun with [seen], the next one between [lower] and [upper].  A
    byte that does not fit ends the sequence with one replacement character
    and is read again as a first byte; a sequence cut by the end of the
    input gives one replacement character. *)
Fixpoint decode (input : string) (needed : nat) (seen : string)
    (lower upper : N) : string :=
  match input with
  | "" => match needed with 0 => "" | S _ => replacement end
  | String b rest =>
      let c := N_of_ascii b in
      let first (out : string) : string :=
        match classify c with
        | Single => out +:+ String b (decode rest 0 "" 128 191)
        | Lead n l u => out +:+ decode rest n (String b "") l u
        | Invalid => out +:+ replacement +:+ decode rest 0 "" 128 191
        end in
      match needed with
      | 0 => first ""
      | S n =>
          if ((lower <=? c) && (c <=? upper))%N
          then match n with
               | 0 => seen +:+ String b (decode rest 0 "" 128 191)
               | S _ => decode rest n (seen +:+ String b "") 128 191
               end
          else first replacement
      end
  end.

End Utf8.

(** [buffer.toString('utf-8')]: the text of the buffer, itself held as UTF-8;
    a byte-order mark is kept. *)
Definition toString_utf8 (buffer : Buffer) : string :=
  Utf8.decode buffer 0 "" 128 191.

(** What [throw] carries: an [Error] with its [message], or any other value
    (the handler tells them apart with [instanceof Error]). *)
Inductive thrown :=
| ErrorObj (message : string)
| OtherValue.

Inductive outcome (A : Type) :=
| Ok (a : A)
| Throw (e : thrown).
Arguments Ok {A} a.
Arguments Throw {A} e.

(** A request of [fetch(url, { method, body, headers })]. *)
Record FetchRequest := {
  url : string;
  method : string;
  body : Buffer;
  contentType : string;
  accept : string
}.

Record Response := {
  status : nat;
  statusText : string;
  text : string
}.

(** [response.ok]. *)
Definition ok (r : Response) : bool := (200 <=? status r) && (status r <=? 299).

Inductive FsOp :=
| OpRead (path : string)
| OpWrite (path : string)
| OpMkdir (path : string)
| OpCopy (src dest : string)
| OpUnlink (path : string).

(** A worksheet cell as [sheet_to_json] delivers it; [CEmpty] is [null],
    [undefined] or a hole of the row array.  A number is carried with the
    text [String] gives for it. *)
Inductive cell :=
| CEmpty
| CString (s : string)
| CNumber (shown : string)
| CBool (b : bool).

(** [type SheetRow = string[] | { [key: string]: any }]; the properties of an
    object row are listed in the order [Object.values] enumerates them. *)
Inductive SheetRow :=
| ArrayRow (cells : list cell)
| ObjectRow (props : list (string * cell)).

(** A decoded workbook.  A worksheet is represented by the rows
    [utils.sheet_to_json(sheet, { header: 1 })] returns for it. *)
Record WorkBook := {
  SheetNames : list string;
  Sheets : gmap string (list SheetRow)
}.

(** What the program does not decide itself: the remote server, the two
    decoding libraries, the clock and the operating system. *)
Record Env := {
  (** [fetch]: the response, or the error it rejects with. *)
  fetch : FetchRequest -> outcome Response;
  (** [response.json()] on a body: the value, or the error of the parse. *)
  json_parse : string -> outcome json;
  (** [read(buffer, { type: 'buffer' })] of SheetJS: the workbook, or the
      error it throws on bytes it cannot decode. *)
  xlsx_read : Buffer -> outcome WorkBook;
  (** [results.data] of [Papa.parse]. *)
  papa_parse : string -> list (list string);
  (** The successive readings of the clock by [new Date()]. *)
  now : nat -> Date;
  (** The message of the error the operating system raises for a file
      operation, if it refuses it (permissions, missing directory, ...). *)
  fs_fault : FsOp -> option string
}.

(** [papa_parse] is Papa Parse wherever the embedding above covers it. *)
Definition papa_faithful (env : Env) : Prop :=
  forall input rows, Papa.parse input = Some rows -> papa_parse env input = rows.

Record World := {
  files : gmap string Buffer;
  clock_reads : nat;
  requests : list FetchRequest;
  console : list string
}.

(** An [async] computation: it reads and changes the world, and returns or
    throws. *)
Definition M (A : Type) : Type := World -> outcome A * World.

Definition ret {A} (a : A) : M A := fun w => (Ok a, w).

Definition throw {A} (e : thrown) : M A := fun w => (Throw e, w).

Definition bind {A B} (m : M A) (k : A -> M B) : M B :=
  fun w =>
    match m w with
    | (Ok a, w') => k a w'
    | (Throw e, w') => (Throw e, w')
    end.

(** [try { m } catch (error) { handler error }]. *)
Definition try_catch {A} (m : M A) (handler : thrown -> M A) : M A :=
  fun w =>
    match m w with
    | (Ok a, w') => (Ok a, w')
    | (Throw e, w') => handler e w'
    end.

Notation "'let*' x := m 'in' k" := (bind m (fun x => k))
  (at level 10, x binder, k at level 200).

Definition set_files (f : gmap string Buffer) (w : World) : World :=
  {| files := f; clock_reads := clock_reads w; requests := requests w;
     console := console w |}.

(** [console.error(label, error)]; the line is kept by its label. *)
Definition console_error (label : string) : M unit :=
  fun w =>
    (Ok tt, {| files := files w; clock_reads := clock_reads w;
               requests := requests w; console := console w ++ [label] |}).

(** [new Date()]. *)
Definition new_Date (env : Env) : M Date :=
  fun w =>
    (Ok (now env (clock_reads w)),
     {| files := files w; clock_reads := S (clock_reads w);
        requests := requests w; console := console w |}).

(** [await fetch(...)]: the request goes out, then the answer comes or the
    promise rejects. *)
Definition do_fetch (env : Env) (req : FetchRequest) : M Response :=
  fun w =>
    (fetch env req,
     {| files := files w; clock_reads := clock_reads w;
        requests := requests w ++ [req]; console := console w |}).

Definition ENOENT (syscall path : string) : thrown :=
  ErrorObj ("ENOENT: no such file or directory, " +:+ syscall +:+ " '" +:+ path +:+ "'").

(** The same for a system call on two paths, which names both. *)
Definition ENOENT2 (syscall src dest : string) : thrown :=
  ErrorObj ("ENOENT: no such file or directory, " +:+ syscall
            +:+ " '" +:+ src +:+ "' -> '" +:+ dest +:+ "'").

(** [fs.readFile(path)]. *)
Definition readFile (env : Env) (path : string) : M Buffer :=
  fun w =>
    match fs_fault env (OpRead path) with
    | Some msg => (Throw (ErrorObj msg), w)
    | None =>
        match files w !! path with
        | Some data => (Ok data, w)
        | None => (Throw (ENOENT "open" path), w)
        end
    end.

(** [fs.writeFile(path, data, 'utf8')]. *)
Definition writeFile (env : Env) (path : string) (data : string) : M unit :=
  fun w =>
    match fs_fault env (OpWrite path) with
    | Some msg => (Throw (ErrorObj msg), w)
    | None => (Ok tt, set_files (<[path := data]> (files w)) w)
    end.

(** [fs.mkdir(path, { recursive: true })]; directories hold no data and are
    not part of [files]. *)
Definition mkdir_recursive (env : Env) (path : string) : M unit :=
  fun w =>
    match fs_fault env (OpMkdir path) with
    | Some msg => (Throw (ErrorObj msg), w)
    | None => (Ok tt, w)
    end.

(** [fs.copyFile(src, dest)]. *)
Definition copyFile (env : Env) (src dest : string) : M unit :=
  fun w =>
    match fs_fault env (OpCopy src dest) with
    | Some msg => (Throw (ErrorObj msg), w)
    | None =>
        match files w !! src with
        | Some data => (Ok tt, set_files (<[dest := data]> (files w)) w)
        | None => (Throw (ENOENT2 "copyfile" src dest), w)
        end
    end.

(** [fs.unlink(path)]. *)
Definition unlink (env : Env) (path : string) : M unit :=
  fun w =>
    match fs_fault env (OpUnlink path) with
    | Some msg => (Throw (ErrorObj msg), w)
    | None =>
        match files w !! path with
        | Some _ => (Ok tt, set_files (delete path (files w)) w)
        | None => (Throw (ENOENT "unlink" path), w)
        end
    end.

(** ** [class DocumentProcessor] *)

Record ProcessedDocument := {
  content : string;
  metadata : json;
  filename : string;
  mimeType : string;
  processingDate : Date
}.

Record DocumentProcessor := {
  tikaUrl : string;
  completedDir : string
}.

(** [x || d] for a string that may be [undefined]: the empty string is falsy
    too. *)
Definition or_else (x : option string) (d : string) : string :=
  match x with
  | Some (String c r) => String c r
  | _ => d
  end.

(** [new DocumentProcessor()], given [process.env.TIKA_SERVER_URL].  The
    constructor also makes sure the archive directory exists; directories are
    not part of the model. *)
Definition new_DocumentProcessor (TIKA_SERVER_URL : option string)
  : DocumentProcessor :=
  {| tikaUrl := or_else TIKA_SERVER_URL "http://localhost:9998";
     completedDir := "./completed" |}.

Definition outputData (result : ProcessedDocument) : json :=
  JObject [("content", JString (content result));
           ("metadata", metadata result);
           ("originalFilename", JString (filename result));
           ("mimeType", JString (mimeType result));
           ("processingDate", JString (toISOString (processingDate result)))].

Definition saveProcessedDocument (env : Env) (this : DocumentProcessor)
    (result : ProcessedDocument) (originalPath : string) : M unit :=
  let* date := new_Date env in
  let timestamp := Js.replace_colon_dot (toISOString date) in
  let outputFilename := timestamp +:+ "_" +:+ filename result in
  let outputPath := Path.join [completedDir this; outputFilename] in
  let* _ := writeFile env (outputPath +:+ ".json")
              (Json.stringify2 (outputData result)) in
  let outputOriginalPath :=
    Path.join [completedDir this; "originals"; outputFilename] in
  let* _ := mkdir_recursive env (Path.dirname outputOriginalPath) in
  copyFile env originalPath outputOriginalPath.

Definition mimeTypes : gmap string string :=
  <[".pdf" := "application/pdf"]>
  (<[".docx" := "application/vnd.openxmlformats-officedocument.wordprocessingml.document"]>
  (<[".xlsx" := "application/vnd.openxmlformats-officedocument.spreadsheetml.sheet"]>
  (<[".txt" := "text/plain"]>
  (<[".csv" := "text/csv"]> ∅)))).

Definition getMimeType (filename : string) : string :=
  let ext := Js.toLowerCase (Path.extname filename) in
  or_else (mimeTypes !! ext) "application/octet-stream".

(** [String(v)] as [Array.prototype.join] applies it: nothing for [null],
    [undefined] and holes. *)
Definition cell_text (c : cell) : string :=
  match c with
  | CEmpty => ""
  | CString s => s
  | CNumber shown => shown
  | CBool true => "true"
  | CBool false => "false"
  end.

(** [Object.values(row)]. *)
Definition Object_values (row : SheetRow) : list cell :=
  match row with
  | ArrayRow cells => cells
  | ObjectRow props => map snd props
  end.

Definition join_tab (cells : list cell) : string :=
  Js.join Js.tab (map cell_text cells).

(** The body of [jsonData.forEach]: one row appended to [result]. *)
Definition emit_row (result : string) (row : SheetRow) : string :=
  match row with
  | ArrayRow cells =>
      if 0 <? length cells
      then result +:+ join_tab cells +:+ Js.nl
      else
        (* [typeof row === 'object' && row !== null] holds of an array *)
        result +:+ join_tab (Object_values row) +:+ Js.nl
  | ObjectRow _ => result +:+ join_tab (Object_values row) +:+ Js.nl
  end.

(** [utils.sheet_to_json(workbook.Sheets[sheetName], { header: 1 })]: no rows
    for a name without a sheet. *)
Definition sheet_to_json (workbook : WorkBook) (sheetName : string)
  : list SheetRow :=
  default [] (Sheets workbook !! sheetName).

(** The body of [workbook.SheetNames.forEach]. *)
Definition emit_sheet (workbook : WorkBook) (result : string)
    (sheetName : string) : string :=
  let jsonData := sheet_to_json workbook sheetName in
  let result :=
    if 1 <? length (SheetNames workbook)
    then result +:+ "Sheet: " +:+ sheetName +:+ Js.nl
    else result in
  let result := fold_left emit_row jsonData result in
  result +:+ Js.nl.

Definition flatten_workbook (workbook : WorkBook) : string :=
  fold_left (emit_sheet workbook) (SheetNames workbook) "".

Definition processXLSX (env : Env) (buffer : Buffer) : M string :=
  try_catch
    (match xlsx_read env buffer with
     | Ok workbook => ret (flatten_workbook workbook)
     | Throw e => throw e
     end)
    (fun _ =>
       let* _ := console_error "XLSX processing error:" in
       throw (ErrorObj "Failed to process XLSX file")).

(** The [complete] callback of [Papa.parse]. *)
Definition formattedContent (data : list (list string)) : string :=
  Js.join Js.nl
    (map (fun row => Js.join Js.tab row)
       (List.filter (fun row => 0 <? length row) data)).

Definition processCSV (env : Env) (buffer : Buffer) : M string :=
  try_catch
    (let content := toString_utf8 buffer in
     ret (formattedContent (papa_parse env content)))
    (fun _ =>
       let* _ := console_error "CSV processing error:" in
       throw (ErrorObj "Failed to process CSV file")).

Definition getMetadata (env : Env) (this : DocumentProcessor) (file : Buffer)
    (mimeType : string) : M json :=
  let* response :=
    do_fetch env {| url := tikaUrl this +:+ "/meta"; method := "PUT";
                    body := file; contentType := mimeType;
                    accept := "application/json" |} in
  if negb (ok response)
  then throw (ErrorObj ("Failed to get metadata: " +:+ statusText response))
  else
    match json_parse env (text response) with
    | Ok metadata => ret metadata
    | Throw e => throw e
    end.

Definition processDocument (env : Env) (this : DocumentProcessor)
    (file : Buffer) (filename originalPath : string) : M ProcessedDocument :=
  let mimeType := getMimeType filename in
  let* contentResponse :=
    do_fetch env {| url := tikaUrl this +:+ "/tika"; method := "PUT";
                    body := file; contentType := mimeType;
                    accept := "text/plain" |} in
  if negb (ok contentResponse)
  then throw (ErrorObj ("Failed to extract text: " +:+ statusText contentResponse))
  else
    let content := text contentResponse in
    let* metadata := getMetadata env this file mimeType in
    let* date := new_Date env in
    let result :=
      {| content := content; metadata := metadata; filename := filename;
         mimeType := mimeType; processingDate := date |} in
    let* _ := saveProcessedDocument env this result originalPath in
    ret result.

Definition processSpreadsheet (env : Env) (this : DocumentProcessor)
    (file : Buffer) (filename originalPath : string) : M ProcessedDocument :=
  let mimeType := getMimeType filename in
  let ext := Js.toLowerCase (Path.extname filename) in
  try_catch
    (let* content :=
       if String.eqb ext ".xlsx" then processXLSX env file
       else if String.eqb ext ".csv" then processCSV env file
       else throw (ErrorObj "Unsupported spreadsheet format") in
     let* metadata := getMetadata env this file mimeType in
     let* date := new_Date env in
     let result :=
       {| content := content; metadata := metadata; filename := filename;
          mimeType := mimeType; processingDate := date |} in
     let* _ := saveProcessedDocument env this result originalPath in
     ret result)
    (fun error =>
       let* _ := console_error "Spreadsheet processing error:" in
       throw error).

(** ** The handler of [POST /process] *)

(** [req.file], as the upload middleware leaves it. *)
Record UploadedFile := {
  originalname : string;
  path : string
}.

Record HttpResponse := {
  statusCode : nat;
  json_body : json
}.

Definition isSpreadsheet (originalname : string) : bool :=
  existsb (fun ext => Js.endsWith (Js.toLowerCase originalname) ext)
    [".xlsx"; ".csv"].

(** The object [res.json(result)] serializes. *)
Definition json_of_result (result : ProcessedDocument) : json :=
  JObject [("content", JString (content result));
           ("metadata", metadata result);
           ("filename", JString (filename result));
           ("mimeType", JString (mimeType result));
           ("processingDate", JString (toISOString (processingDate result)))].

(** [isSpreadsheet ? processor.processSpreadsheet(...) :
    processor.processDocument(...)]. *)
Definition dispatch (env : Env) (processor : DocumentProcessor)
    (fileBuffer : Buffer) (file : UploadedFile) : M ProcessedDocument :=
  if isSpreadsheet (originalname file)
  then processSpreadsheet env processor fileBuffer (originalname file) (path file)
  else processDocument env processor fileBuffer (originalname file) (path file).

(** The [try] block after the check of [req.file]. *)
Definition process_upload (env : Env) (processor : DocumentProcessor)
    (file : UploadedFile) : M ProcessedDocument :=
  let* fileBuffer := readFile env (path file) in
  let* result := dispatch env processor fileBuffer file in
  let* _ := unlink env (path file) in
  ret result.

Definition error_message (error : thrown) : string :=
  match error with
  | ErrorObj message => message
  | OtherValue => "Unknown error"
  end.

Definition handler (env : Env) (processor : DocumentProcessor)
    (req_file : option UploadedFile) (w : World) : HttpResponse * World :=
  match req_file with
  | None =>
      ({| statusCode := 400;
          json_body := JObject [("error", JString "No file uploaded")] |}, w)
  | Some file =>
      match process_upload env processor file w with
      | (Ok result, w') =>
          ({| statusCode := 200; json_body := json_of_result result |}, w')
      | (Throw error, w') =>
          ({| statusCode := 500;
              json_body :=
                JObject [("error", JString "Failed to process document");
                         ("details", JString (error_message error))] |},
           snd (console_error "Processing error:" w'))
      end
  end.

(** ** The route [app.post('/process', upload.single('file'), handler)] *)

(** What the multipart parser delivers to the upload middleware for a
    well-formed body, part by part: a text field, with the marks of a name or
    a value cut at the parser's limit, or a file, with the field it came
    under, the file name the client gave (empty when it gave none) and its
    bytes. *)
Inductive Part :=
| FieldPart (fieldname value : string) (fieldnameTruncated valueTruncated : bool)
| FilePart (fieldname filename : string) (data : Buffer).

(** The body of a request: the parts of a multipart body, or a body of
    another type, which the middleware passes on unread. *)
Inductive RequestBody :=
| Multipart (parts : list Part)
| NotMultipart.

(** What the program does not decide on the way to the handler. *)
Record Host := {
  (** The name the disk storage of multer draws for the file it stores
      ([crypto.randomBytes(16)] in hexadecimal). *)
  randomName : string;
  (** What the final handler of Express prints with [console.error] for an
      error that no middleware handled: its stack, or nothing when the
      application runs with [env] set to [test]. *)
  logerror : thrown -> option string
}.

(** [new MulterError(code)], by the message of its code. *)
Definition LIMIT_UNEXPECTED_FILE : thrown := ErrorObj "Unexpected field".
Definition LIMIT_FIELD_KEY : thrown := ErrorObj "Field name too long".
Definition LIMIT_FIELD_VALUE : thrown := ErrorObj "Field value too long".

(** [DiskStorage.prototype._handleFile] for [multer({ dest: 'uploads/' })]:
    the bytes go to a new file of the destination directory, and the file
    information is what [req.file] will hold. *)
Definition handleFile (env : Env) (host : Host) (originalname : string)
    (data : Buffer) : M UploadedFile :=
  let destination := "uploads/" in
  let finalPath := Path.join [destination; randomName host] in
  let* _ := writeFile env finalPath data in
  ret {| originalname := originalname; path := finalPath |}.

(** [DiskStorage.prototype._removeFile] as [removeUploadedFiles] calls it: an
    error of the removal is set aside and stops nothing. *)
Definition removeFile (env : Env) (file : UploadedFile) : M unit :=
  fun w => (Ok tt, snd (unlink env (path file) w)).

(** [abortWithError]: the file stored so far, if any, is removed and the
    error goes to [next]. *)
Definition abortWithError (env : Env) (uploaded : option UploadedFile)
    (uploadError : thrown) : M (option UploadedFile) :=
  let* _ :=
    match uploaded with
    | Some file => removeFile env file
    | None => ret tt
    end in
  throw uploadError.

(** The listeners of the middleware, run over the parts in their order.
    [filesLeft] is what is left of [maxCount] for the field [name] (a file
    under any other field has nothing left), [uploaded] the file stored so
    far.  When the parts end, [req.file] is that file.  The parts are taken
    one after the other: the storing of a file has ended when the next part
    is looked at. *)
Fixpoint multer_parts (env : Env) (host : Host) (name : string)
    (parts : list Part) (filesLeft : nat) (uploaded : option UploadedFile)
  : M (option UploadedFile) :=
  match parts with
  | [] => ret uploaded
  | FieldPart _ _ fieldnameTruncated valueTruncated :: rest =>
      if fieldnameTruncated then abortWithError env uploaded LIMIT_FIELD_KEY
      else if valueTruncated then abortWithError env uploaded LIMIT_FIELD_VALUE
      else multer_parts env host name rest filesLeft uploaded
  | FilePart fieldname filename data :: rest =>
      if String.eqb filename ""
      then multer_parts env host name rest filesLeft uploaded
      else
        let available := if String.eqb fieldname name then filesLeft else 0 in
        if available <=? 0
        then abortWithError env uploaded LIMIT_UNEXPECTED_FILE
        else
          fun w =>
            match handleFile env host filename data w with
            | (Ok file, w') =>
                multer_parts env host name rest (filesLeft - 1) (Some file) w'
            | (Throw err, w') => abortWithError env uploaded err w'
            end
  end.

(** [upload.single(name)]: at most one file, under the field [name].  It
    leaves [req.file] to the handler, or passes an error to [next]. *)
Definition upload_single (env : Env) (host : Host) (name : string)
    (body : RequestBody) : M (option UploadedFile) :=
  match body with
  | NotMultipart => ret None
  | Multipart parts => multer_parts env host name parts 1 None
  end.

(** The answer of the route: the JSON answer of the handler, or the error
    page of Express with its status. *)
Inductive Reply :=
| JsonReply (response : HttpResponse)
| ErrorPage (status : nat).


(** The final handler of Express, which answers when a middleware passed an
    error on, the application having no error handler of its own: the status
    is 500 for an error that carries none, and the error is printed. *)
Definition finalhandler (host : Host) (err : thrown) (w : World)
  : Reply * World :=
  (ErrorPage 500,
   match logerror host err with
   | Some stack => snd (console_error stack w)
   | None => w
   end).

Definition route (env : Env) (host : Host) (processor : DocumentProcessor)
    (body : RequestBody) (w : World) : Reply * World :=
  match upload_single env host "file" body w with
  | (Ok req_file, w') =>
      match handler env processor req_file w' with
      | (response, w'') => (JsonReply response, w'')
      end
  | (Throw err, w') => finalhandler host err w'
  end.

(** ** A concrete environment, for running the embedding *)

Module Demo.

Definition date : Date :=
  {| year := 2024; month := 5; day := 6; hours := 7; minutes := 8;
     seconds := 9; milliseconds := 10 |}.

Definition workbook : WorkBook :=
  {| SheetNames := ["A"; "B"];
     Sheets := <["A" := [ArrayRow [CString "x"; CNumber "1"];
                         ArrayRow [CString "y"]]]>
               (<["B" := [ArrayRow [CBool true; CEmpty; CString "z"]]]> ∅) |}.

(** A remote server that extracts the text [hello] and answers the metadata
    request with the given status. *)
Definition remote (meta_status : nat) (meta_statusText : string)
    (req : FetchRequest) : outcome Response :=
  if Js.endsWith (url req) "/meta"
  then Ok {| status := meta_status; statusText := meta_statusText; text := "{}" |}
  else Ok {| status := 200; statusText := "OK"; text := "hello" |}.

Definition env (meta_status : nat) (meta_statusText : string) : Env :=
  {| fetch := remote meta_status meta_statusText;
     json_parse := fun _ => Ok (JObject []);
     xlsx_read := fun _ => Ok workbook;
     papa_parse := fun input => default [] (Papa.parse input);
     now := fun _ => date;
     fs_fault := fun _ => None |}.

(** A workbook of one sheet with a blank row between two data rows, and the
    environment whose decoder returns it. *)
Definition blank_row_workbook : WorkBook :=
  {| SheetNames := ["Sheet1"];
     Sheets := {["Sheet1" := [ArrayRow [CString "a"; CString "b"];
                              ArrayRow [];
                              ArrayRow [CString "c"; CString "d"]]]} |}.

Definition blank_row_env : Env :=
  {| fetch := remote 200 "OK";
     json_parse := fun _ => Ok (JObject []);
     xlsx_read := fun _ => Ok blank_row_workbook;
     papa_parse := fun input => default [] (Papa.parse input);
     now := fun _ => date;
     fs_fault := fun _ => None |}.

Definition processor : DocumentProcessor := new_DocumentProcessor None.

Definition upload (name : string) : UploadedFile :=
  {| originalname := name; path := "uploads/3f2a" |}.

Definition document : ProcessedDocument :=
  {| content := "hello"; metadata := JObject []; filename := "report.pdf";
     mimeType := "application/pdf"; processingDate := date |}.

Definition world (data : Buffer) : World :=
  {| files := {["uploads/3f2a" := data]}; clock_reads := 0; requests := [];
     console := [] |}.

(** A host that draws the name [3f2a] and prints the message of an error. *)
Definition host : Host :=
  {| randomName := "3f2a"; logerror := fun err => Some (error_message err) |}.

(** A world without files. *)
Definition empty_world : World :=
  {| files := ∅; clock_reads := 0; requests := []; console := [] |}.

End Demo.

(** ** Environments for single scenarios *)

Module Scenario.

(** An environment given by the answers of the two endpoints, the outcome of
    the two decoders and the file operations the operating system refuses;
    the clock advances by one millisecond at each reading. *)
Definition env (tika meta : outcome Response) (parsed : outcome json)
    (decoded : outcome WorkBook) (faults : FsOp -> option string) : Env :=
  {| fetch := fun req => if Js.endsWith (url req) "/meta" then meta else tika;
     json_parse := fun _ => parsed;
     xlsx_read := fun _ => decoded;
     papa_parse := fun input => default [] (Papa.parse input);
     now := fun n =>
       {| year := 2024; month := 5; day := 6; hours := 7; minutes := 8;
          seconds := 9; milliseconds := N.of_nat n |};
     fs_fault := faults |}.

Definition answer (code : nat) (reason body : string) : outcome Response :=
  Ok {| status := code; statusText := reason; text := body |}.

Definition no_faults : FsOp -> option string := fun _ => None.

(** The operating system refuses every copy. *)
Definition copy_refused : FsOp -> option string :=
  fun op =>
    match op with
    | OpCopy _ _ => Some "ENOSPC: no space left on device, copyfile"
    | _ => None
    end.

(** The operating system refuses every removal. *)
Definition unlink_refused : FsOp -> option string :=
  fun op =>
    match op with
    | OpUnlink _ => Some "EPERM: operation not permitted, unlink"
    | _ => None
    end.

(** Everything works: the text [hello], empty metadata. *)
Definition healthy : Env :=
  env (answer 200 "OK" "hello") (answer 200 "OK" "{}") (Ok (JObject []))
    (Ok Demo.workbook) no_faults.

End Scenario.

(** ** Vocabulary of the statements *)

(** The concatenation of a list of strings. *)
Definition concat_strings (l : list string) : string :=
  fold_right String.append "" l.

(** What the rows of one sheet add to the text... *)
Definition rows_text (rows : list SheetRow) : string :=
  fold_left emit_row rows "".

(** ... and what one sheet adds, header and separator included. *)
Definition sheet_block (workbook : WorkBook) (sheetName : string) : string :=
  emit_sheet workbook "" sheetName.

(** Every character of [s] satisfies [P]. *)
Fixpoint all_chars (P : ascii -> bool) (s : string) : bool :=
  match s with
  | "" => true
  | String c r => P c && all_chars P r
  end.

Definition is_digit (c : ascii) : bool :=
  (48 <=? nat_of_ascii c) && (nat_of_ascii c <=? 57).

(** The characters of an ISO date string, and those of an archive
    timestamp. *)
Definition iso_char (c : ascii) : bool :=
  is_digit c || Ascii.eqb c "-" || Ascii.eqb c "T" || Ascii.eqb c "Z"
  || Ascii.eqb c "+" || Ascii.eqb c ":" || Ascii.eqb c ".".

Definition timestamp_char (c : ascii) : bool :=
  is_digit c || Ascii.eqb c "-" || Ascii.eqb c "T" || Ascii.eqb c "Z"
  || Ascii.eqb c "+".

(** The CSV text of two data rows with a blank line between them, the second
    row starting with a space. *)
Definition csv_sample : string := "a,b" +:+ Js.nl +:+ Js.nl +:+ " c,d".

(** The two requests the processor sends to the remote server. *)
Definition tika_request (this : DocumentProcessor) (file : Buffer)
    (mimeType : string) : FetchRequest :=
  {| url := tikaUrl this +:+ "/tika"; method := "PUT"; body := file;
     contentType := mimeType; accept := "text/plain" |}.

Definition meta_request (this : DocumentProcessor) (file : Buffer)
    (mimeType : string) : FetchRequest :=
  {| url := tikaUrl this +:+ "/meta"; method := "PUT"; body := file;
     contentType := mimeType; accept := "application/json" |}.

(** The step before the metadata call goes through: the remote text
    extraction answers with a success status on the document path, the
    buffer is flattened on the spreadsheet path. *)
Definition extraction_succeeds (env : Env) (this : DocumentProcessor)
    (file : Buffer) (name : string) : Prop :=
  if isSpreadsheet name then
    let ext := Js.toLowerCase (Path.extname name) in
    (ext = ".xlsx" /\ exists workbook, xlsx_read env file = Ok workbook)
    \/ ext = ".csv"
  else
    exists r,
      fetch env (tika_request this file (getMimeType name)) = Ok r
      /\ ok r = true.

(** The body of the answer to a request that failed. *)
Definition failure_body (details : string) : json :=
  JObject [("error", JString "Failed to process document");
           ("details", JString details)].

(** The world after a request went out, after a line on the console, after a
    reading of the clock, and with another file map. *)
Definition sent (req : FetchRequest) (w : World) : World :=
  {| files := files w; clock_reads := clock_reads w;
     requests := requests w ++ [req]; console := console w |}.

Definition logged (label : string) (w : World) : World :=
  {| files := files w; clock_reads := clock_reads w;
     requests := requests w; console := console w ++ [label] |}.

Definition ticked (w : World) : World :=
  {| files := files w; clock_reads := S (clock_reads w);
     requests := requests w; console := console w |}.

(** The name of an archive entry and the two paths of a save. *)
Definition archive_name (date : Date) (filename : string) : string :=
  Js.replace_colon_dot (toISOString date) +:+ "_" +:+ filename.

Definition entry_path (this : DocumentProcessor) (date : Date)
    (filename : string) : string :=
  Path.join [completedDir this; archive_name date filename] +:+ ".json".

Definition copy_path (this : DocumentProcessor) (date : Date)
    (filename : string) : string :=
  Path.join [completedDir this; "originals"; archive_name date filename].

(** What [getMetadata] returns or throws, read off the environment. *)
Definition metadata_outcome (env : Env) (this : DocumentProcessor)
    (file : Buffer) (mimeType : string) : outcome json :=
  match fetch env (meta_request this file mimeType) with
  | Throw e => Throw e
  | Ok response =>
      if negb (ok response)
      then Throw (ErrorObj ("Failed to get metadata: " +:+ statusText response))
      else json_parse env (text response)
  end.

(** The part the two processing methods share, once the text is there:
    metadata, the result record, the save. *)
Definition complete_processing (env : Env) (this : DocumentProcessor)
    (file : Buffer) (filename originalPath content : string)
  : M ProcessedDocument :=
  let* metadata := getMetadata env this file (getMimeType filename) in
  let* date := new_Date env in
  let result :=
    {| content := content; metadata := metadata; filename := filename;
       mimeType := getMimeType filename; processingDate := date |} in
  let* _ := saveProcessedDocument env this result originalPath in
  ret result.

(** The record a request that goes through returns. *)
Definition result_of (content : string) (metadata : json) (filename : string)
    (date : Date) : ProcessedDocument :=
  {| content := content; metadata := metadata; filename := filename;
     mimeType := getMimeType filename; processingDate := date |}.

(** The text the spreadsheet path extracts, when it does. *)
Definition spreadsheet_text (env : Env) (file : Buffer) (filename : string)
  : option string :=
  let ext := Js.toLowerCase (Path.extname filename) in
  if String.eqb ext ".xlsx" then
    match xlsx_read env file with
    | Ok workbook => Some (flatten_workbook workbook)
    | Throw _ => None
    end
  else if String.eqb ext ".csv" then
    Some (formattedContent (papa_parse env (toString_utf8 file)))
  else None.

(** One line per row: the values of the row joined by tabs, and a newline. *)
Definition row_line (row : SheetRow) : string :=
  join_tab (Object_values row) +:+ Js.nl.

(** [l1] is a (possibly equal) beginning of [l2]. *)
Definition begins {A} (l1 l2 : list A) : Prop := exists rest, l2 = l1 ++ rest.

(** The fields of a date fit their width in an ISO string with a four-digit
    year. *)
Definition date_in_range (d : Date) : Prop :=
  (year d <= 9999 /\ month d <= 99 /\ day d <= 99 /\ hours d <= 99
   /\ minutes d <= 99 /\ seconds d <= 99 /\ milliseconds d <= 999)%N.

(** Dates in chronological order, field by field. *)
Definition date_key (d : Date) : list N :=
  [year d; month d; day d; hours d; minutes d; seconds d; milliseconds d].

Fixpoint lex_compare (k1 k2 : list N) : comparison :=
  match k1, k2 with
  | [], [] => Eq
  | [], _ :: _ => Lt
  | _ :: _, [] => Gt
  | a :: k1', b :: k2' =>
      match (a ?= b)%N with
      | Eq => lex_compare k1' k2'
      | c => c
      end
  end.

Definition date_compare (d1 d2 : Date) : comparison :=
  lex_compare (date_key d1) (date_key d2).

(** The operating system lets a save through: the write of the entry, the
    creation of [originals] and the copy. *)
Definition storage_accepts (env : Env) (this : DocumentProcessor) (date : Date)
    (filename originalPath : string) : Prop :=
  fs_fault env (OpWrite (entry_path this date filename)) = None
  /\ fs_fault env (OpMkdir (Path.dirname (copy_path this date filename))) = None
  /\ fs_fault env (OpCopy originalPath (copy_path this date filename)) = None.

(** The requests a path sends when nothing stops it, in their order. *)
Definition expected_requests (this : DocumentProcessor) (file : Buffer)
    (filename : string) : list FetchRequest :=
  if isSpreadsheet filename
  then [meta_request this file (getMimeType filename)]
  else [tika_request this file (getMimeType filename);
        meta_request this file (getMimeType filename)].

(** [content] is the text the path of [filename] extracts from [file]: the
    text of a successful answer of the remote extraction on the document
    path, the flattened rows on the spreadsheet path. *)
Definition extracted (env : Env) (this : DocumentProcessor) (file : Buffer)
    (filename content : string) : Prop :=
  if isSpreadsheet filename
  then spreadsheet_text env file filename = Some content
  else
    exists r,
      fetch env (tika_request this file (getMimeType filename)) = Ok r
      /\ ok r = true /\ content = text r.


(** A part the upload middleware lets by without storing anything: a text
    field within the limits, or a file part without a file name. *)
Definition passes_by (part : Part) : bool :=
  match part with
  | FieldPart _ _ fieldnameTruncated valueTruncated =>
      negb fieldnameTruncated && negb valueTruncated
  | FilePart _ filename _ => String.eqb filename ""
  end.





(** * Properties *)

(** ** Strings *)

Section StringFacts.

Lemma app_cons c s t : String c s +:+ t = String c (s +:+ t).
Proof. reflexivity. Qed.

Lemma app_empty_r s : s +:+ "" = s.
Proof. induction s as [|c s IH]; [reflexivity|]. by rewrite app_cons, IH. Qed.

Lemma app_assoc' s t u : (s +:+ t) +:+ u = s +:+ (t +:+ u).
Proof. induction s as [|c s IH]; [reflexivity|]. by rewrite !app_cons, IH. Qed.

Lemma length_app s t :
  String.length (s +:+ t) = String.length s + String.length t.
Proof.
  induction s as [|c s IH]; [reflexivity|].
  rewrite app_cons. simpl. by rewrite IH.
Qed.

Lemma drop_length_app p s : Js.drop (String.length p) (p +:+ s) = s.
Proof. induction p as [|c p IH]; [by destruct s|]. rewrite app_cons. exact IH. Qed.

Lemma take_drop i s : Js.take i s +:+ Js.drop i s = s.
Proof.
  revert s. induction i as [|i IH]; intros [|c s]; try reflexivity.
  simpl. by rewrite app_cons, IH.
Qed.

Lemma take_length_ge n s : String.length s <= n -> Js.take n s = s.
Proof.
  revert s. induction n as [|n IH]; intros [|c s] H; simpl in *;
    try reflexivity; try lia.
  f_equal. apply IH. lia.
Qed.

Lemma length_drop i s : String.length (Js.drop i s) = String.length s - i.
Proof.
  revert s. induction i as [|i IH]; intros [|c s]; simpl; try lia. apply IH.
Qed.

(** A suffix is found by [endsWith]. *)
Lemma endsWith_app p s : Js.endsWith (p +:+ s) s = true.
Proof.
  unfold Js.endsWith. rewrite length_app.
  assert ((String.length s <=? String.length p + String.length s) = true) as ->
    by (apply Nat.leb_le; lia).
  replace (String.length p + String.length s - String.length s)
    with (String.length p) by lia.
  rewrite drop_length_app. apply String.eqb_refl.
Qed.

(** And [endsWith] only answers [true] for a suffix. *)
Lemma endsWith_suffix s suffix :
  Js.endsWith s suffix = true -> exists p, s = p +:+ suffix.
Proof.
  unfold Js.endsWith. destruct (_ <=? _); [|discriminate].
  remember (String.length s - String.length suffix) as k.
  intros H%String.eqb_eq. exists (Js.take k s).
  rewrite <- H. by rewrite take_drop.
Qed.

Lemma toLowerCase_app s t :
  Js.toLowerCase (s +:+ t) = Js.toLowerCase s +:+ Js.toLowerCase t.
Proof.
  induction s as [|c s IH]; [reflexivity|].
  rewrite app_cons. simpl. by rewrite IH, app_cons.
Qed.

Lemma includes_char_app c s t :
  Js.includes_char c (s +:+ t) = Js.includes_char c s || Js.includes_char c t.
Proof.
  induction s as [|a s IH]; [reflexivity|].
  rewrite app_cons. simpl. rewrite IH. by rewrite orb_assoc.
Qed.

Lemma rev_app_acc s acc : String.rev_app s acc = String.rev s +:+ acc.
Proof.
  unfold String.rev. revert acc.
  induction s as [|a s IH]; intros acc; [reflexivity|].
  simpl. rewrite IH, (IH (String a "")). by rewrite app_assoc'.
Qed.

Lemma includes_rev_app c s acc :
  Js.includes_char c (String.rev_app s acc)
  = Js.includes_char c s || Js.includes_char c acc.
Proof.
  revert acc. induction s as [|a s IH]; intros acc; [reflexivity|].
  simpl. rewrite IH. simpl. by destruct (Ascii.eqb a c), (Js.includes_char c s).
Qed.

Lemma includes_rev c s : Js.includes_char c (String.rev s) = Js.includes_char c s.
Proof. unfold String.rev. rewrite includes_rev_app. simpl. by rewrite orb_false_r. Qed.

Lemma length_rev_app s acc :
  String.length (String.rev_app s acc) = String.length s + String.length acc.
Proof.
  revert acc. induction s as [|a s IH]; intros acc; [reflexivity|].
  simpl. rewrite IH. simpl. lia.
Qed.

Lemma length_rev s : String.length (String.rev s) = String.length s.
Proof. unfold String.rev. rewrite length_rev_app. simpl. lia. Qed.

Lemma rev_rev_app s acc :
  String.rev (String.rev_app s acc) = String.rev_app acc s.
Proof.
  revert acc. induction s as [|a s IH]; intros acc; [reflexivity|].
  simpl. by rewrite IH.
Qed.

Lemma rev_involutive s : String.rev (String.rev s) = s.
Proof. unfold String.rev at 2. by rewrite rev_rev_app. Qed.

End StringFacts.

(** ** The XLSX flattener *)

Section Xlsx.

Lemma emit_row_acc result row : emit_row result row = result +:+ emit_row "" row.
Proof. by destruct row as [cells|props]; simpl; [destruct (0 <? length cells)|]. Qed.

Lemma fold_emit_row_acc rows result :
  fold_left emit_row rows result = result +:+ rows_text rows.
Proof.
  unfold rows_text. revert result.
  induction rows as [|row rows IH] using rev_ind; intros result.
  - simpl. by rewrite app_empty_r.
  - rewrite !fold_left_app. simpl.
    rewrite (emit_row_acc (fold_left _ _ result)), (emit_row_acc (fold_left _ _ "")).
    by rewrite IH, app_assoc'.
Qed.

Lemma emit_sheet_acc workbook result sheetName :
  emit_sheet workbook result sheetName = result +:+ sheet_block workbook sheetName.
Proof.
  unfold sheet_block, emit_sheet.
  destruct (1 <? length (SheetNames workbook)).
  - rewrite (fold_emit_row_acc _ (result +:+ _)), (fold_emit_row_acc _ ("" +:+ _)).
    by rewrite !app_assoc'.
  - rewrite (fold_emit_row_acc _ result), (fold_emit_row_acc _ "").
    by rewrite !app_assoc'.
Qed.

Lemma fold_emit_sheet workbook names result :
  fold_left (emit_sheet workbook) names result
  = result +:+ concat_strings (map (sheet_block workbook) names).
Proof.
  revert result. induction names as [|name names IH]; intros result; simpl.
  - by rewrite app_empty_r.
  - by rewrite IH, emit_sheet_acc, app_assoc'.
Qed.

(** The text is the blocks of the sheets, in the order of [SheetNames]. *)
Lemma flatten_workbook_blocks workbook :
  flatten_workbook workbook
  = concat_strings (map (sheet_block workbook) (SheetNames workbook)).
Proof. unfold flatten_workbook. by rewrite fold_emit_sheet. Qed.

Lemma sheet_block_multi workbook sheetName :
  1 < length (SheetNames workbook) ->
  sheet_block workbook sheetName
  = "Sheet: " +:+ sheetName +:+ Js.nl
    +:+ rows_text (sheet_to_json workbook sheetName) +:+ Js.nl.
Proof.
  intros H. unfold sheet_block, emit_sheet.
  apply Nat.ltb_lt in H. rewrite H.
  by rewrite fold_emit_row_acc, !app_assoc'.
Qed.

Lemma sheet_block_single workbook sheetName :
  length (SheetNames workbook) <= 1 ->
  sheet_block workbook sheetName
  = rows_text (sheet_to_json workbook sheetName) +:+ Js.nl.
Proof.
  intros H. unfold sheet_block, emit_sheet.
  apply Nat.ltb_ge in H. by rewrite H.
Qed.

Lemma sheet_block_ends_nl workbook sheetName :
  exists t, sheet_block workbook sheetName = t +:+ Js.nl.
Proof. unfold sheet_block, emit_sheet. eauto. Qed.

Lemma concat_strings_last (l : list string) (x : string) :
  concat_strings (l ++ [x]) = concat_strings l +:+ x.
Proof.
  induction l as [|y l IH]; simpl.
  - by rewrite app_empty_r.
  - by rewrite IH, app_assoc'.
Qed.

(** A decodable buffer is flattened without a throw and without a trace in
    the world. *)
Lemma processXLSX_ok env buffer workbook w :
  xlsx_read env buffer = Ok workbook ->
  processXLSX env buffer w = (Ok (flatten_workbook workbook), w).
Proof. intros H. unfold processXLSX, try_catch. by rewrite H. Qed.

Lemma processXLSX_throw env buffer e w :
  xlsx_read env buffer = Throw e ->
  processXLSX env buffer w
  = (Throw (ErrorObj "Failed to process XLSX file"),
     snd (console_error "XLSX processing error:" w)).
Proof. intros H. unfold processXLSX, try_catch. by rewrite H. Qed.

Lemma processCSV_ok env buffer w :
  processCSV env buffer w
  = (Ok (formattedContent (papa_parse env (toString_utf8 buffer))), w).
Proof. reflexivity. Qed.

(** The three shapes of a row. *)
Lemma emit_row_array result c cells :
  emit_row result (ArrayRow (c :: cells))
  = result +:+ Js.join Js.tab (map cell_text (c :: cells)) +:+ Js.nl.
Proof. reflexivity. Qed.

Lemma emit_row_object result props :
  emit_row result (ObjectRow props)
  = result +:+ Js.join Js.tab (map cell_text (map snd props)) +:+ Js.nl.
Proof. reflexivity. Qed.

Lemma emit_row_empty_array result :
  emit_row result (ArrayRow []) = result +:+ Js.nl.
Proof. reflexivity. Qed.

End Xlsx.

(** C3.  In a workbook of more than one sheet every sheet's rows are preceded
    by the line [Sheet: <name>], sheet after sheet in the order of
    [SheetNames] (so for two sheets [a], [b] the header of [a] comes before
    the header of [b]); in a workbook of exactly one sheet the text is the
    rows and the separator, with no header line. *)
Theorem xlsx_sheet_headers env buffer workbook w :
  xlsx_read env buffer = Ok workbook ->
  (1 < length (SheetNames workbook) ->
     processXLSX env buffer w
     = (Ok (concat_strings
              (map (fun name =>
                      "Sheet: " +:+ name +:+ Js.nl
                      +:+ rows_text (sheet_to_json workbook name) +:+ Js.nl)
                 (SheetNames workbook))), w))
  /\ (forall a b, SheetNames workbook = [a; b] ->
        processXLSX env buffer w
        = (Ok ("Sheet: " +:+ a +:+ Js.nl
               +:+ rows_text (sheet_to_json workbook a) +:+ Js.nl
               +:+ "Sheet: " +:+ b +:+ Js.nl
               +:+ rows_text (sheet_to_json workbook b) +:+ Js.nl), w))
  /\ (forall name, SheetNames workbook = [name] ->
        processXLSX env buffer w
        = (Ok (rows_text (sheet_to_json workbook name) +:+ Js.nl), w)).
Proof.
  intros Hread. rewrite (processXLSX_ok _ _ _ _ Hread), flatten_workbook_blocks.
  split; [|split].
  - intros Hmany. do 3 f_equal. apply map_ext. intros name.
    by apply sheet_block_multi.
  - intros a b Hnames. do 2 f_equal. rewrite Hnames. simpl.
    rewrite !sheet_block_multi by (rewrite Hnames; simpl; lia).
    by rewrite app_empty_r, !app_assoc'.
  - intros name Hnames. do 2 f_equal. rewrite Hnames. simpl.
    rewrite sheet_block_single by (rewrite Hnames; simpl; lia).
    by rewrite app_empty_r.
Qed.

Lemma xlsx_sheet_headers_witness :
  xlsx_read (Demo.env 200 "OK") "PK" = Ok Demo.workbook
  /\ 1 < length (SheetNames Demo.workbook)
  /\ processXLSX (Demo.env 200 "OK") "PK" (Demo.world "PK")
     = (Ok ("Sheet: A" +:+ Js.nl +:+ "x" +:+ Js.tab +:+ "1" +:+ Js.nl
            +:+ "y" +:+ Js.nl +:+ Js.nl
            +:+ "Sheet: B" +:+ Js.nl
            +:+ "true" +:+ Js.tab +:+ Js.tab +:+ "z" +:+ Js.nl +:+ Js.nl),
        Demo.world "PK").
Proof.
  split; [reflexivity|]. split; [simpl; lia|].
  rewrite (proj1 (xlsx_sheet_headers (Demo.env 200 "OK") "PK" Demo.workbook
                    (Demo.world "PK") eq_refl)) by (simpl; lia).
  reflexivity.
Defined.

(** C4 (the code departs from it).  A row that is a non-empty sequence is
    emitted as its cells joined by tabs and a row that is a mapping as its
    values, in their enumeration order, joined by tabs; but a row that is an
    empty sequence is not skipped: it is emitted as an empty line.  For a
    sheet with the rows [a b], the empty row and [c d], the text has a blank
    line between the two data rows. *)
Theorem xlsx_empty_row_emits_blank_line env buffer w :
  xlsx_read env buffer = Ok Demo.blank_row_workbook ->
  (forall result c cells,
     emit_row result (ArrayRow (c :: cells))
     = result +:+ Js.join Js.tab (map cell_text (c :: cells)) +:+ Js.nl)
  /\ (forall result props,
        emit_row result (ObjectRow props)
        = result +:+ Js.join Js.tab (map cell_text (map snd props)) +:+ Js.nl)
  /\ (forall result, emit_row result (ArrayRow []) = result +:+ Js.nl)
  /\ processXLSX env buffer w
     = (Ok ("a" +:+ Js.tab +:+ "b" +:+ Js.nl
            +:+ Js.nl
            +:+ "c" +:+ Js.tab +:+ "d" +:+ Js.nl
            +:+ Js.nl), w)
  /\ fst (processXLSX env buffer w)
     <> Ok ("a" +:+ Js.tab +:+ "b" +:+ Js.nl
            +:+ "c" +:+ Js.tab +:+ "d" +:+ Js.nl
            +:+ Js.nl).
Proof.
  intros Hread. rewrite (processXLSX_ok _ _ _ _ Hread).
  split; [exact emit_row_array|].
  split; [exact emit_row_object|].
  split; [exact emit_row_empty_array|].
  split; [reflexivity|].
  simpl. intros H. discriminate H.
Qed.

Lemma xlsx_empty_row_emits_blank_line_witness :
  processXLSX Demo.blank_row_env "PK" (Demo.world "PK")
  = (Ok ("a" +:+ Js.tab +:+ "b" +:+ Js.nl +:+ Js.nl
         +:+ "c" +:+ Js.tab +:+ "d" +:+ Js.nl +:+ Js.nl), Demo.world "PK").
Proof.
  destruct (xlsx_empty_row_emits_blank_line Demo.blank_row_env "PK"
              (Demo.world "PK") eq_refl) as [_ [_ [_ [Hrun _]]]].
  exact Hrun.
Defined.

(** C9.  The text of a workbook with at least one sheet ends with a newline:
    it is made of one block per sheet, each block ends with the separator
    newline, the block of the last sheet included. *)
Theorem xlsx_output_ends_with_newline env buffer workbook w :
  xlsx_read env buffer = Ok workbook ->
  SheetNames workbook <> [] ->
  exists out,
    processXLSX env buffer w = (Ok out, w)
    /\ Js.endsWith out Js.nl = true
    /\ out = concat_strings (map (sheet_block workbook) (SheetNames workbook))
    /\ Forall (fun block => Js.endsWith block Js.nl = true)
         (map (sheet_block workbook) (SheetNames workbook)).
Proof.
  intros Hread Hnames. exists (flatten_workbook workbook).
  split; [by apply processXLSX_ok|].
  rewrite flatten_workbook_blocks. split; [|split; [reflexivity|]].
  - destruct (SheetNames workbook) as [|n ns] using rev_ind; [done|].
    rewrite map_app. simpl. rewrite concat_strings_last.
    destruct (sheet_block_ends_nl workbook n) as [t ->].
    rewrite <- app_assoc'. apply endsWith_app.
  - clear Hnames. induction (SheetNames workbook) as [|name names IH];
      simpl; constructor; [|exact IH].
    destruct (sheet_block_ends_nl workbook name) as [t ->].
    apply endsWith_app.
Qed.

Lemma xlsx_output_ends_with_newline_witness :
  exists out,
    processXLSX (Demo.env 200 "OK") "PK" (Demo.world "PK")
    = (Ok out, Demo.world "PK")
    /\ Js.endsWith out Js.nl = true.
Proof.
  destruct (xlsx_output_ends_with_newline (Demo.env 200 "OK") "PK"
              Demo.workbook (Demo.world "PK") eq_refl)
    as [out [H1 [H2 _]]]; [discriminate|].
  exists out. split; assumption.
Defined.

(** C10.  The two flatteners are deterministic: the returned string, or the
    error, is the same in any two runs on the same buffer, whatever the state
    of the world (files, clock, earlier requests, console) and whatever the
    remote server, the clock and the operating system do; only the decoding
    of the bytes counts. *)
Theorem flatteners_deterministic env1 env2 buffer w1 w2 :
  xlsx_read env1 buffer = xlsx_read env2 buffer ->
  papa_parse env1 (toString_utf8 buffer)
  = papa_parse env2 (toString_utf8 buffer) ->
  fst (processXLSX env1 buffer w1) = fst (processXLSX env2 buffer w2)
  /\ fst (processCSV env1 buffer w1) = fst (processCSV env2 buffer w2).
Proof.
  intros Hread Hparse. split.
  - destruct (xlsx_read env2 buffer) as [workbook|e] eqn:Hread2.
    + by rewrite (processXLSX_ok _ _ _ _ Hread), (processXLSX_ok _ _ _ _ Hread2).
    + by rewrite (processXLSX_throw _ _ _ _ Hread),
        (processXLSX_throw _ _ _ _ Hread2).
  - rewrite !processCSV_ok. simpl. by rewrite Hparse.
Qed.

Lemma flatteners_deterministic_witness :
  fst (processXLSX (Demo.env 200 "OK") "PK" (Demo.world "PK"))
  = fst (processXLSX (Demo.env 500 "Internal Server Error") "PK"
           (Demo.world "other"))
  /\ fst (processCSV (Demo.env 200 "OK") csv_sample (Demo.world "PK"))
     = fst (processCSV (Demo.env 500 "Internal Server Error") csv_sample
              (Demo.world "other")).
Proof.
  split.
  - apply (flatteners_deterministic (Demo.env 200 "OK")
             (Demo.env 500 "Internal Server Error") "PK");
      reflexivity.
  - apply (flatteners_deterministic (Demo.env 200 "OK")
             (Demo.env 500 "Internal Server Error") csv_sample);
      reflexivity.
Defined.

(** ** Extensions and routing *)

Section Extensions.

(** Once the end of the last component is known, the scan keeps it. *)
Lemma extname_loop_end rpath st e :
  Path.end_ st = Some e -> Path.end_ (Path.extname_loop rpath st) = Some e.
Proof.
  revert st. induction rpath as [|code rest IH]; intros st Hend; [exact Hend|].
  simpl. destruct (Ascii.eqb code "/").
  - destruct (negb (Path.matchedSlash st)); [exact Hend | by apply IH].
  - rewrite Hend. apply IH.
    destruct (Ascii.eqb code "."), (Path.startDot st); simpl; try done.
    by destruct (negb _).
Qed.

(** In a name without [/] the extension is a suffix of the name. *)
Lemma extname_suffix name :
  Js.includes_char "/" name = false -> exists p, name = p +:+ Path.extname name.
Proof.
  intros Hslash. unfold Path.extname.
  pose proof (includes_rev "/" name) as Hrev. rewrite Hslash in Hrev.
  pose proof (length_rev name) as Hlen.
  destruct (String.rev name) as [|code rest]; simpl in *.
  { exists name. by rewrite app_empty_r. }
  apply orb_false_elim in Hrev as [Hcode _]. rewrite Hcode.
  match goal with |- context [Path.extname_loop rest ?st] =>
    pose proof (extname_loop_end rest st (String.length rest + 1)) as Hend;
    set (final := Path.extname_loop rest st) in *
  end.
  rewrite Hend by (by destruct (Ascii.eqb code ".")).
  destruct (Path.startDot final) as [sd|]; [|exists name; by rewrite app_empty_r].
  destruct (_ || _); [exists name; by rewrite app_empty_r|].
  exists (Js.take sd name). unfold Js.slice.
  rewrite (take_length_ge _ (Js.drop sd name)) by (rewrite length_drop; lia).
  by rewrite take_drop.
Qed.

(** The scan only ever records the position of a [.]: [done] is the part of
    the path behind the characters still to scan. *)
Lemma extname_loop_startDot rpath done st :
  (forall sd, Path.startDot st = Some sd ->
     exists t, Js.drop sd (String.rev rpath +:+ done) = String "." t) ->
  forall sd, Path.startDot (Path.extname_loop rpath st) = Some sd ->
    exists t, Js.drop sd (String.rev rpath +:+ done) = String "." t.
Proof.
  revert done st. induction rpath as [|code rest IH]; intros done st Hst.
  { exact Hst. }
  assert (String.rev (String code rest) +:+ done
          = String.rev rest +:+ String code done) as Hpath.
  { unfold String.rev. simpl. by rewrite rev_app_acc, app_assoc'. }
  rewrite Hpath in *. simpl Path.extname_loop.
  destruct (Ascii.eqb code "/").
  - destruct (negb (Path.matchedSlash st)); [exact Hst | by apply IH].
  - apply IH. intros sd.
    destruct (Ascii.eqb code ".") eqn:Hdot.
    + apply Ascii.eqb_eq in Hdot as ->.
      destruct (Path.end_ st), (Path.startDot st) eqn:Hsd; simpl;
        try (destruct (negb _); simpl); rewrite ?Hsd;
        try (intros [= <-]; rewrite <- (length_rev rest), drop_length_app; eauto);
        try (intros ?; by apply Hst).
    + destruct (Path.end_ st), (Path.startDot st) eqn:Hsd; simpl; rewrite ?Hsd;
        try discriminate; intros ?; by apply Hst.
Qed.

(** An extension is empty or starts with [.]: it is never the name of a
    property that a JavaScript object inherits, so looking it up in the
    table of [getMimeType] only finds the entries of the table. *)
Lemma extname_dot name :
  Path.extname name = "" \/ exists t, Path.extname name = String "." t.
Proof.
  unfold Path.extname.
  pose proof (extname_loop_startDot (String.rev name) "" Path.ext_init) as H.
  rewrite rev_involutive, app_empty_r in H.
  destruct (Path.startDot (Path.extname_loop _ _)) as [sd|]; [|by left].
  destruct (Path.end_ _) as [e|]; [|by left].
  destruct (_ || _); [by left|].
  destruct (H ltac:(discriminate) sd eq_refl) as [t Ht].
  unfold Js.slice. rewrite Ht.
  destruct (e - sd); simpl; eauto.
Qed.

Lemma lower_char_slash c : Ascii.eqb (Js.lower_char c) "/" = Ascii.eqb c "/".
Proof. by destruct c as [[] [] [] [] [] [] [] []]. Qed.

Lemma lower_char_dot c : Ascii.eqb (Js.lower_char c) "." = Ascii.eqb c ".".
Proof. by destruct c as [[] [] [] [] [] [] [] []]. Qed.

Lemma lower_char_idem c : Js.lower_char (Js.lower_char c) = Js.lower_char c.
Proof. by destruct c as [[] [] [] [] [] [] [] []]. Qed.

Lemma toLowerCase_idem s : Js.toLowerCase (Js.toLowerCase s) = Js.toLowerCase s.
Proof. induction s as [|c s IH]; simpl; [done|]. by rewrite lower_char_idem, IH. Qed.

Lemma length_toLowerCase s : String.length (Js.toLowerCase s) = String.length s.
Proof. induction s as [|c s IH]; simpl; congruence. Qed.

Lemma rev_app_toLowerCase s acc :
  String.rev_app (Js.toLowerCase s) (Js.toLowerCase acc)
  = Js.toLowerCase (String.rev_app s acc).
Proof.
  revert acc. induction s as [|c s IH]; intros acc; [reflexivity|].
  simpl. by rewrite <- IH.
Qed.

Lemma rev_toLowerCase s :
  String.rev (Js.toLowerCase s) = Js.toLowerCase (String.rev s).
Proof. apply (rev_app_toLowerCase s ""). Qed.

Lemma drop_toLowerCase i s :
  Js.drop i (Js.toLowerCase s) = Js.toLowerCase (Js.drop i s).
Proof. revert s. induction i as [|i IH]; intros [|c s]; simpl; auto. Qed.

Lemma take_toLowerCase n s :
  Js.take n (Js.toLowerCase s) = Js.toLowerCase (Js.take n s).
Proof.
  revert s. induction n as [|n IH]; intros [|c s]; simpl; auto.
  by rewrite IH.
Qed.

(** The scan looks at a character only to tell [/] and [.] from the rest, so
    the letter case does not matter to it. *)
Lemma extname_loop_toLowerCase rpath st :
  Path.extname_loop (Js.toLowerCase rpath) st = Path.extname_loop rpath st.
Proof.
  revert st. induction rpath as [|code rest IH]; intros st; [reflexivity|].
  simpl. rewrite lower_char_slash, lower_char_dot, length_toLowerCase.
  destruct (Ascii.eqb code "/").
  - destruct (negb _); [reflexivity | apply IH].
  - apply IH.
Qed.

Lemma extname_toLowerCase name :
  Path.extname (Js.toLowerCase name) = Js.toLowerCase (Path.extname name).
Proof.
  unfold Path.extname.
  rewrite rev_toLowerCase, extname_loop_toLowerCase.
  destruct (Path.startDot _) as [sd|]; [|reflexivity].
  destruct (Path.end_ _) as [e|]; [|reflexivity].
  destruct (_ || _); [reflexivity|].
  unfold Js.slice. by rewrite drop_toLowerCase, take_toLowerCase.
Qed.

(** Two names that differ in letter case only have the same type. *)
Lemma getMimeType_case name name' :
  Js.toLowerCase name' = Js.toLowerCase name ->
  getMimeType name' = getMimeType name.
Proof.
  intros H. unfold getMimeType.
  by rewrite <- !extname_toLowerCase, H.
Qed.

Lemma isSpreadsheet_suffix name :
  isSpreadsheet name = true
  <-> Js.endsWith (Js.toLowerCase name) ".xlsx" = true
      \/ Js.endsWith (Js.toLowerCase name) ".csv" = true.
Proof.
  unfold isSpreadsheet. simpl. rewrite orb_false_r, orb_true_iff. tauto.
Qed.

(** The extension, lowered, is a suffix of the lowered name. *)
Lemma extension_endsWith name ext :
  Js.includes_char "/" name = false ->
  Js.toLowerCase (Path.extname name) = ext ->
  Js.endsWith (Js.toLowerCase name) ext = true.
Proof.
  intros Hslash <-. destruct (extname_suffix name Hslash) as [p Hp].
  rewrite Hp at 1. rewrite toLowerCase_app. apply endsWith_app.
Qed.

Lemma processSpreadsheet_unsupported env this file name originalPath w :
  Js.toLowerCase (Path.extname name) <> ".xlsx" ->
  Js.toLowerCase (Path.extname name) <> ".csv" ->
  processSpreadsheet env this file name originalPath w
  = (Throw (ErrorObj "Unsupported spreadsheet format"),
     snd (console_error "Spreadsheet processing error:" w)).
Proof.
  intros Hx Hc. unfold processSpreadsheet, try_catch, bind.
  apply String.eqb_neq in Hx, Hc. rewrite Hx, Hc. reflexivity.
Qed.

End Extensions.

(** C6.  [getMimeType] looks the lowered extension of the name up in the
    fixed table: the five known extensions give their documented type, every
    other extension gives [application/octet-stream], and the letter case of
    the name does not matter. *)
Theorem getMimeType_table name :
  let ext := Js.toLowerCase (Path.extname name) in
  (ext = ".pdf" -> getMimeType name = "application/pdf")
  /\ (ext = ".docx" ->
      getMimeType name
      = "application/vnd.openxmlformats-officedocument.wordprocessingml.document")
  /\ (ext = ".xlsx" ->
      getMimeType name
      = "application/vnd.openxmlformats-officedocument.spreadsheetml.sheet")
  /\ (ext = ".txt" -> getMimeType name = "text/plain")
  /\ (ext = ".csv" -> getMimeType name = "text/csv")
  /\ (ext <> ".pdf" -> ext <> ".docx" -> ext <> ".xlsx" -> ext <> ".txt" ->
      ext <> ".csv" -> getMimeType name = "application/octet-stream")
  /\ (forall name',
        Js.toLowerCase name' = Js.toLowerCase name ->
        getMimeType name' = getMimeType name).
Proof.
  intros ext. unfold getMimeType at 1 2 3 4 5 6. fold ext.
  repeat split; try (intros ->; reflexivity).
  - intros H1 H2 H3 H4 H5. unfold mimeTypes.
    rewrite !lookup_insert_ne by done. by rewrite lookup_empty.
  - intros name'. apply getMimeType_case.
Qed.

Lemma getMimeType_table_witness :
  getMimeType "Report.PDF" = "application/pdf"
  /\ getMimeType "notes.Txt" = "text/plain"
  /\ getMimeType "archive.tar.gz" = "application/octet-stream"
  /\ getMimeType "DATA.CSV" = getMimeType "data.csv".
Proof.
  destruct (getMimeType_table "Report.PDF") as [Hpdf _].
  destruct (getMimeType_table "notes.Txt") as [_ [_ [_ [Htxt _]]]].
  destruct (getMimeType_table "archive.tar.gz")
    as [_ [_ [_ [_ [_ [Hother _]]]]]].
  destruct (getMimeType_table "data.csv") as [_ [_ [_ [_ [_ [_ Hcase]]]]]].
  split; [|split; [|split]].
  - apply Hpdf. vm_compute. reflexivity.
  - apply Htxt. vm_compute. reflexivity.
  - apply Hother; vm_compute; discriminate.
  - apply Hcase. vm_compute. reflexivity.
Defined.

(** C1, as the code has it.  A request goes to the spreadsheet path exactly
    when the lowered file name ends with [.xlsx] or [.csv], and to the
    document path otherwise.  A name (without [/]) whose extension is
    [.xlsx] or [.csv] in any letter case is such a name; and a name sent to
    the spreadsheet path whose extension is neither of the two fails with
    the unsupported-format error. *)
Theorem routing_by_suffix env processor fileBuffer file :
  let name := originalname file in
  let ext := Js.toLowerCase (Path.extname name) in
  (isSpreadsheet name = true
   <-> Js.endsWith (Js.toLowerCase name) ".xlsx" = true
       \/ Js.endsWith (Js.toLowerCase name) ".csv" = true)
  /\ (isSpreadsheet name = true ->
      dispatch env processor fileBuffer file
      = processSpreadsheet env processor fileBuffer name (path file))
  /\ (isSpreadsheet name = false ->
      dispatch env processor fileBuffer file
      = processDocument env processor fileBuffer name (path file))
  /\ (Js.includes_char "/" name = false -> ext = ".xlsx" \/ ext = ".csv" ->
      isSpreadsheet name = true)
  /\ (ext <> ".xlsx" -> ext <> ".csv" ->
      forall w,
        processSpreadsheet env processor fileBuffer name (path file) w
        = (Throw (ErrorObj "Unsupported spreadsheet format"),
           snd (console_error "Spreadsheet processing error:" w)))
  /\ (isSpreadsheet name = true -> ext <> ".xlsx" -> ext <> ".csv" ->
      forall w,
        fs_fault env (OpRead (path file)) = None ->
        files w !! path file = Some fileBuffer ->
        fst (handler env processor (Some file) w)
        = {| statusCode := 500;
             json_body := failure_body "Unsupported spreadsheet format" |}).
Proof.
  intros name ext. subst name ext. split; [apply isSpreadsheet_suffix|].
  split; [unfold dispatch; intros ->; reflexivity|].
  split; [unfold dispatch; intros ->; reflexivity|].
  split; [|split].
  - intros Hslash Hext. apply isSpreadsheet_suffix.
    destruct Hext as [Hext|Hext]; [left|right];
      by apply extension_endsWith.
  - intros Hx Hc w. by apply processSpreadsheet_unsupported.
  - intros Hroute Hx Hc w Hfault Hfile.
    unfold handler, process_upload, bind, readFile, dispatch.
    rewrite Hfault, Hfile, Hroute.
    rewrite (processSpreadsheet_unsupported _ _ _ _ _ _ Hx Hc).
    reflexivity.
Qed.

Lemma routing_by_suffix_witness :
  isSpreadsheet "Sales.XLSX" = true
  /\ dispatch (Demo.env 200 "OK") Demo.processor "PK" (Demo.upload ".csv")
     = processSpreadsheet (Demo.env 200 "OK") Demo.processor "PK" ".csv"
         "uploads/3f2a"
  /\ dispatch (Demo.env 200 "OK") Demo.processor "PK" (Demo.upload "a.pdf")
     = processDocument (Demo.env 200 "OK") Demo.processor "PK" "a.pdf"
         "uploads/3f2a"
  /\ processSpreadsheet (Demo.env 200 "OK") Demo.processor "PK" ".csv"
       "uploads/3f2a" (Demo.world "PK")
     = (Throw (ErrorObj "Unsupported spreadsheet format"),
        snd (console_error "Spreadsheet processing error:" (Demo.world "PK")))
  /\ fst (handler (Demo.env 200 "OK") Demo.processor
            (Some (Demo.upload ".csv")) (Demo.world "PK"))
     = {| statusCode := 500;
          json_body := failure_body "Unsupported spreadsheet format" |}.
Proof.
  pose proof (routing_by_suffix (Demo.env 200 "OK") Demo.processor "PK"
                (Demo.upload "Sales.XLSX")) as [_ [_ [_ [H1 _]]]].
  pose proof (routing_by_suffix (Demo.env 200 "OK") Demo.processor "PK"
                (Demo.upload ".csv")) as [_ [H2 [_ [_ [H4 H5]]]]].
  pose proof (routing_by_suffix (Demo.env 200 "OK") Demo.processor "PK"
                (Demo.upload "a.pdf")) as [_ [_ [H3 _]]].
  split; [apply H1; [|left]; vm_compute; reflexivity|].
  split; [apply H2; vm_compute; reflexivity|].
  split; [apply H3; vm_compute; reflexivity|].
  split; [apply H4; vm_compute; discriminate|].
  apply H5; try (vm_compute; discriminate); vm_compute; reflexivity.
Defined.

(** C1, as stated, fails: the upload named [.csv] goes to the spreadsheet
    path although it has no extension. *)
Lemma routing_not_by_extension :
  ~ (forall name,
       isSpreadsheet name = true
       <-> Js.toLowerCase (Path.extname name) = ".xlsx"
           \/ Js.toLowerCase (Path.extname name) = ".csv").
Proof.
  intros H.
  assert (isSpreadsheet ".csv" = true) as Hroute by (vm_compute; reflexivity).
  apply H in Hroute. vm_compute in Hroute.
  destruct Hroute as [Hx|Hc]; discriminate.
Qed.

(** ** Archive names *)

Section ArchiveNames.

Lemma startsWith_slash c r : Js.startsWith (String c r) "/" = Ascii.eqb c "/".
Proof.
  change (Js.startsWith (String c r) "/")
    with (if Ascii.eqb "/" c then Js.startsWith r "" else false).
  rewrite Ascii.eqb_sym. by destruct (Ascii.eqb c "/").
Qed.

(** A string without [/] is one piece for [split]. *)
Lemma split_go_no_slash s cur :
  Js.includes_char "/" s = false ->
  Js.split_go "/" s 0 cur = [String.rev cur +:+ s].
Proof.
  revert cur. induction s as [|c s IH]; intros cur H.
  - simpl. by rewrite app_empty_r.
  - simpl in H. apply orb_false_elim in H as [Hc Hs].
    change (Js.split_go "/" (String c s) 0 cur)
      with (if Js.startsWith (String c s) "/"
            then String.rev cur :: Js.split_go "/" s 0 ""
            else Js.split_go "/" s 0 (String c cur)).
    rewrite startsWith_slash, Hc, IH by exact Hs.
    unfold String.rev. simpl. rewrite rev_app_acc. by rewrite app_assoc'.
Qed.

(** The last character of a non-empty string without [c] is not [c]. *)
Lemma endsWith_char_includes c p s :
  s <> "" -> Js.endsWith (p +:+ s) (String c "") = true ->
  Js.includes_char c s = true.
Proof.
  intros Hs [q Hq]%endsWith_suffix. revert q Hq.
  induction p as [|a p IH]; intros q Hq.
  - change ("" +:+ s) with s in Hq. rewrite Hq, includes_char_app. simpl.
    rewrite Ascii.eqb_refl. by rewrite orb_true_r.
  - destruct q as [|b q].
    + rewrite app_cons in Hq. change ("" +:+ String c "") with (String c "") in Hq.
      injection Hq as _ Hq. by destruct p, s.
    + rewrite !app_cons in Hq. injection Hq as _ Hq. by apply (IH q).
Qed.

(** Where the archive entry goes: [path.join] of the archive root and a
    plain file name. *)
Lemma join_completed name :
  Js.includes_char "/" name = false ->
  name <> "" -> name <> "." -> name <> ".." ->
  Path.join ["./completed"; name] = "completed/" +:+ name.
Proof.
  intros Hslash H0 H1 H2.
  apply String.eqb_neq in H0 as H0', H1 as H1', H2 as H2'.
  unfold Path.join. simpl List.filter. rewrite H0'. simpl negb. cbv iota.
  change (Js.join "/" ["./completed"; name]) with ("./completed/" +:+ name).
  unfold Path.normalize.
  assert (Js.endsWith ("./completed/" +:+ name) "/" = false) as Hend.
  { destruct (Js.endsWith _ _) eqn:E; [|reflexivity].
    apply endsWith_char_includes in E; congruence. }
  assert (Path.normalizeString ("./completed/" +:+ name) true
          = "completed/" +:+ name) as Hnorm.
  { unfold Path.normalizeString, Js.split.
    cbv [String.append]. simpl Js.split_go.
    rewrite split_go_no_slash by exact Hslash.
    change (String.rev "" +:+ name) with name.
    simpl. rewrite H0', H1'. simpl. rewrite H2'. reflexivity. }
  cbv [String.append] in *. simpl Js.startsWith. simpl negb. cbv iota zeta.
  rewrite Hend, Hnorm. reflexivity.
Qed.

Lemma join_originals name :
  Js.includes_char "/" name = false ->
  name <> "" -> name <> "." -> name <> ".." ->
  Path.join ["./completed"; "originals"; name] = "completed/originals/" +:+ name.
Proof.
  intros Hslash H0 H1 H2.
  apply String.eqb_neq in H0 as H0', H1 as H1', H2 as H2'.
  unfold Path.join. simpl List.filter. rewrite H0'. simpl negb. cbv iota.
  change (Js.join "/" ["./completed"; "originals"; name])
    with ("./completed/originals/" +:+ name).
  unfold Path.normalize.
  assert (Js.endsWith ("./completed/originals/" +:+ name) "/" = false) as Hend.
  { destruct (Js.endsWith _ _) eqn:E; [|reflexivity].
    apply endsWith_char_includes in E; congruence. }
  assert (Path.normalizeString ("./completed/originals/" +:+ name) true
          = "completed/originals/" +:+ name) as Hnorm.
  { unfold Path.normalizeString, Js.split.
    cbv [String.append]. simpl Js.split_go.
    rewrite split_go_no_slash by exact Hslash.
    change (String.rev "" +:+ name) with name.
    simpl. rewrite H0', H1'. simpl. rewrite H2'. reflexivity. }
  cbv [String.append] in *. simpl Js.startsWith. simpl negb. cbv iota zeta.
  rewrite Hend, Hnorm. reflexivity.
Qed.

Lemma all_chars_app P s t :
  all_chars P (s +:+ t) = all_chars P s && all_chars P t.
Proof.
  induction s as [|c s IH]; [reflexivity|].
  rewrite app_cons. simpl. by rewrite IH, andb_assoc.
Qed.

Lemma all_chars_includes P c s :
  all_chars P s = true -> P c = false -> Js.includes_char c s = false.
Proof.
  intros Hall Hc. induction s as [|a s IH]; [reflexivity|].
  simpl in *. apply andb_prop in Hall as [Ha Hs]. rewrite (IH Hs), orb_false_r.
  apply Ascii.eqb_neq. intros ->. congruence.
Qed.

Lemma digit_is_digit n : is_digit (digit n) = true.
Proof.
  unfold digit. pose proof (N.mod_upper_bound n 10) as Hlt.
  destruct (n mod 10)%N as [|p] eqn:E; [reflexivity|].
  assert (p = 1 \/ p = 2 \/ p = 3 \/ p = 4 \/ p = 5 \/ p = 6 \/ p = 7
          \/ p = 8 \/ p = 9)%positive as Hp by lia.
  by repeat (destruct Hp as [->|Hp]; [reflexivity|]); subst.
Qed.

Lemma digit_iso n : iso_char (digit n) = true.
Proof. unfold iso_char. by rewrite digit_is_digit. Qed.

Lemma toISOString_chars d : all_chars iso_char (toISOString d) = true.
Proof.
  unfold toISOString, pad6, pad4, pad3, pad2.
  destruct (year d <=? 9999)%N;
    rewrite ?all_chars_app; simpl; rewrite ?digit_iso; reflexivity.
Qed.

Lemma dash_char_timestamp c :
  iso_char c = true -> timestamp_char (Js.dash_char c) = true.
Proof.
  unfold iso_char, timestamp_char, Js.dash_char.
  destruct (Ascii.eqb c ":") eqn:E1; [reflexivity|].
  destruct (Ascii.eqb c ".") eqn:E2; [reflexivity|].
  simpl. by rewrite !orb_false_r.
Qed.

(** The timestamp of an archive name is made of digits, [-], [T], [Z] and
    [+] only. *)
Lemma timestamp_chars d :
  all_chars timestamp_char (Js.replace_colon_dot (toISOString d)) = true.
Proof.
  pose proof (toISOString_chars d) as H.
  induction (toISOString d) as [|c s IH]; [reflexivity|].
  simpl in *. apply andb_prop in H as [Hc Hs].
  by rewrite dash_char_timestamp, IH.
Qed.

Lemma underscore_name a b :
  let name := a +:+ "_" +:+ b in name <> "" /\ name <> "." /\ name <> "..".
Proof.
  intros name.
  assert (Js.includes_char "_" name = true) as H.
  { unfold name. rewrite !includes_char_app. simpl. by rewrite orb_true_r. }
  repeat split; intros E; rewrite E in H; discriminate H.
Qed.

End ArchiveNames.

(** ** Persistence *)

Section Persistence.

Lemma length_replace_colon_dot s :
  String.length (Js.replace_colon_dot s) = String.length s.
Proof. induction s as [|c s IH]; simpl; congruence. Qed.

Lemma archive_name_plain d name :
  Js.includes_char "/" name = false ->
  let outputFilename := Js.replace_colon_dot (toISOString d) +:+ "_" +:+ name in
  Js.includes_char "/" outputFilename = false
  /\ outputFilename <> "" /\ outputFilename <> "." /\ outputFilename <> "..".
Proof.
  intros Hname outputFilename. split; [|apply underscore_name].
  unfold outputFilename. rewrite !includes_char_app, Hname.
  by rewrite (all_chars_includes _ _ _ (timestamp_chars d)).
Qed.

(** What a save that returns has done to the files. *)
Lemma saveProcessedDocument_ok env this result originalPath w w' :
  saveProcessedDocument env this result originalPath w = (Ok tt, w') ->
  let outputFilename :=
    Js.replace_colon_dot (toISOString (now env (clock_reads w)))
    +:+ "_" +:+ filename result in
  let entry := Path.join [completedDir this; outputFilename] +:+ ".json" in
  let copy := Path.join [completedDir this; "originals"; outputFilename] in
  let written := <[entry := Json.stringify2 (outputData result)]> (files w) in
  exists original,
    written !! originalPath = Some original
    /\ files w' = <[copy := original]> written.
Proof.
  unfold saveProcessedDocument, bind, new_Date, writeFile, mkdir_recursive,
    copyFile. simpl.
  destruct (fs_fault env (OpWrite _)); [discriminate|].
  destruct (fs_fault env (OpMkdir _)); [discriminate|].
  destruct (fs_fault env (OpCopy _ _)); [discriminate|].
  destruct (_ !! originalPath) as [original|] eqn:Hsrc; [|discriminate].
  intros [= <-]. exists original. split; reflexivity.
Qed.

End Persistence.

(** C7.  A save that succeeds writes one JSON entry, the file
    [<timestamp>_<filename>.json] of the archive root, and one copy of the
    original, the file [<timestamp>_<filename>] of [originals], and nothing
    else; the two names carry the same timestamp, the ISO string of one
    reading of the clock with every [:] and [.] replaced by [-].  For a file
    name without [/], as the upload middleware hands it over in
    [originalname], the two paths are
    [completed/<timestamp>_<filename>.json] and
    [completed/originals/<timestamp>_<filename>], and they differ. *)
Theorem save_writes_one_entry_and_one_copy env TIKA_SERVER_URL result
    originalPath w w' :
  saveProcessedDocument env (new_DocumentProcessor TIKA_SERVER_URL) result
    originalPath w = (Ok tt, w') ->
  let timestamp := Js.replace_colon_dot (toISOString (now env (clock_reads w))) in
  let name := timestamp +:+ "_" +:+ filename result in
  let entry := Path.join ["./completed"; name] +:+ ".json" in
  let copy := Path.join ["./completed"; "originals"; name] in
  let written := <[entry := Json.stringify2 (outputData result)]> (files w) in
  Js.includes_char ":" timestamp = false
  /\ Js.includes_char "." timestamp = false
  /\ String.length timestamp
     = String.length (toISOString (now env (clock_reads w)))
  /\ (exists original,
        written !! originalPath = Some original
        /\ files w' = <[copy := original]> written
        /\ files w' !! copy = Some original)
  /\ (forall p, p <> entry -> p <> copy -> files w' !! p = files w !! p)
  /\ (Js.includes_char "/" (filename result) = false ->
      entry = "completed/" +:+ name +:+ ".json"
      /\ copy = "completed/originals/" +:+ name
      /\ entry <> copy
      /\ files w' !! entry = Some (Json.stringify2 (outputData result))).
Proof.
  intros Hsave timestamp name entry copy written.
  apply saveProcessedDocument_ok in Hsave as [original [Hsrc Hfiles]].
  change (completedDir (new_DocumentProcessor TIKA_SERVER_URL))
    with "./completed" in Hsrc, Hfiles.
  fold timestamp name entry copy in Hsrc, Hfiles. fold written in Hsrc, Hfiles.
  pose proof (timestamp_chars (now env (clock_reads w))) as Hts.
  fold timestamp in Hts.
  split; [by apply (all_chars_includes _ _ _ Hts)|].
  split; [by apply (all_chars_includes _ _ _ Hts)|].
  split; [apply length_replace_colon_dot|].
  split; [|split].
  - exists original. rewrite Hfiles. split; [exact Hsrc|]. split; [reflexivity|].
    by rewrite lookup_insert_eq.
  - intros p Hp1 Hp2. rewrite Hfiles. unfold written.
    by rewrite !lookup_insert_ne by congruence.
  - intros Hname.
    destruct (archive_name_plain (now env (clock_reads w)) _ Hname)
      as [Hslash [H0 [H1 H2]]].
    fold timestamp name in Hslash, H0, H1, H2.
    assert (entry = "completed/" +:+ name +:+ ".json") as Hentry.
    { unfold entry. rewrite join_completed by assumption.
      by rewrite app_assoc'. }
    assert (copy = "completed/originals/" +:+ name) as Hcopy.
    { unfold copy. by rewrite join_originals. }
    assert (entry <> copy) as Hne.
    { rewrite Hentry, Hcopy. intros E. apply (f_equal String.length) in E.
      rewrite !length_app in E. simpl in E. lia. }
    split; [exact Hentry|]. split; [exact Hcopy|]. split; [exact Hne|].
    rewrite Hfiles, lookup_insert_ne by congruence. unfold written.
    by rewrite lookup_insert_eq.
Qed.

Lemma save_writes_one_entry_and_one_copy_witness :
  exists w',
    saveProcessedDocument (Demo.env 200 "OK") Demo.processor Demo.document
      "uploads/3f2a" (Demo.world "PK") = (Ok tt, w')
    /\ files w' !! "completed/2024-05-06T07-08-09-010Z_report.pdf.json"
       = Some (Json.stringify2 (outputData Demo.document))
    /\ files w' !! "completed/originals/2024-05-06T07-08-09-010Z_report.pdf"
       = Some "PK".
Proof.
  eexists. split; [vm_compute; reflexivity|].
  match goal with |- files ?w' !! _ = _ /\ _ =>
    destruct (save_writes_one_entry_and_one_copy (Demo.env 200 "OK")
                None Demo.document "uploads/3f2a" (Demo.world "PK")
                w' eq_refl)
      as [_ [_ [_ [[original [Hsrc [_ Hcopy]]] [_ Hplain]]]]]
  end.
  destruct (Hplain eq_refl) as [Hentry_path [Hcopy_path [_ Hentry]]].
  split.
  - rewrite Hentry_path in Hentry. exact Hentry.
  - rewrite Hcopy_path in Hcopy. rewrite Hentry_path in Hsrc.
    vm_compute in Hsrc. injection Hsrc as <-. exact Hcopy.
Defined.

(** ** The request handler *)

Section Handler.

Lemma getMetadata_not_ok env this file mimeType r w :
  fetch env (meta_request this file mimeType) = Ok r ->
  ok r = false ->
  getMetadata env this file mimeType w
  = (Throw (ErrorObj ("Failed to get metadata: " +:+ statusText r)),
     snd (do_fetch env (meta_request this file mimeType) w)).
Proof.
  intros Hfetch Hok. unfold getMetadata, bind, do_fetch, meta_request in *.
  rewrite Hfetch, Hok. reflexivity.
Qed.

(** The metadata call is the first thing after the extraction that touches
    the world, and its failure ends either path. *)
Lemma dispatch_metadata_fails env this buffer file r w :
  extraction_succeeds env this buffer (originalname file) ->
  fetch env (meta_request this buffer (getMimeType (originalname file))) = Ok r ->
  ok r = false ->
  exists w',
    dispatch env this buffer file w
    = (Throw (ErrorObj ("Failed to get metadata: " +:+ statusText r)), w')
    /\ files w' = files w
    /\ last (requests w')
       = Some (meta_request this buffer (getMimeType (originalname file))).
Proof.
  intros Hextract Hfetch Hok. unfold extraction_succeeds, dispatch in *.
  destruct (isSpreadsheet (originalname file)).
  - unfold processSpreadsheet, try_catch, bind.
    destruct Hextract as [[Hext [workbook Hread]]|Hext].
    + rewrite Hext, String.eqb_refl.
      rewrite (processXLSX_ok _ _ _ _ Hread).
      rewrite (getMetadata_not_ok _ _ _ _ _ _ Hfetch Hok).
      eexists. split; [reflexivity|]. simpl. split; [reflexivity|].
      apply last_snoc.
    + rewrite Hext, String.eqb_refl.
      change ((".csv" =? ".xlsx")%string) with false. cbv iota.
      rewrite processCSV_ok.
      rewrite (getMetadata_not_ok _ _ _ _ _ _ Hfetch Hok).
      eexists. split; [reflexivity|]. simpl. split; [reflexivity|].
      apply last_snoc.
  - destruct Hextract as [content [Htika Hcontent]].
    unfold processDocument, bind, do_fetch, tika_request in *.
    rewrite Htika, Hcontent. cbn [negb].
    rewrite (getMetadata_not_ok _ _ _ _ _ _ Hfetch Hok).
    eexists. split; [reflexivity|]. simpl. split; [reflexivity|].
    apply last_snoc.
Qed.

End Handler.

(** C5.  When the metadata call answers with a status that is not a success,
    the request is answered with 500, the [details] give the status text of
    the remote answer, and the files are as they were: nothing is written to
    the archive. *)
Theorem metadata_failure_is_500 env processor file buffer r w :
  fs_fault env (OpRead (path file)) = None ->
  files w !! path file = Some buffer ->
  extraction_succeeds env processor buffer (originalname file) ->
  fetch env (meta_request processor buffer (getMimeType (originalname file)))
  = Ok r ->
  ok r = false ->
  exists w',
    handler env processor (Some file) w
    = ({| statusCode := 500;
          json_body :=
            failure_body ("Failed to get metadata: " +:+ statusText r) |}, w')
    /\ Js.endsWith ("Failed to get metadata: " +:+ statusText r) (statusText r)
       = true
    /\ files w' = files w
    /\ last (requests w')
       = Some (meta_request processor buffer (getMimeType (originalname file))).
Proof.
  intros Hfault Hfile Hextract Hfetch Hok.
  destruct (dispatch_metadata_fails _ _ _ _ _ w Hextract Hfetch Hok)
    as [w1 [Hrun [Hfiles Hlast]]].
  unfold handler, process_upload, bind, readFile.
  rewrite Hfault, Hfile, Hrun.
  eexists. split; [reflexivity|]. split; [apply endsWith_app|].
  split; [exact Hfiles | exact Hlast].
Qed.

Lemma metadata_failure_is_500_witness :
  exists w',
    handler (Demo.env 500 "Internal Server Error") Demo.processor
      (Some (Demo.upload "a.pdf")) (Demo.world "PK")
    = ({| statusCode := 500;
          json_body :=
            failure_body "Failed to get metadata: Internal Server Error" |}, w')
    /\ files w' = files (Demo.world "PK").
Proof.
  destruct (metadata_failure_is_500 (Demo.env 500 "Internal Server Error")
              Demo.processor (Demo.upload "a.pdf") "PK"
              {| status := 500; statusText := "Internal Server Error";
                 text := "{}" |} (Demo.world "PK"))
    as [w' [Hrun [_ [Hfiles _]]]]; try (vm_compute; reflexivity).
  - unfold extraction_succeeds.
    replace (isSpreadsheet (originalname (Demo.upload "a.pdf"))) with false
      by (vm_compute; reflexivity).
    eexists. split; vm_compute; reflexivity.
  - exists w'. split; [exact Hrun | exact Hfiles].
Defined.


(** ** The upload middleware and the route *)

Section Upload.


(** Parts that pass by change nothing. *)
Lemma multer_parts_app env host name before rest filesLeft uploaded w :
  forallb passes_by before = true ->
  multer_parts env host name (before ++ rest) filesLeft uploaded w
  = multer_parts env host name rest filesLeft uploaded w.
Proof.
  induction before as [|part before IH]; intros Hby; [reflexivity|].
  simpl in Hby. apply andb_prop in Hby as [Hpart Hby].
  destruct part as [fieldname value nt vt|fieldname filename data]; simpl in *.
  - destruct nt; [discriminate|]. destruct vt; [discriminate|]. by apply IH.
  - rewrite Hpart. by apply IH.
Qed.

Lemma multer_parts_pass env host name parts filesLeft uploaded w :
  forallb passes_by parts = true ->
  multer_parts env host name parts filesLeft uploaded w = (Ok uploaded, w).
Proof.
  intros Hby.
  rewrite <- (app_nil_r parts), multer_parts_app by exact Hby. reflexivity.
Qed.



End Upload.




(** ** The CSV flattener *)

Lemma demo_papa_faithful s t : papa_faithful (Demo.env s t).
Proof. intros input rows H. simpl. by rewrite H. Qed.

(** C2, as the code has it.  The sample with a blank line flattens to the two
    data rows, tab-joined, in their order, the blank row dropped; the cells
    are kept as they were parsed, so the space before [c] stays.  Without
    that space the text is the one of the claim.  In general the text is the
    non-empty rows of the parse, each joined by tabs, joined by newlines. *)
Theorem csv_blank_line_flattening env w :
  papa_faithful env ->
  processCSV env csv_sample w
  = (Ok ("a" +:+ Js.tab +:+ "b" +:+ Js.nl +:+ " c" +:+ Js.tab +:+ "d"), w)
  /\ processCSV env ("a,b" +:+ Js.nl +:+ Js.nl +:+ "c,d") w
     = (Ok ("a" +:+ Js.tab +:+ "b" +:+ Js.nl +:+ "c" +:+ Js.tab +:+ "d"), w)
  /\ (forall buffer,
        processCSV env buffer w
        = (Ok (Js.join Js.nl
                 (map (Js.join Js.tab)
                    (List.filter (fun row => 0 <? length row)
                       (papa_parse env (toString_utf8 buffer))))), w)).
Proof.
  intros Hpapa. split; [|split].
  - rewrite processCSV_ok.
    replace (toString_utf8 csv_sample) with csv_sample
      by (vm_compute; reflexivity).
    rewrite (Hpapa csv_sample [["a"; "b"]; [" c"; "d"]])
      by (vm_compute; reflexivity).
    reflexivity.
  - rewrite processCSV_ok.
    replace (toString_utf8 ("a,b" +:+ Js.nl +:+ Js.nl +:+ "c,d"))
      with ("a,b" +:+ Js.nl +:+ Js.nl +:+ "c,d") by (vm_compute; reflexivity).
    rewrite (Hpapa _ [["a"; "b"]; ["c"; "d"]]) by (vm_compute; reflexivity).
    reflexivity.
  - intros buffer. apply processCSV_ok.
Qed.

Lemma csv_blank_line_flattening_witness :
  processCSV (Demo.env 200 "OK") csv_sample (Demo.world csv_sample)
  = (Ok ("a" +:+ Js.tab +:+ "b" +:+ Js.nl +:+ " c" +:+ Js.tab +:+ "d"),
     Demo.world csv_sample).
Proof.
  exact (proj1 (csv_blank_line_flattening (Demo.env 200 "OK")
                  (Demo.world csv_sample) (demo_papa_faithful 200 "OK"))).
Defined.

(** C2, as stated, fails: the flattener does not return the text without the
    space. *)
Lemma csv_leading_space_kept :
  ~ (forall env w,
       papa_faithful env ->
       processCSV env csv_sample w
       = (Ok ("a" +:+ Js.tab +:+ "b" +:+ Js.nl +:+ "c" +:+ Js.tab +:+ "d"), w)).
Proof.
  intros H.
  specialize (H (Demo.env 200 "OK") (Demo.world csv_sample)
                (demo_papa_faithful 200 "OK")).
  vm_compute in H. discriminate H.
Qed.

(** * Further properties of the pipeline *)

(** ** How the methods run *)

Section Runs.

Lemma getMetadata_run env this file mimeType w :
  getMetadata env this file mimeType w
  = (metadata_outcome env this file mimeType,
     sent (meta_request this file mimeType) w).
Proof.
  unfold getMetadata, metadata_outcome, bind, do_fetch, meta_request, sent.
  destruct (fetch env _) as [response|e]; [|reflexivity].
  destruct (ok response); simpl; [|reflexivity].
  by destruct (json_parse env (text response)).
Qed.

Lemma complete_processing_run env this file name originalPath content w :
  complete_processing env this file name originalPath content w
  = match metadata_outcome env this file (getMimeType name) with
    | Throw e => (Throw e, sent (meta_request this file (getMimeType name)) w)
    | Ok metadata =>
        let w1 := sent (meta_request this file (getMimeType name)) w in
        let result := result_of content metadata name (now env (clock_reads w)) in
        match saveProcessedDocument env this result originalPath (ticked w1) with
        | (Ok _, w2) => (Ok result, w2)
        | (Throw e, w2) => (Throw e, w2)
        end
    end.
Proof.
  unfold complete_processing, bind. rewrite getMetadata_run.
  destruct (metadata_outcome _ _ _ _) as [metadata|e]; [|reflexivity].
  unfold new_Date, ticked, sent, result_of. simpl.
  by destruct (saveProcessedDocument _ _ _ _ _) as [[[]|e] w2].
Qed.

Lemma processDocument_run env this file name originalPath w :
  processDocument env this file name originalPath w
  = let w1 := sent (tika_request this file (getMimeType name)) w in
    match fetch env (tika_request this file (getMimeType name)) with
    | Throw e => (Throw e, w1)
    | Ok response =>
        if negb (ok response)
        then (Throw (ErrorObj ("Failed to extract text: " +:+ statusText response)), w1)
        else complete_processing env this file name originalPath (text response) w1
    end.
Proof.
  unfold processDocument, bind, do_fetch, tika_request, sent. simpl.
  destruct (fetch env _) as [response|e]; [|reflexivity].
  by destruct (ok response).
Qed.

Lemma processSpreadsheet_run env this file name originalPath w :
  processSpreadsheet env this file name originalPath w
  = let rethrow e w' := (Throw e, logged "Spreadsheet processing error:" w') in
    let ext := Js.toLowerCase (Path.extname name) in
    if String.eqb ext ".xlsx" then
      match xlsx_read env file with
      | Ok workbook =>
          match complete_processing env this file name originalPath
                  (flatten_workbook workbook) w with
          | (Ok result, w') => (Ok result, w')
          | (Throw e, w') => rethrow e w'
          end
      | Throw _ =>
          rethrow (ErrorObj "Failed to process XLSX file")
            (logged "XLSX processing error:" w)
      end
    else if String.eqb ext ".csv" then
      match complete_processing env this file name originalPath
              (formattedContent (papa_parse env (toString_utf8 file))) w with
      | (Ok result, w') => (Ok result, w')
      | (Throw e, w') => rethrow e w'
      end
    else rethrow (ErrorObj "Unsupported spreadsheet format") w.
Proof.
  unfold processSpreadsheet, try_catch. simpl.
  destruct (String.eqb _ ".xlsx").
  - unfold bind at 1.
    destruct (xlsx_read env file) as [workbook|e] eqn:Hread.
    + rewrite (processXLSX_ok _ _ _ _ Hread).
      change (complete_processing env this file name originalPath
                (flatten_workbook workbook) w)
        with ((let* metadata := getMetadata env this file (getMimeType name) in
               let* date := new_Date env in
               let* _ := saveProcessedDocument env this
                           {| content := flatten_workbook workbook;
                              metadata := metadata; filename := name;
                              mimeType := getMimeType name;
                              processingDate := date |} originalPath in
               ret {| content := flatten_workbook workbook;
                      metadata := metadata; filename := name;
                      mimeType := getMimeType name;
                      processingDate := date |}) w).
      by destruct (bind _ _ w) as [[result|e] w'].
    + rewrite (processXLSX_throw _ _ _ _ Hread). reflexivity.
  - destruct (String.eqb _ ".csv"); [|reflexivity].
    unfold bind at 1. rewrite processCSV_ok.
    change (complete_processing env this file name originalPath
              (formattedContent (papa_parse env (toString_utf8 file))) w)
      with ((let* metadata := getMetadata env this file (getMimeType name) in
             let* date := new_Date env in
             let* _ := saveProcessedDocument env this
                         {| content := formattedContent (papa_parse env (toString_utf8 file));
                            metadata := metadata; filename := name;
                            mimeType := getMimeType name;
                            processingDate := date |} originalPath in
             ret {| content := formattedContent (papa_parse env (toString_utf8 file));
                    metadata := metadata; filename := name;
                    mimeType := getMimeType name;
                    processingDate := date |}) w).
    by destruct (bind _ _ w) as [[result|e] w'].
Qed.

(** The save, step by step. *)
Lemma saveProcessedDocument_run env this result originalPath w :
  saveProcessedDocument env this result originalPath w
  = let date := now env (clock_reads w) in
    let entry := entry_path this date (filename result) in
    let copy := copy_path this date (filename result) in
    let w1 := ticked w in
    match fs_fault env (OpWrite entry) with
    | Some msg => (Throw (ErrorObj msg), w1)
    | None =>
        let w2 :=
          set_files (<[entry := Json.stringify2 (outputData result)]> (files w)) w1 in
        match fs_fault env (OpMkdir (Path.dirname copy)) with
        | Some msg => (Throw (ErrorObj msg), w2)
        | None =>
            match fs_fault env (OpCopy originalPath copy) with
            | Some msg => (Throw (ErrorObj msg), w2)
            | None =>
                match files w2 !! originalPath with
                | Some data =>
                    (Ok tt, set_files (<[copy := data]> (files w2)) w2)
                | None => (Throw (ENOENT2 "copyfile" originalPath copy), w2)
                end
            end
        end
    end.
Proof.
  unfold saveProcessedDocument, bind, new_Date, writeFile, mkdir_recursive,
    copyFile, entry_path, copy_path, archive_name, ticked. simpl.
  destruct (fs_fault env (OpWrite _)); [reflexivity|].
  destruct (fs_fault env (OpMkdir _)); [reflexivity|].
  destruct (fs_fault env (OpCopy _ _)); [reflexivity|].
  by destruct (_ !! originalPath).
Qed.

Lemma process_upload_run env processor file w :
  process_upload env processor file w
  = match fs_fault env (OpRead (path file)) with
    | Some msg => (Throw (ErrorObj msg), w)
    | None =>
        match files w !! path file with
        | None => (Throw (ENOENT "open" (path file)), w)
        | Some fileBuffer =>
            match dispatch env processor fileBuffer file w with
            | (Throw e, w1) => (Throw e, w1)
            | (Ok result, w1) =>
                match fs_fault env (OpUnlink (path file)) with
                | Some msg => (Throw (ErrorObj msg), w1)
                | None =>
                    match files w1 !! path file with
                    | Some _ =>
                        (Ok result, set_files (delete (path file) (files w1)) w1)
                    | None => (Throw (ENOENT "unlink" (path file)), w1)
                    end
                end
            end
        end
    end.
Proof.
  unfold process_upload, bind, readFile, unlink.
  destruct (fs_fault env (OpRead _)); [reflexivity|].
  destruct (files w !! path file) as [fileBuffer|]; [|reflexivity].
  destruct (dispatch _ _ _ _ _) as [[result|e] w1]; [|reflexivity].
  destruct (fs_fault env (OpUnlink _)); [reflexivity|].
  by destruct (files w1 !! path file).
Qed.

Lemma handler_run env processor file w :
  handler env processor (Some file) w
  = match process_upload env processor file w with
    | (Ok result, w') =>
        ({| statusCode := 200; json_body := json_of_result result |}, w')
    | (Throw error, w') =>
        ({| statusCode := 500; json_body := failure_body (error_message error) |},
         logged "Processing error:" w')
    end.
Proof. reflexivity. Qed.

End Runs.

Section Outcomes.

Lemma save_accepted env this result originalPath w :
  let date := now env (clock_reads w) in
  let entry := entry_path this date (filename result) in
  let copy := copy_path this date (filename result) in
  let written := <[entry := Json.stringify2 (outputData result)]> (files w) in
  storage_accepts env this date (filename result) originalPath ->
  forall original, written !! originalPath = Some original ->
  saveProcessedDocument env this result originalPath w
  = (Ok tt, set_files (<[copy := original]> written) (ticked w)).
Proof.
  intros date entry copy written. subst date entry copy written.
  intros [Hwrite [Hmkdir Hcopy]] original Hsrc.
  rewrite saveProcessedDocument_run. cbv zeta.
  rewrite Hwrite, Hmkdir, Hcopy. simpl files. rewrite Hsrc. reflexivity.
Qed.

(** A file that is there is still there after any number of writes. *)
Lemma lookup_insert_is_Some' (m : gmap string Buffer) p q data :
  is_Some (m !! p) -> is_Some (<[q := data]> m !! p).
Proof.
  intros H. destruct (decide (q = p)) as [->|Hne].
  - rewrite lookup_insert_eq. eauto.
  - by rewrite lookup_insert_ne.
Qed.

End Outcomes.

(** X1.  When the text extraction answers with a status that is not a
    success, the request is answered with 500 and the status text of that
    answer; the metadata endpoint is not contacted, the clock is not read and
    no file is written or removed. *)
Theorem extraction_failure_is_500 env processor file buffer r w :
  fs_fault env (OpRead (path file)) = None ->
  files w !! path file = Some buffer ->
  isSpreadsheet (originalname file) = false ->
  fetch env (tika_request processor buffer (getMimeType (originalname file)))
  = Ok r ->
  ok r = false ->
  handler env processor (Some file) w
  = ({| statusCode := 500;
        json_body := failure_body ("Failed to extract text: " +:+ statusText r) |},
     logged "Processing error:"
       (sent (tika_request processor buffer (getMimeType (originalname file))) w)).
Proof.
  intros Hfault Hfile Hroute Hfetch Hok.
  rewrite handler_run, process_upload_run, Hfault, Hfile.
  unfold dispatch. rewrite Hroute, processDocument_run. simpl.
  rewrite Hfetch, Hok. reflexivity.
Qed.

Lemma extraction_failure_is_500_witness :
  handler
    (Scenario.env (Scenario.answer 503 "Service Unavailable" "")
       (Scenario.answer 200 "OK" "{}") (Ok (JObject [])) (Ok Demo.workbook)
       Scenario.no_faults)
    Demo.processor (Some (Demo.upload "a.pdf")) (Demo.world "PK")
  = ({| statusCode := 500;
        json_body := failure_body "Failed to extract text: Service Unavailable" |},
     logged "Processing error:"
       (sent (tika_request Demo.processor "PK" "application/pdf")
          (Demo.world "PK"))).
Proof.
  apply (extraction_failure_is_500 _ Demo.processor (Demo.upload "a.pdf") "PK"
           {| status := 503; statusText := "Service Unavailable"; text := "" |});
    vm_compute; reflexivity.
Defined.

(** X2.  When the metadata request is rejected, or its answer is a success
    whose body is not JSON, the request is answered with 500 and the message
    of that error, whatever the path; no file is written or removed and the
    clock is not read. *)
Theorem metadata_error_is_500 env processor file buffer e w :
  fs_fault env (OpRead (path file)) = None ->
  files w !! path file = Some buffer ->
  extraction_succeeds env processor buffer (originalname file) ->
  (fetch env (meta_request processor buffer (getMimeType (originalname file)))
   = Throw e
   \/ exists r,
        fetch env (meta_request processor buffer (getMimeType (originalname file)))
        = Ok r
        /\ ok r = true /\ json_parse env (text r) = Throw e) ->
  exists w',
    handler env processor (Some file) w
    = ({| statusCode := 500; json_body := failure_body (error_message e) |}, w')
    /\ files w' = files w
    /\ clock_reads w' = clock_reads w.
Proof.
  intros Hfault Hfile Hextract Hmeta.
  assert (metadata_outcome env processor buffer (getMimeType (originalname file))
          = Throw e) as Hout.
  { unfold metadata_outcome. destruct Hmeta as [->|[r [-> [-> Hparse]]]]; done. }
  rewrite handler_run, process_upload_run, Hfault, Hfile.
  unfold dispatch, extraction_succeeds in *.
  destruct (isSpreadsheet (originalname file)).
  - rewrite processSpreadsheet_run. cbv zeta.
    destruct Hextract as [[Hext [workbook Hread]]|Hext].
    + rewrite Hext, String.eqb_refl, Hread, complete_processing_run, Hout.
      eexists. split; [reflexivity|]. split; reflexivity.
    + rewrite Hext, String.eqb_refl.
      change ((".csv" =? ".xlsx")%string) with false. cbv iota.
      rewrite complete_processing_run, Hout.
      eexists. split; [reflexivity|]. split; reflexivity.
  - destruct Hextract as [r [Htika Hcontent]].
    rewrite processDocument_run. cbv zeta.
    rewrite Htika, Hcontent. cbn [negb].
    rewrite complete_processing_run, Hout.
    eexists. split; [reflexivity|]. split; reflexivity.
Qed.

Lemma metadata_error_is_500_witness :
  exists w',
    handler
      (Scenario.env (Scenario.answer 200 "OK" "hello")
         (Scenario.answer 200 "OK" "<html>")
         (Throw (ErrorObj "Unexpected token < in JSON at position 0"))
         (Ok Demo.workbook) Scenario.no_faults)
      Demo.processor (Some (Demo.upload "a.csv")) (Demo.world "x,y")
    = ({| statusCode := 500;
          json_body := failure_body "Unexpected token < in JSON at position 0" |},
       w')
    /\ files w' = files (Demo.world "x,y").
Proof.
  destruct (metadata_error_is_500
              (Scenario.env (Scenario.answer 200 "OK" "hello")
                 (Scenario.answer 200 "OK" "<html>")
                 (Throw (ErrorObj "Unexpected token < in JSON at position 0"))
                 (Ok Demo.workbook) Scenario.no_faults)
              Demo.processor (Demo.upload "a.csv") "x,y"
              (ErrorObj "Unexpected token < in JSON at position 0")
              (Demo.world "x,y"))
    as [w' [Hrun [Hfiles _]]]; try (vm_compute; reflexivity).
  - unfold extraction_succeeds.
    replace (isSpreadsheet (originalname (Demo.upload "a.csv"))) with true
      by (vm_compute; reflexivity).
    right. vm_compute. reflexivity.
  - right. eexists. split; [vm_compute; reflexivity|].
    split; vm_compute; reflexivity.
  - exists w'. split; [exact Hrun | exact Hfiles].
Defined.

(** X3.  When the workbook cannot be decoded, the request is answered with
    500 and the fixed message [Failed to process XLSX file]: the decoder's
    own error is logged and dropped.  No request is sent, the clock is not
    read and no file is written or removed. *)
Theorem xlsx_decode_failure_is_500 env processor file buffer e w :
  fs_fault env (OpRead (path file)) = None ->
  files w !! path file = Some buffer ->
  isSpreadsheet (originalname file) = true ->
  Js.toLowerCase (Path.extname (originalname file)) = ".xlsx" ->
  xlsx_read env buffer = Throw e ->
  handler env processor (Some file) w
  = ({| statusCode := 500;
        json_body := failure_body "Failed to process XLSX file" |},
     logged "Processing error:"
       (logged "Spreadsheet processing error:"
          (logged "XLSX processing error:" w))).
Proof.
  intros Hfault Hfile Hroute Hext Hread.
  rewrite handler_run, process_upload_run, Hfault, Hfile.
  unfold dispatch. rewrite Hroute, processSpreadsheet_run. cbv zeta.
  rewrite Hext, String.eqb_refl, Hread. reflexivity.
Qed.

Lemma xlsx_decode_failure_is_500_witness :
  handler
    (Scenario.env (Scenario.answer 200 "OK" "hello")
       (Scenario.answer 200 "OK" "{}") (Ok (JObject []))
       (Throw (ErrorObj "Unsupported ZIP encryption")) Scenario.no_faults)
    Demo.processor (Some (Demo.upload "Sales.XLSX")) (Demo.world "junk")
  = ({| statusCode := 500;
        json_body := failure_body "Failed to process XLSX file" |},
     logged "Processing error:"
       (logged "Spreadsheet processing error:"
          (logged "XLSX processing error:" (Demo.world "junk")))).
Proof.
  apply (xlsx_decode_failure_is_500 _ Demo.processor (Demo.upload "Sales.XLSX")
           "junk" (ErrorObj "Unsupported ZIP encryption"));
    vm_compute; reflexivity.
Defined.

(** X4.  When the uploaded file cannot be read, because the operating system
    refuses or because it is not there, the request is answered with 500 and
    the message of the file system; nothing else happens: no request, no
    reading of the clock, no change to the files. *)
Theorem unreadable_upload_is_500 env processor file w :
  (forall msg,
     fs_fault env (OpRead (path file)) = Some msg ->
     handler env processor (Some file) w
     = ({| statusCode := 500; json_body := failure_body msg |},
        logged "Processing error:" w))
  /\ (fs_fault env (OpRead (path file)) = None ->
      files w !! path file = None ->
      handler env processor (Some file) w
      = ({| statusCode := 500;
            json_body :=
              failure_body ("ENOENT: no such file or directory, open '"
                            +:+ path file +:+ "'") |},
         logged "Processing error:" w)).
Proof.
  split.
  - intros msg Hfault. by rewrite handler_run, process_upload_run, Hfault.
  - intros Hfault Hfile. by rewrite handler_run, process_upload_run, Hfault, Hfile.
Qed.

Lemma unreadable_upload_is_500_witness :
  handler Scenario.healthy Demo.processor
    (Some {| originalname := "a.pdf"; path := "uploads/gone" |})
    (Demo.world "PK")
  = ({| statusCode := 500;
        json_body :=
          failure_body "ENOENT: no such file or directory, open 'uploads/gone'" |},
     logged "Processing error:" (Demo.world "PK")).
Proof.
  apply (proj2 (unreadable_upload_is_500 Scenario.healthy Demo.processor
                  {| originalname := "a.pdf"; path := "uploads/gone" |}
                  (Demo.world "PK"))); vm_compute; reflexivity.
Defined.

Section Invariants.

(** Every outcome of a save. *)
Lemma save_outcomes env this result originalPath w :
  let date := now env (clock_reads w) in
  let entry := entry_path this date (filename result) in
  let copy := copy_path this date (filename result) in
  let written := <[entry := Json.stringify2 (outputData result)]> (files w) in
  let run := saveProcessedDocument env this result originalPath w in
  requests (snd run) = requests w
  /\ console (snd run) = console w
  /\ clock_reads (snd run) = S (clock_reads w)
  /\ match fst run with
     | Ok _ =>
         exists original,
           written !! originalPath = Some original
           /\ files (snd run) = <[copy := original]> written
     | Throw e =>
         (files (snd run) = files w
          /\ fs_fault env (OpWrite entry) = Some (error_message e))
         \/ (files (snd run) = written /\ fs_fault env (OpWrite entry) = None)
     end.
Proof.
  intros date entry copy written run. subst run written copy entry date.
  rewrite saveProcessedDocument_run. cbv zeta.
  set (entry := entry_path _ _ _). set (copy := copy_path _ _ _).
  set (written := <[entry := _]> (files w)).
  destruct (fs_fault env (OpWrite entry)) as [msg|]; simpl.
  { repeat split; try reflexivity. left. split; reflexivity. }
  destruct (fs_fault env (OpMkdir _)); simpl.
  { repeat split; try reflexivity. right. split; reflexivity. }
  destruct (fs_fault env (OpCopy _ _)); simpl.
  { repeat split; try reflexivity. right. split; reflexivity. }
  destruct (written !! originalPath) as [original|] eqn:Hsrc; simpl.
  - repeat split; try reflexivity. exists original. split; reflexivity.
  - repeat split; try reflexivity. right. split; reflexivity.
Qed.


Lemma begins_refl {A} (l : list A) : begins l l.
Proof. exists []. by rewrite app_nil_r. Qed.

Lemma begins_nil {A} (l : list A) : begins [] l.
Proof. by exists l. Qed.

(** Every outcome of the shared tail of the two methods. *)
Lemma complete_processing_outcomes env this file name originalPath content w :
  let date := now env (clock_reads w) in
  let saved := now env (S (clock_reads w)) in
  let entry := entry_path this saved name in
  let copy := copy_path this saved name in
  let run := complete_processing env this file name originalPath content w in
  requests (snd run)
  = requests w ++ [meta_request this file (getMimeType name)]
  /\ console (snd run) = console w
  /\ clock_reads (snd run) <= clock_reads w + 2
  /\ match fst run with
     | Ok result =>
         exists metadata original,
           metadata_outcome env this file (getMimeType name) = Ok metadata
           /\ result = result_of content metadata name date
           /\ <[entry := Json.stringify2 (outputData result)]> (files w)
              !! originalPath = Some original
           /\ files (snd run)
              = <[copy := original]>
                  (<[entry := Json.stringify2 (outputData result)]> (files w))
           /\ clock_reads (snd run) = S (S (clock_reads w))
     | Throw e =>
         files (snd run) = files w
         \/ exists metadata,
              files (snd run)
              = <[entry := Json.stringify2
                             (outputData (result_of content metadata name date))]>
                  (files w)
     end.
Proof.
  intros date saved entry copy run. subst run copy entry saved date.
  rewrite complete_processing_run.
  destruct (metadata_outcome _ _ _ _) as [metadata|e] eqn:Hmeta; simpl.
  { pose proof (save_outcomes env this
                  (result_of content metadata name (now env (clock_reads w)))
                  originalPath
                  (ticked (sent (meta_request this file (getMimeType name)) w)))
      as Hsave.
    cbv zeta in Hsave. simpl in Hsave.
    destruct (saveProcessedDocument _ _ _ _ _) as [[[]|e] w2]; simpl in *;
      destruct Hsave as [Hreq [Hcon [Hclock Hfiles]]].
    - rewrite Hreq, Hcon, Hclock. repeat split; try reflexivity; try lia.
      destruct Hfiles as [original [Hsrc Hfiles]].
      exists metadata, original. by repeat split.
    - rewrite Hreq, Hcon, Hclock. repeat split; try reflexivity; try lia.
      destruct Hfiles as [[Hfiles _]|[Hfiles _]]; [by left|].
      right. by exists metadata. }
  repeat split; try reflexivity; try lia. by left.
Qed.

(** Every outcome of the processing of a file that was read. *)
Lemma dispatch_outcomes env this buffer file w :
  let name := originalname file in
  let date := now env (clock_reads w) in
  let saved := now env (S (clock_reads w)) in
  let entry := entry_path this saved name in
  let copy := copy_path this saved name in
  let run := dispatch env this buffer file w in
  (exists l, requests (snd run) = requests w ++ l
             /\ begins l (expected_requests this buffer name))
  /\ clock_reads (snd run) <= clock_reads w + 2
  /\ match fst run with
     | Ok result =>
         exists content metadata original,
           extracted env this buffer name content
           /\ metadata_outcome env this buffer (getMimeType name) = Ok metadata
           /\ result = result_of content metadata name date
           /\ <[entry := Json.stringify2 (outputData result)]> (files w)
              !! path file = Some original
           /\ files (snd run)
              = <[copy := original]>
                  (<[entry := Json.stringify2 (outputData result)]> (files w))
           /\ clock_reads (snd run) = S (S (clock_reads w))
           /\ requests (snd run)
              = requests w ++ expected_requests this buffer name
     | Throw e =>
         files (snd run) = files w
         \/ exists content metadata,
              extracted env this buffer name content
              /\ files (snd run)
                 = <[entry := Json.stringify2
                                (outputData (result_of content metadata name date))]>
                     (files w)
     end.
Proof.
  intros name date saved entry copy run. subst run copy entry saved date.
  unfold dispatch, expected_requests, extracted. fold name.
  destruct (isSpreadsheet name).
  - rewrite processSpreadsheet_run. cbv zeta. unfold spreadsheet_text.
    destruct (String.eqb _ ".xlsx").
    + destruct (xlsx_read env buffer) as [workbook|e0]; simpl.
      * pose proof (complete_processing_outcomes env this buffer name
                      (path file) (flatten_workbook workbook) w) as H.
        cbv zeta in H.
        destruct (complete_processing _ _ _ _ _ _ _) as [[result|e] w1];
          simpl in *; destruct H as [Hreq [Hcon [Hclock H]]].
        -- split; [exists [meta_request this buffer (getMimeType name)];
                   split; [exact Hreq | apply begins_refl]|].
           split; [exact Hclock|].
           destruct H as [metadata [original [H1 [H2 [H3 [H4 H5]]]]]].
           exists (flatten_workbook workbook), metadata, original.
           by repeat split.
        -- split; [exists [meta_request this buffer (getMimeType name)];
                   split; [exact Hreq | apply begins_refl]|].
           split; [exact Hclock|].
           destruct H as [H|[metadata H]]; [by left|].
           right. by exists (flatten_workbook workbook), metadata.
      * split; [exists []; split; [by rewrite app_nil_r | apply begins_nil]|].
        split; [lia | by left].
    + destruct (String.eqb _ ".csv"); simpl.
      * pose proof (complete_processing_outcomes env this buffer name
                      (path file) (formattedContent (papa_parse env (toString_utf8 buffer))) w)
          as H.
        cbv zeta in H.
        destruct (complete_processing _ _ _ _ _ _ _) as [[result|e] w1];
          simpl in *; destruct H as [Hreq [Hcon [Hclock H]]].
        -- split; [exists [meta_request this buffer (getMimeType name)];
                   split; [exact Hreq | apply begins_refl]|].
           split; [exact Hclock|].
           destruct H as [metadata [original [H1 [H2 [H3 [H4 H5]]]]]].
           exists (formattedContent (papa_parse env (toString_utf8 buffer))), metadata, original.
           by repeat split.
        -- split; [exists [meta_request this buffer (getMimeType name)];
                   split; [exact Hreq | apply begins_refl]|].
           split; [exact Hclock|].
           destruct H as [H|[metadata H]]; [by left|].
           right. by exists (formattedContent (papa_parse env (toString_utf8 buffer))), metadata.
      * split; [exists []; split; [by rewrite app_nil_r | apply begins_nil]|].
        split; [lia | by left].
  - rewrite processDocument_run. cbv zeta.
    destruct (fetch env (tika_request _ _ _)) as [r|e0] eqn:Htika; simpl.
    + destruct (ok r) eqn:Hok; simpl.
      * pose proof (complete_processing_outcomes env this buffer name
                      (path file) (text r)
                      (sent (tika_request this buffer (getMimeType name)) w))
          as H.
        cbv zeta in H. simpl in H.
        destruct (complete_processing _ _ _ _ _ _ _) as [[result|e] w1];
          simpl in *; destruct H as [Hreq [Hcon [Hclock H]]].
        -- split; [eexists; split;
                   [rewrite Hreq, <- app_assoc; reflexivity | apply begins_refl]|].
           split; [exact Hclock|].
           destruct H as [metadata [original [H1 [H2 [H3 [H4 H5]]]]]].
           exists (text r), metadata, original.
           repeat split; try done; [by exists r | by rewrite Hreq, <- app_assoc].
        -- split; [eexists; split;
                   [rewrite Hreq, <- app_assoc; reflexivity | apply begins_refl]|].
           split; [exact Hclock|].
           destruct H as [H|[metadata H]]; [by left|].
           right. exists (text r), metadata. split; [by exists r | done].
      * split; [exists [tika_request this buffer (getMimeType name)];
                split; [reflexivity | by eexists]|].
        split; [lia | by left].
    + split; [exists [tika_request this buffer (getMimeType name)];
              split; [reflexivity | by eexists]|].
      split; [lia | by left].
Qed.

End Invariants.

(** X5.  A request is answered with 200 only after it has been archived: the
    upload was read, its text extracted on the path of its name, the
    metadata obtained; the answer is the result record, the archive has the
    JSON entry of that record and the copy of the upload, under the name of
    the second reading of the clock, the upload is removed, and the requests
    of the path, and no other, went out. *)
Theorem every_200_is_archived env processor file w :
  let name := originalname file in
  let run := handler env processor (Some file) w in
  let entry := entry_path processor (now env (S (clock_reads w))) name in
  let copy := copy_path processor (now env (S (clock_reads w))) name in
  statusCode (fst run) = 200 ->
  exists buffer content metadata original,
    let result := result_of content metadata name (now env (clock_reads w)) in
    let written := <[entry := Json.stringify2 (outputData result)]> (files w) in
    files w !! path file = Some buffer
    /\ extracted env processor buffer name content
    /\ metadata_outcome env processor buffer (getMimeType name) = Ok metadata
    /\ json_body (fst run) = json_of_result result
    /\ written !! path file = Some original
    /\ files (snd run) = delete (path file) (<[copy := original]> written)
    /\ requests (snd run) = requests w ++ expected_requests processor buffer name
    /\ clock_reads (snd run) = S (S (clock_reads w)).
Proof.
  intros name run entry copy. subst run copy entry.
  rewrite handler_run, process_upload_run.
  destruct (fs_fault env (OpRead _)); [discriminate|].
  destruct (files w !! path file) as [buffer|]; [|discriminate].
  pose proof (dispatch_outcomes env processor buffer file w) as H.
  cbv zeta in H. fold name in H.
  destruct (dispatch _ _ _ _ _) as [[result|e] w1]; [|discriminate].
  simpl in H. destruct H as [_ [_ H]].
  destruct H as [content [metadata [original [H1 [H2 [H3 [H4 [H5 [H6 H7]]]]]]]]].
  destruct (fs_fault env (OpUnlink _)); [discriminate|].
  destruct (files w1 !! path file); [|discriminate].
  intros _. exists buffer, content, metadata, original. simpl. subst result.
  rewrite H5. repeat (split; [done|]). done.
Qed.

Lemma every_200_is_archived_witness :
  exists original,
    files (snd (handler Scenario.healthy Demo.processor
                  (Some (Demo.upload "a.pdf")) (Demo.world "PK")))
    = delete "uploads/3f2a"
        (<["completed/originals/2024-05-06T07-08-09-001Z_a.pdf" := original]>
           (<["completed/2024-05-06T07-08-09-001Z_a.pdf.json" :=
                Json.stringify2
                  (outputData
                     (result_of "hello" (JObject []) "a.pdf"
                        (now Scenario.healthy 0)))]>
              (files (Demo.world "PK")))).
Proof.
  destruct (every_200_is_archived Scenario.healthy Demo.processor
              (Demo.upload "a.pdf") (Demo.world "PK"))
    as [buffer [content [metadata [original H]]]]; [vm_compute; reflexivity|].
  cbv zeta in H. destruct H as [_ [Hc [Hm [_ [_ [Hfiles _]]]]]].
  exists original. rewrite Hfiles.
  destruct Hc as [r [Hr [_ ->]]]. vm_compute in Hr. injection Hr as <-.
  vm_compute in Hm. injection Hm as <-.
  reflexivity.
Defined.

Section Completion.

(** With the text extracted and the metadata obtained, what is left is the
    save. *)
Lemma dispatch_reaches_save env this buffer file content metadata w :
  let name := originalname file in
  let result := result_of content metadata name (now env (clock_reads w)) in
  let w1 :=
    {| files := files w; clock_reads := S (clock_reads w);
       requests := requests w ++ expected_requests this buffer name;
       console := console w |} in
  extracted env this buffer name content ->
  metadata_outcome env this buffer (getMimeType name) = Ok metadata ->
  dispatch env this buffer file w
  = match saveProcessedDocument env this result (path file) w1 with
    | (Ok _, w2) => (Ok result, w2)
    | (Throw e, w2) =>
        (Throw e,
         if isSpreadsheet name
         then logged "Spreadsheet processing error:" w2 else w2)
    end.
Proof.
  intros name result w1 Hcontent Hmeta. subst result w1.
  unfold dispatch, extracted, expected_requests in *. fold name in Hcontent |- *.
  destruct (isSpreadsheet name).
  - rewrite processSpreadsheet_run. cbv zeta. unfold spreadsheet_text in Hcontent.
    fold name in Hcontent |- *.
    destruct (String.eqb _ ".xlsx").
    + destruct (xlsx_read env buffer) as [workbook|e0]; [|discriminate].
      injection Hcontent as <-.
      rewrite complete_processing_run, Hmeta. cbv zeta.
      unfold ticked, sent. simpl.
      by destruct (saveProcessedDocument _ _ _ _ _) as [[[]|e] w2].
    + destruct (String.eqb _ ".csv"); [|discriminate].
      injection Hcontent as <-.
      rewrite complete_processing_run, Hmeta. cbv zeta.
      unfold ticked, sent. simpl.
      by destruct (saveProcessedDocument _ _ _ _ _) as [[[]|e] w2].
  - destruct Hcontent as [r [Htika [Hok ->]]].
    rewrite processDocument_run. cbv zeta. rewrite Htika, Hok. cbn [negb].
    rewrite complete_processing_run, Hmeta. cbv zeta.
    unfold ticked, sent. simpl. rewrite <- app_assoc. simpl.
    by destruct (saveProcessedDocument _ _ _ _ _) as [[[]|e] w2].
Qed.

End Completion.

(** X6.  A request goes through whenever every step does: the upload is
    readable, the text is extracted on the path of its name, the metadata
    call answers with JSON, and the operating system accepts the write, the
    directory, the copy and the removal.  The answer is 200 with the result
    record, whose [content] is the extracted text and whose date is the
    first reading of the clock; the archive gets the entry and the copy
    under the name of the second reading; the upload is removed. *)
Theorem request_goes_through env processor file buffer content metadata w :
  let name := originalname file in
  let result := result_of content metadata name (now env (clock_reads w)) in
  let saved := now env (S (clock_reads w)) in
  let entry := entry_path processor saved name in
  let copy := copy_path processor saved name in
  let written := <[entry := Json.stringify2 (outputData result)]> (files w) in
  fs_fault env (OpRead (path file)) = None ->
  files w !! path file = Some buffer ->
  extracted env processor buffer name content ->
  metadata_outcome env processor buffer (getMimeType name) = Ok metadata ->
  storage_accepts env processor saved name (path file) ->
  fs_fault env (OpUnlink (path file)) = None ->
  exists original,
    written !! path file = Some original
    /\ handler env processor (Some file) w
       = ({| statusCode := 200; json_body := json_of_result result |},
          {| files := delete (path file) (<[copy := original]> written);
             clock_reads := S (S (clock_reads w));
             requests := requests w ++ expected_requests processor buffer name;
             console := console w |}).
Proof.
  intros name result saved entry copy written Hfault Hfile Hcontent Hmeta
    Hstore Hunlink.
  assert (is_Some (written !! path file)) as [original Hsrc].
  { apply lookup_insert_is_Some'. by rewrite Hfile. }
  exists original. split; [exact Hsrc|].
  rewrite handler_run, process_upload_run, Hfault, Hfile.
  rewrite (dispatch_reaches_save _ _ _ _ content metadata) by assumption.
  cbv zeta. fold name result.
  erewrite save_accepted; [|exact Hstore|exact Hsrc].
  rewrite Hunlink. simpl. fold saved. fold entry copy. fold written.
  assert (is_Some (<[copy := original]> written !! path file)) as [x ->].
  { apply lookup_insert_is_Some'. by rewrite Hsrc. }
  reflexivity.
Qed.

Lemma request_goes_through_witness :
  handler Scenario.healthy Demo.processor (Some (Demo.upload "t.csv"))
    (Demo.world csv_sample)
  = ({| statusCode := 200;
        json_body :=
          json_of_result
            (result_of ("a" +:+ Js.tab +:+ "b" +:+ Js.nl +:+ " c" +:+ Js.tab +:+ "d")
               (JObject []) "t.csv" (now Scenario.healthy 0)) |},
     {| files :=
          delete "uploads/3f2a"
            (<["completed/originals/2024-05-06T07-08-09-001Z_t.csv" := csv_sample]>
               (<["completed/2024-05-06T07-08-09-001Z_t.csv.json" :=
                    Json.stringify2
                      (outputData
                         (result_of
                            ("a" +:+ Js.tab +:+ "b" +:+ Js.nl +:+ " c" +:+ Js.tab +:+ "d")
                            (JObject []) "t.csv" (now Scenario.healthy 0)))]>
                  (files (Demo.world csv_sample))));
        clock_reads := 2;
        requests := [meta_request Demo.processor csv_sample "text/csv"];
        console := [] |}).
Proof.
  destruct (request_goes_through Scenario.healthy Demo.processor
              (Demo.upload "t.csv") csv_sample
              ("a" +:+ Js.tab +:+ "b" +:+ Js.nl +:+ " c" +:+ Js.tab +:+ "d")
              (JObject []) (Demo.world csv_sample))
    as [original [Hsrc Hrun]].
  - vm_compute. reflexivity.
  - vm_compute. reflexivity.
  - vm_compute. reflexivity.
  - vm_compute. reflexivity.
  - repeat split; vm_compute; reflexivity.
  - vm_compute. reflexivity.
  - rewrite Hrun. vm_compute in Hsrc. injection Hsrc as <-.
    vm_compute. reflexivity.
Defined.

(** X7.  No rollback: when the copy of the original is refused after the
    JSON entry was written, the request is answered with 500 and the message
    of the file system, the entry stays in the archive without its copy, and
    the upload is not removed. *)
Theorem refused_copy_leaves_entry env processor file buffer content metadata
    msg w :
  let name := originalname file in
  let result := result_of content metadata name (now env (clock_reads w)) in
  let saved := now env (S (clock_reads w)) in
  let entry := entry_path processor saved name in
  let copy := copy_path processor saved name in
  fs_fault env (OpRead (path file)) = None ->
  files w !! path file = Some buffer ->
  extracted env processor buffer name content ->
  metadata_outcome env processor buffer (getMimeType name) = Ok metadata ->
  fs_fault env (OpWrite entry) = None ->
  fs_fault env (OpMkdir (Path.dirname copy)) = None ->
  fs_fault env (OpCopy (path file) copy) = Some msg ->
  let run := handler env processor (Some file) w in
  fst run = {| statusCode := 500; json_body := failure_body msg |}
  /\ files (snd run)
     = <[entry := Json.stringify2 (outputData result)]> (files w)
  /\ files (snd run) !! entry = Some (Json.stringify2 (outputData result))
  /\ (path file <> entry -> files (snd run) !! path file = Some buffer).
Proof.
  intros name result saved entry copy Hfault Hfile Hcontent Hmeta Hwrite
    Hmkdir Hcopy run. subst run.
  rewrite handler_run, process_upload_run, Hfault, Hfile.
  rewrite (dispatch_reaches_save _ _ _ _ content metadata) by assumption.
  cbv zeta. fold name result. rewrite saveProcessedDocument_run. cbv zeta.
  simpl clock_reads. simpl filename. fold saved entry copy.
  rewrite Hwrite, Hmkdir, Hcopy.
  assert (forall w2 : World,
            files (if isSpreadsheet name
                   then logged "Spreadsheet processing error:" w2 else w2)
            = files w2) as Hlog by (intros w2; by destruct (isSpreadsheet name)).
  simpl. rewrite Hlog. simpl.
  split; [reflexivity|]. split; [reflexivity|].
  split; [by rewrite lookup_insert_eq|].
  intros Hne. by rewrite lookup_insert_ne.
Qed.

Lemma refused_copy_leaves_entry_witness :
  let run :=
    handler
      (Scenario.env (Scenario.answer 200 "OK" "hello")
         (Scenario.answer 200 "OK" "{}") (Ok (JObject [])) (Ok Demo.workbook)
         Scenario.copy_refused)
      Demo.processor (Some (Demo.upload "a.pdf")) (Demo.world "PK") in
  fst run
  = {| statusCode := 500;
       json_body := failure_body "ENOSPC: no space left on device, copyfile" |}
  /\ files (snd run) !! "completed/2024-05-06T07-08-09-001Z_a.pdf.json"
     = Some (Json.stringify2
               (outputData
                  (result_of "hello" (JObject []) "a.pdf"
                     (now Scenario.healthy 0))))
  /\ files (snd run) !! "uploads/3f2a" = Some "PK".
Proof.
  destruct (refused_copy_leaves_entry
              (Scenario.env (Scenario.answer 200 "OK" "hello")
                 (Scenario.answer 200 "OK" "{}") (Ok (JObject []))
                 (Ok Demo.workbook) Scenario.copy_refused)
              Demo.processor (Demo.upload "a.pdf") "PK" "hello" (JObject [])
              "ENOSPC: no space left on device, copyfile" (Demo.world "PK"))
    as [Hresp [_ [Hentry Hupload]]].
  - vm_compute. reflexivity.
  - vm_compute. reflexivity.
  - eexists. repeat split; vm_compute; reflexivity.
  - vm_compute. reflexivity.
  - vm_compute. reflexivity.
  - vm_compute. reflexivity.
  - vm_compute. reflexivity.
  - cbv zeta. split; [exact Hresp|]. split; [exact Hentry|].
    apply Hupload. vm_compute. discriminate.
Defined.

(** X8.  When the removal of the upload is refused after the save, the
    request is answered with 500 and the message of the file system although
    the archive has the entry and the copy; the upload stays. *)
Theorem refused_unlink_after_save env processor file buffer content metadata
    msg w :
  let name := originalname file in
  let result := result_of content metadata name (now env (clock_reads w)) in
  let saved := now env (S (clock_reads w)) in
  let entry := entry_path processor saved name in
  let copy := copy_path processor saved name in
  let written := <[entry := Json.stringify2 (outputData result)]> (files w) in
  fs_fault env (OpRead (path file)) = None ->
  files w !! path file = Some buffer ->
  extracted env processor buffer name content ->
  metadata_outcome env processor buffer (getMimeType name) = Ok metadata ->
  storage_accepts env processor saved name (path file) ->
  fs_fault env (OpUnlink (path file)) = Some msg ->
  let run := handler env processor (Some file) w in
  exists original,
    written !! path file = Some original
    /\ fst run = {| statusCode := 500; json_body := failure_body msg |}
    /\ files (snd run) = <[copy := original]> written.
Proof.
  intros name result saved entry copy written Hfault Hfile Hcontent Hmeta
    Hstore Hunlink run. subst run.
  assert (is_Some (written !! path file)) as [original Hsrc].
  { apply lookup_insert_is_Some'. by rewrite Hfile. }
  exists original. split; [exact Hsrc|].
  rewrite handler_run, process_upload_run, Hfault, Hfile.
  rewrite (dispatch_reaches_save _ _ _ _ content metadata) by assumption.
  cbv zeta. fold name result.
  erewrite save_accepted; [|exact Hstore|exact Hsrc].
  rewrite Hunlink. split; reflexivity.
Qed.

Lemma refused_unlink_after_save_witness :
  let run :=
    handler
      (Scenario.env (Scenario.answer 200 "OK" "hello")
         (Scenario.answer 200 "OK" "{}") (Ok (JObject [])) (Ok Demo.workbook)
         Scenario.unlink_refused)
      Demo.processor (Some (Demo.upload "a.pdf")) (Demo.world "PK") in
  fst run
  = {| statusCode := 500;
       json_body := failure_body "EPERM: operation not permitted, unlink" |}
  /\ files (snd run) !! "completed/originals/2024-05-06T07-08-09-001Z_a.pdf"
     = Some "PK".
Proof.
  destruct (refused_unlink_after_save
              (Scenario.env (Scenario.answer 200 "OK" "hello")
                 (Scenario.answer 200 "OK" "{}") (Ok (JObject []))
                 (Ok Demo.workbook) Scenario.unlink_refused)
              Demo.processor (Demo.upload "a.pdf") "PK" "hello" (JObject [])
              "EPERM: operation not permitted, unlink" (Demo.world "PK"))
    as [original [Hsrc [Hresp Hfiles]]].
  - vm_compute. reflexivity.
  - vm_compute. reflexivity.
  - eexists. repeat split; vm_compute; reflexivity.
  - vm_compute. reflexivity.
  - repeat split; vm_compute; reflexivity.
  - vm_compute. reflexivity.
  - cbv zeta. split; [exact Hresp|]. rewrite Hfiles.
    vm_compute in Hsrc. injection Hsrc as <-. vm_compute. reflexivity.
Defined.

(** X9.  The upload is removed exactly when the request is answered with
    200: after any other answer to a request whose upload was there, the
    upload is still there. *)
Theorem upload_removed_only_on_success env processor file w :
  let run := handler env processor (Some file) w in
  is_Some (files w !! path file) ->
  (statusCode (fst run) = 200 -> files (snd run) !! path file = None)
  /\ (statusCode (fst run) <> 200 -> is_Some (files (snd run) !! path file)).
Proof.
  intros run Hthere. subst run.
  rewrite handler_run, process_upload_run.
  destruct (fs_fault env (OpRead _)); [by split|].
  destruct Hthere as [buffer Hfile]. rewrite Hfile.
  pose proof (dispatch_outcomes env processor buffer file w) as H.
  cbv zeta in H.
  destruct (dispatch _ _ _ _ _) as [[result|e] w1]; simpl in H;
    destruct H as [_ [_ H]].
  - assert (is_Some (files w1 !! path file)) as Hkept.
    { destruct H as [? [? [original [_ [_ [_ [_ [-> _]]]]]]]].
      do 2 apply lookup_insert_is_Some'. by rewrite Hfile. }
    destruct (fs_fault env (OpUnlink _)); simpl; [by split|].
    destruct Hkept as [x ->]. simpl. split; [|done].
    intros _. apply lookup_delete_eq.
  - simpl. split; [done|]. intros _.
    destruct H as [->|[? [? [_ ->]]]]; [by rewrite Hfile|].
    apply lookup_insert_is_Some'. by rewrite Hfile.
Qed.

Lemma upload_removed_only_on_success_witness :
  files (snd (handler Scenario.healthy Demo.processor
                (Some (Demo.upload "a.pdf")) (Demo.world "PK")))
  !! "uploads/3f2a" = None
  /\ is_Some
       (files (snd (handler (Demo.env 500 "Internal Server Error")
                      Demo.processor (Some (Demo.upload "a.pdf"))
                      (Demo.world "PK")))
        !! "uploads/3f2a").
Proof.
  split.
  - apply (upload_removed_only_on_success Scenario.healthy Demo.processor
             (Demo.upload "a.pdf") (Demo.world "PK")).
    + vm_compute. eauto.
    + vm_compute. reflexivity.
  - apply (upload_removed_only_on_success (Demo.env 500 "Internal Server Error")
             Demo.processor (Demo.upload "a.pdf") (Demo.world "PK")).
    + vm_compute. eauto.
    + vm_compute. discriminate.
Defined.

(** X10.  A request touches at most three files: the upload, and the entry
    and the copy named after the second reading of the clock.  Every other
    file is after the request what it was before, whatever the answer. *)
Theorem request_touches_three_paths env processor file w p :
  let name := originalname file in
  let saved := now env (S (clock_reads w)) in
  p <> path file ->
  p <> entry_path processor saved name ->
  p <> copy_path processor saved name ->
  files (snd (handler env processor (Some file) w)) !! p = files w !! p.
Proof.
  intros name saved Hp1 Hp2 Hp3.
  rewrite handler_run, process_upload_run.
  destruct (fs_fault env (OpRead _)); [reflexivity|].
  destruct (files w !! path file) as [buffer|]; [|reflexivity].
  pose proof (dispatch_outcomes env processor buffer file w) as H.
  cbv zeta in H. fold name saved in H.
  destruct (dispatch _ _ _ _ _) as [[result|e] w1]; simpl in H;
    destruct H as [_ [_ H]].
  - assert (files w1 !! p = files w !! p) as Hsame.
    { destruct H as [? [? [original [_ [_ [_ [_ [-> _]]]]]]]].
      by rewrite !lookup_insert_ne. }
    destruct (fs_fault env (OpUnlink _)); simpl; [exact Hsame|].
    destruct (files w1 !! path file); simpl; [|exact Hsame].
    by rewrite lookup_delete_ne.
  - simpl. destruct H as [->|[? [? [_ ->]]]]; [reflexivity|].
    by rewrite lookup_insert_ne.
Qed.

Lemma request_touches_three_paths_witness :
  files (snd (handler Scenario.healthy Demo.processor
                (Some (Demo.upload "a.pdf"))
                {| files := <["completed/old.json" := "{}"]>
                              (files (Demo.world "PK"));
                   clock_reads := 0; requests := []; console := [] |}))
  !! "completed/old.json" = Some "{}".
Proof.
  rewrite (request_touches_three_paths Scenario.healthy Demo.processor
             (Demo.upload "a.pdf")); try (vm_compute; discriminate).
  vm_compute. reflexivity.
Defined.

(** X11.  A request only adds to the requests sent so far, and what it adds
    is a beginning of the requests of its path, in their order: the text
    extraction then the metadata call on the document path, the metadata
    call alone on the spreadsheet path, and nothing when the upload cannot
    be read.  Each of them is a PUT of the bytes of the upload, declared
    with the type of its name. *)
Theorem requests_follow_the_path env processor file w :
  let name := originalname file in
  let run := handler env processor (Some file) w in
  exists added,
    requests (snd run) = requests w ++ added
    /\ match files w !! path file with
       | Some buffer =>
           begins added (expected_requests processor buffer name)
           /\ Forall (fun req =>
                        method req = "PUT" /\ body req = buffer
                        /\ contentType req = getMimeType name) added
       | None => added = []
       end.
Proof.
  intros name run. subst run.
  rewrite handler_run, process_upload_run.
  assert (forall buffer added,
            begins added (expected_requests processor buffer name) ->
            Forall (fun req =>
                      method req = "PUT" /\ body req = buffer
                      /\ contentType req = getMimeType name) added) as Hshape.
  { intros buffer added [rest Hrest]. unfold expected_requests in Hrest.
    assert (Forall (fun req =>
                      method req = "PUT" /\ body req = buffer
                      /\ contentType req = getMimeType name) (added ++ rest))
      as Hall.
    { rewrite <- Hrest. destruct (isSpreadsheet name); repeat constructor. }
    by apply Forall_app in Hall as [Hall _]. }
  destruct (fs_fault env (OpRead _)).
  { exists []. simpl. rewrite app_nil_r. split; [reflexivity|].
    destruct (files w !! path file) as [buffer|]; [|reflexivity].
    split; [apply begins_nil | constructor]. }
  destruct (files w !! path file) as [buffer|].
  2:{ exists []. simpl. by rewrite app_nil_r. }
  pose proof (dispatch_outcomes env processor buffer file w) as H.
  cbv zeta in H. fold name in H.
  destruct (dispatch _ _ _ _ _) as [[result|e] w1]; simpl in H;
    destruct H as [[added [Hreq Hbegins]] _]; exists added.
  - destruct (fs_fault env (OpUnlink _)); simpl.
    + split; [exact Hreq|]. split; [exact Hbegins | by apply Hshape].
    + destruct (files w1 !! path file); simpl;
        (split; [exact Hreq|]); (split; [exact Hbegins | by apply Hshape]).
  - simpl. split; [exact Hreq|]. split; [exact Hbegins | by apply Hshape].
Qed.

Section Types.

(** The type of a name, by its lowered extension. *)
Lemma getMimeType_cases name :
  let ext := Js.toLowerCase (Path.extname name) in
  (ext = ".pdf" /\ getMimeType name = "application/pdf")
  \/ (ext = ".docx"
      /\ getMimeType name
         = "application/vnd.openxmlformats-officedocument.wordprocessingml.document")
  \/ (ext = ".xlsx"
      /\ getMimeType name
         = "application/vnd.openxmlformats-officedocument.spreadsheetml.sheet")
  \/ (ext = ".txt" /\ getMimeType name = "text/plain")
  \/ (ext = ".csv" /\ getMimeType name = "text/csv")
  \/ (ext <> ".xlsx" /\ ext <> ".csv"
      /\ getMimeType name = "application/octet-stream").
Proof.
  intros ext. unfold getMimeType. fold ext.
  destruct (decide (ext = ".pdf")) as [->|H1]; [by left|].
  destruct (decide (ext = ".docx")) as [->|H2]; [by right; left|].
  destruct (decide (ext = ".xlsx")) as [->|H3]; [by right; right; left|].
  destruct (decide (ext = ".txt")) as [->|H4]; [by right; right; right; left|].
  destruct (decide (ext = ".csv")) as [->|H5];
    [by right; right; right; right; left|].
  do 5 right. split; [exact H3|]. split; [exact H5|].
  unfold mimeTypes. rewrite !lookup_insert_ne by done. by rewrite lookup_empty.
Qed.

End Types.

(** X12.  A result of the spreadsheet path always comes from one of the two
    flatteners and carries the matching type: the extension of the name is
    [.xlsx], the text is the flattened workbook and the type is the
    spreadsheet type, or the extension is [.csv], the text is the flattened
    rows of the parse and the type is [text/csv]. *)
Theorem spreadsheet_result_provenance env this file name originalPath w
    result w' :
  processSpreadsheet env this file name originalPath w = (Ok result, w') ->
  let ext := Js.toLowerCase (Path.extname name) in
  filename result = name
  /\ ((ext = ".xlsx"
       /\ mimeType result
          = "application/vnd.openxmlformats-officedocument.spreadsheetml.sheet"
       /\ exists workbook,
            xlsx_read env file = Ok workbook
            /\ content result = flatten_workbook workbook)
      \/ (ext = ".csv"
          /\ mimeType result = "text/csv"
          /\ content result = formattedContent (papa_parse env (toString_utf8 file)))).
Proof.
  intros Hrun ext. rewrite processSpreadsheet_run in Hrun. cbv zeta in Hrun.
  fold ext in Hrun.
  destruct (String.eqb ext ".xlsx") eqn:Hx.
  - apply String.eqb_eq in Hx.
    destruct (xlsx_read env file) as [workbook|e0]; [|discriminate].
    pose proof (complete_processing_outcomes env this file name originalPath
                  (flatten_workbook workbook) w) as H.
    cbv zeta in H.
    destruct (complete_processing _ _ _ _ _ _ _) as [[r|e] w1];
      [|discriminate].
    injection Hrun as -> ->. simpl in H.
    destruct H as [_ [_ [_ [metadata [original [_ [-> _]]]]]]].
    split; [reflexivity|]. left. split; [exact Hx|]. split.
    + simpl. destruct (getMimeType_cases name) as [[E _]|[[E _]|[[_ E]|[[E _]|[[E _]|[E _]]]]]];
        fold ext in E; try (rewrite Hx in E; discriminate); try done.
    + by exists workbook.
  - destruct (String.eqb ext ".csv") eqn:Hc; [|discriminate].
    apply String.eqb_eq in Hc.
    pose proof (complete_processing_outcomes env this file name originalPath
                  (formattedContent (papa_parse env (toString_utf8 file))) w) as H.
    cbv zeta in H.
    destruct (complete_processing _ _ _ _ _ _ _) as [[r|e] w1];
      [|discriminate].
    injection Hrun as -> ->. simpl in H.
    destruct H as [_ [_ [_ [metadata [original [_ [-> _]]]]]]].
    split; [reflexivity|]. right. split; [exact Hc|]. split; [|reflexivity].
    simpl. destruct (getMimeType_cases name) as [[E _]|[[E _]|[[E _]|[[E _]|[[_ E]|[_ [E _]]]]]]];
      fold ext in E; try (rewrite Hc in E; discriminate); try done.
Qed.

Lemma spreadsheet_result_provenance_witness :
  exists result w',
    processSpreadsheet Scenario.healthy Demo.processor csv_sample "t.CSV"
      "uploads/3f2a" (Demo.world csv_sample) = (Ok result, w')
    /\ mimeType result = "text/csv"
    /\ content result
       = "a" +:+ Js.tab +:+ "b" +:+ Js.nl +:+ " c" +:+ Js.tab +:+ "d".
Proof.
  eexists. eexists. split; [vm_compute; reflexivity|].
  match goal with |- mimeType ?r = _ /\ _ =>
    destruct (spreadsheet_result_provenance Scenario.healthy Demo.processor
                csv_sample "t.CSV" "uploads/3f2a" (Demo.world csv_sample)
                r _ eq_refl) as [_ [[Hx _]|[_ [Hmime Hcontent]]]]
  end.
  - vm_compute in Hx. discriminate Hx.
  - split; [exact Hmime|]. rewrite Hcontent. vm_compute. reflexivity.
Defined.

(** X13.  On the document path the declared type is never a spreadsheet
    type: a name (without [/]) that is not sent to the spreadsheet path has
    neither the spreadsheet type nor [text/csv], so the remote text
    extraction is never asked to read a spreadsheet as such. *)
Theorem document_path_type_is_not_spreadsheet name :
  Js.includes_char "/" name = false ->
  isSpreadsheet name = false ->
  getMimeType name
  <> "application/vnd.openxmlformats-officedocument.spreadsheetml.sheet"
  /\ getMimeType name <> "text/csv".
Proof.
  intros Hslash Hroute.
  assert (Js.toLowerCase (Path.extname name) <> ".xlsx"
          /\ Js.toLowerCase (Path.extname name) <> ".csv") as [Hx Hc].
  { split; intros E; apply (extension_endsWith _ _ Hslash) in E;
      unfold isSpreadsheet in Hroute; simpl in Hroute; rewrite E in Hroute;
      [discriminate | by rewrite orb_true_r in Hroute]. }
  destruct (getMimeType_cases name)
    as [[_ ->]|[[_ ->]|[[E _]|[[_ ->]|[[E _]|[_ [_ ->]]]]]]]; try done.
Qed.

Lemma document_path_type_is_not_spreadsheet_witness :
  getMimeType "report.csv.pdf" <> "text/csv".
Proof.
  apply (document_path_type_is_not_spreadsheet "report.csv.pdf");
    vm_compute; reflexivity.
Defined.

(** ** More on the two flatteners *)

Section Flatteners.

Lemma emit_row_line result row : emit_row result row = result +:+ row_line row.
Proof.
  unfold row_line. destruct row as [cells|props]; simpl; [|reflexivity].
  by destruct (0 <? length cells).
Qed.

Lemma rows_text_lines rows : rows_text rows = concat_strings (map row_line rows).
Proof.
  induction rows as [|row rows IH] using rev_ind; [reflexivity|].
  unfold rows_text in *. rewrite fold_left_app, map_app. simpl.
  rewrite emit_row_line, IH, concat_strings_last. reflexivity.
Qed.

(** [split] on one character: a piece without the separator, then the
    separator. *)
Lemma startsWith_char c a r :
  Js.startsWith (String a r) (String c "") = Ascii.eqb a c.
Proof.
  change (Js.startsWith (String a r) (String c ""))
    with (if Ascii.eqb c a then Js.startsWith r "" else false).
  rewrite Ascii.eqb_sym. by destruct (Ascii.eqb a c).
Qed.

Lemma split_go_step c a r cur :
  Js.split_go (String c "") (String a r) 0 cur
  = if Ascii.eqb a c
    then String.rev cur :: Js.split_go (String c "") r 0 ""
    else Js.split_go (String c "") r 0 (String a cur).
Proof.
  change (Js.split_go (String c "") (String a r) 0 cur)
    with (if Js.startsWith (String a r) (String c "")
          then String.rev cur :: Js.split_go (String c "") r 0 ""
          else Js.split_go (String c "") r 0 (String a cur)).
  by rewrite startsWith_char.
Qed.

Lemma rev_cons a cur : String.rev (String a cur) = String.rev cur +:+ String a "".
Proof. unfold String.rev. simpl. by rewrite rev_app_acc. Qed.

Lemma split_go_piece c x cur :
  Js.includes_char c x = false ->
  Js.split_go (String c "") x 0 cur = [String.rev cur +:+ x].
Proof.
  revert cur. induction x as [|a x IH]; intros cur H.
  - simpl. by rewrite app_empty_r.
  - simpl in H. apply orb_false_elim in H as [Ha Hx].
    rewrite split_go_step, Ha, IH by exact Hx.
    by rewrite rev_cons, app_assoc'.
Qed.

Lemma split_go_piece_sep c x t cur :
  Js.includes_char c x = false ->
  Js.split_go (String c "") (x +:+ String c t) 0 cur
  = (String.rev cur +:+ x) :: Js.split_go (String c "") t 0 "".
Proof.
  revert cur. induction x as [|a x IH]; intros cur H.
  - change ("" +:+ String c t) with (String c t).
    by rewrite split_go_step, Ascii.eqb_refl, app_empty_r.
  - simpl in H. apply orb_false_elim in H as [Ha Hx].
    rewrite app_cons, split_go_step, Ha, IH by exact Hx.
    by rewrite rev_cons, app_assoc'.
Qed.

(** Pieces without the separator come back from their [join]. *)
Lemma split_join c pieces :
  pieces <> [] ->
  Forall (fun x => Js.includes_char c x = false) pieces ->
  Js.split (String c "") (Js.join (String c "") pieces) = pieces.
Proof.
  intros Hne Hall. unfold Js.split.
  induction Hall as [|x rest Hx Hrest IH]; [done|]. clear Hne.
  destruct rest as [|y rest].
  - simpl. by rewrite split_go_piece.
  - change (Js.join (String c "") (x :: y :: rest))
      with (x +:+ String c "" +:+ Js.join (String c "") (y :: rest)).
    change (String c "" +:+ Js.join (String c "") (y :: rest))
      with (String c (Js.join (String c "") (y :: rest))).
    rewrite split_go_piece_sep by exact Hx.
    by rewrite IH.
Qed.

Lemma includes_join c sep pieces :
  Js.includes_char c sep = false ->
  Forall (fun x => Js.includes_char c x = false) pieces ->
  Js.includes_char c (Js.join sep pieces) = false.
Proof.
  intros Hsep Hall. induction Hall as [|x rest Hx Hrest IH]; [reflexivity|].
  destruct rest as [|y rest]; [exact Hx|].
  change (Js.join sep (x :: y :: rest))
    with (x +:+ sep +:+ Js.join sep (y :: rest)).
  by rewrite !includes_char_app, Hx, Hsep, IH.
Qed.

End Flatteners.

(** X14.  The text of a workbook, in closed form: for each sheet, in the
    order of [SheetNames], the header line when there is more than one
    sheet, then one line per row, whatever the row (its values joined by
    tabs, so an empty line for an empty row), then an empty line; a name
    without a sheet gives its header and the empty line only. *)
Theorem xlsx_text_closed_form env buffer workbook w :
  xlsx_read env buffer = Ok workbook ->
  processXLSX env buffer w
  = (Ok (concat_strings
           (map (fun name =>
                   (if 1 <? length (SheetNames workbook)
                    then "Sheet: " +:+ name +:+ Js.nl else "")
                   +:+ concat_strings
                         (map row_line (default [] (Sheets workbook !! name)))
                   +:+ Js.nl)
              (SheetNames workbook))), w).
Proof.
  intros Hread.
  rewrite (processXLSX_ok _ _ _ _ Hread), flatten_workbook_blocks.
  do 3 f_equal. apply map_ext. intros name.
  unfold sheet_block, emit_sheet, sheet_to_json.
  rewrite fold_emit_row_acc, rows_text_lines.
  destruct (1 <? length (SheetNames workbook)); [|reflexivity].
  by rewrite !app_assoc'.
Qed.

Lemma xlsx_text_closed_form_witness :
  processXLSX Scenario.healthy "PK" (Demo.world "PK")
  = (Ok ("Sheet: A" +:+ Js.nl +:+ "x" +:+ Js.tab +:+ "1" +:+ Js.nl
         +:+ "y" +:+ Js.nl +:+ Js.nl
         +:+ "Sheet: B" +:+ Js.nl
         +:+ "true" +:+ Js.tab +:+ Js.tab +:+ "z" +:+ Js.nl +:+ Js.nl),
     Demo.world "PK").
Proof.
  rewrite (xlsx_text_closed_form Scenario.healthy "PK" Demo.workbook
             (Demo.world "PK") eq_refl).
  vm_compute. reflexivity.
Defined.

(** X15.  The flattened CSV text can be read back: when no field holds a tab
    or a newline, splitting the text at newlines and each line at tabs gives
    the rows again (those with at least one field, if there is any). *)
Theorem csv_text_splits_back data :
  let rows := List.filter (fun row => 0 <? length row) data in
  rows <> [] ->
  Forall (Forall (fun field =>
                    Js.includes_char "009" field = false
                    /\ Js.includes_char "010" field = false)) rows ->
  map (Js.split Js.tab) (Js.split Js.nl (formattedContent data)) = rows.
Proof.
  intros rows Hne Hfields. unfold formattedContent. fold rows.
  assert (Forall (fun row => row <> []) rows) as Hrows.
  { unfold rows. clear. induction data as [|row data IH]; simpl; [constructor|].
    destruct (0 <? length row) eqn:E; [|exact IH].
    constructor; [|exact IH]. by destruct row. }
  change (map (fun row => Js.join Js.tab row) rows)
    with (map (Js.join Js.tab) rows).
  unfold Js.nl at 1. rewrite split_join.
  - clear Hne. generalize dependent rows. intros rows.
    induction rows as [|row rest IH]; intros Hfields Hrows; [reflexivity|].
    apply Forall_cons in Hrows as [Hrow_ne Hrows].
    apply Forall_cons in Hfields as [Hrow Hfields].
    simpl. rewrite IH by assumption. f_equal.
    unfold Js.tab. apply split_join; [exact Hrow_ne|].
    eapply Forall_impl; [exact Hrow|]. by intros field [Htab _].
  - by destruct rows.
  - clear Hne Hrows. generalize dependent rows. intros rows.
    induction rows as [|row rest IH]; intros Hfields; simpl; constructor.
    + apply Forall_cons in Hfields as [Hrow _].
      apply includes_join; [reflexivity|].
      eapply Forall_impl; [exact Hrow|]. by intros field [_ Hnl].
    + apply IH. by apply Forall_cons in Hfields as [_ Hfields].
Qed.

Lemma csv_text_splits_back_witness :
  map (Js.split Js.tab)
    (Js.split Js.nl (formattedContent [["a"; "b"]; []; [" c"; ""; "d"]]))
  = [["a"; "b"]; [" c"; ""; "d"]].
Proof.
  apply (csv_text_splits_back [["a"; "b"]; []; [" c"; ""; "d"]]).
  - vm_compute. discriminate.
  - vm_compute. repeat constructor.
Defined.

(** ** More on archive names *)

Section Timestamps.

Lemma replace_app s t :
  Js.replace_colon_dot (s +:+ t)
  = Js.replace_colon_dot s +:+ Js.replace_colon_dot t.
Proof.
  induction s as [|c s IH]; [reflexivity|].
  rewrite app_cons. simpl. by rewrite IH, app_cons.
Qed.

Lemma digit_code n : N_of_ascii (digit n) = (48 + n mod 10)%N.
Proof.
  unfold digit. apply N_ascii_embedding.
  pose proof (N.mod_upper_bound n 10). lia.
Qed.

Lemma dash_char_digit n : Js.dash_char (digit n) = digit n.
Proof.
  pose proof (digit_is_digit n) as H. unfold Js.dash_char.
  destruct (Ascii.eqb (digit n) ":") eqn:E1.
  { apply Ascii.eqb_eq in E1. rewrite E1 in H. discriminate H. }
  destruct (Ascii.eqb (digit n) ".") eqn:E2; [|reflexivity].
  apply Ascii.eqb_eq in E2. rewrite E2 in H. discriminate H.
Qed.

(** The timestamp of a date with a four-digit year, field by field. *)
Lemma timestamp_fields d :
  (year d <= 9999)%N ->
  Js.replace_colon_dot (toISOString d)
  = pad4 (year d) +:+ "-" +:+ pad2 (month d) +:+ "-" +:+ pad2 (day d)
    +:+ "T" +:+ pad2 (hours d) +:+ "-" +:+ pad2 (minutes d)
    +:+ "-" +:+ pad2 (seconds d) +:+ "-" +:+ pad3 (milliseconds d) +:+ "Z".
Proof.
  intros Hyear. unfold toISOString.
  apply N.leb_le in Hyear. rewrite Hyear.
  rewrite !replace_app. unfold pad4, pad3, pad2. simpl.
  by rewrite !dash_char_digit.
Qed.

Lemma compare_same c s t :
  String.compare (String c s) (String c t) = String.compare s t.
Proof.
  simpl. unfold Ascii.compare. by rewrite N.compare_refl.
Qed.

Lemma compare_digit x y s t :
  String.compare (String (digit x) s) (String (digit y) t)
  = match (x mod 10 ?= y mod 10)%N with
    | Eq => String.compare s t
    | c => c
    end.
Proof.
  simpl. unfold Ascii.compare. rewrite !digit_code.
  destruct (N.compare_spec (48 + x mod 10) (48 + y mod 10));
    destruct (N.compare_spec (x mod 10) (y mod 10)); try reflexivity; lia.
Qed.

Lemma compare_pad2 a b s t :
  (a <= 99)%N -> (b <= 99)%N ->
  String.compare (pad2 a +:+ s) (pad2 b +:+ t)
  = match (a ?= b)%N with
    | Eq => String.compare s t
    | c => c
    end.
Proof.
  intros Ha Hb. unfold pad2. rewrite !app_cons.
  change ("" +:+ s) with s. change ("" +:+ t) with t.
  rewrite !compare_digit.
  pose proof (N.div_mod a 10 ltac:(lia)) as Ea.
  pose proof (N.div_mod b 10 ltac:(lia)) as Eb.
  pose proof (N.mod_upper_bound a 10 ltac:(lia)) as Ra.
  pose proof (N.le_0_l (a mod 10)) as PRa.
  pose proof (N.le_0_l (a / 10)) as QRa.
  pose proof (N.mod_upper_bound b 10 ltac:(lia)) as Rb.
  pose proof (N.le_0_l (b mod 10)) as PRb.
  pose proof (N.le_0_l (b / 10)) as QRb.
  rewrite (N.mod_small (a / 10) 10), (N.mod_small (b / 10) 10) by lia.
  destruct (N.compare_spec (a / 10) (b / 10)) as [E|E|E];
    destruct (N.compare_spec (a mod 10) (b mod 10)) as [F|F|F];
    destruct (N.compare_spec a b) as [G|G|G]; try reflexivity; lia.
Qed.

Lemma compare_pad3 a b s t :
  (a <= 999)%N -> (b <= 999)%N ->
  String.compare (pad3 a +:+ s) (pad3 b +:+ t)
  = match (a ?= b)%N with
    | Eq => String.compare s t
    | c => c
    end.
Proof.
  intros Ha Hb. unfold pad3, pad2. rewrite !app_cons.
  change ("" +:+ s) with s. change ("" +:+ t) with t.
  rewrite !compare_digit.
  pose proof (N.div_mod a 10 ltac:(lia)) as Ea.
  pose proof (N.div_mod b 10 ltac:(lia)) as Eb.
  pose proof (N.mod_upper_bound a 10 ltac:(lia)) as Ra.
  pose proof (N.le_0_l (a mod 10)) as PRa.
  pose proof (N.le_0_l (a / 10)) as QRa.
  pose proof (N.mod_upper_bound b 10 ltac:(lia)) as Rb.
  pose proof (N.le_0_l (b mod 10)) as PRb.
  pose proof (N.le_0_l (b / 10)) as QRb.
  pose proof (N.div_mod (a / 10) 10 ltac:(lia)) as Ea1.
  pose proof (N.div_mod (b / 10) 10 ltac:(lia)) as Eb1.
  pose proof (N.mod_upper_bound (a / 10) 10 ltac:(lia)) as Ra1.
  pose proof (N.le_0_l ((a / 10) mod 10)) as PRa1.
  pose proof (N.le_0_l ((a / 10) / 10)) as QRa1.
  pose proof (N.mod_upper_bound (b / 10) 10 ltac:(lia)) as Rb1.
  pose proof (N.le_0_l ((b / 10) mod 10)) as PRb1.
  pose proof (N.le_0_l ((b / 10) / 10)) as QRb1.
  rewrite (N.Div0.div_div a 10 10), (N.Div0.div_div b 10 10) in *.
  change (10 * 10)%N with 100%N in *.
  rewrite (N.mod_small (a / 100) 10), (N.mod_small (b / 100) 10) by lia.
  destruct (N.compare_spec (a / 100) (b / 100)) as [E|E|E];
    destruct (N.compare_spec ((a / 10) mod 10) ((b / 10) mod 10)) as [F|F|F];
    destruct (N.compare_spec (a mod 10) (b mod 10)) as [F'|F'|F'];
    destruct (N.compare_spec a b) as [G|G|G]; try reflexivity; lia.
Qed.

Lemma compare_pad4 a b s t :
  (a <= 9999)%N -> (b <= 9999)%N ->
  String.compare (pad4 a +:+ s) (pad4 b +:+ t)
  = match (a ?= b)%N with
    | Eq => String.compare s t
    | c => c
    end.
Proof.
  intros Ha Hb. unfold pad4, pad3, pad2. rewrite !app_cons.
  change ("" +:+ s) with s. change ("" +:+ t) with t.
  rewrite !compare_digit.
  pose proof (N.div_mod a 10 ltac:(lia)) as Ea.
  pose proof (N.div_mod b 10 ltac:(lia)) as Eb.
  pose proof (N.mod_upper_bound a 10 ltac:(lia)) as Ra.
  pose proof (N.le_0_l (a mod 10)) as PRa.
  pose proof (N.le_0_l (a / 10)) as QRa.
  pose proof (N.mod_upper_bound b 10 ltac:(lia)) as Rb.
  pose proof (N.le_0_l (b mod 10)) as PRb.
  pose proof (N.le_0_l (b / 10)) as QRb.
  pose proof (N.div_mod (a / 10) 10 ltac:(lia)) as Ea1.
  pose proof (N.div_mod (b / 10) 10 ltac:(lia)) as Eb1.
  pose proof (N.mod_upper_bound (a / 10) 10 ltac:(lia)) as Ra1.
  pose proof (N.le_0_l ((a / 10) mod 10)) as PRa1.
  pose proof (N.le_0_l ((a / 10) / 10)) as QRa1.
  pose proof (N.mod_upper_bound (b / 10) 10 ltac:(lia)) as Rb1.
  pose proof (N.le_0_l ((b / 10) mod 10)) as PRb1.
  pose proof (N.le_0_l ((b / 10) / 10)) as QRb1.
  pose proof (N.div_mod (a / 100) 10 ltac:(lia)) as Ea2.
  pose proof (N.div_mod (b / 100) 10 ltac:(lia)) as Eb2.
  pose proof (N.mod_upper_bound (a / 100) 10 ltac:(lia)) as Ra2.
  pose proof (N.le_0_l ((a / 100) mod 10)) as PRa2.
  pose proof (N.le_0_l ((a / 100) / 10)) as QRa2.
  pose proof (N.mod_upper_bound (b / 100) 10 ltac:(lia)) as Rb2.
  pose proof (N.le_0_l ((b / 100) mod 10)) as PRb2.
  pose proof (N.le_0_l ((b / 100) / 10)) as QRb2.
  rewrite (N.Div0.div_div a 10 10), (N.Div0.div_div b 10 10) in *.
  change (10 * 10)%N with 100%N in *.
  rewrite (N.Div0.div_div a 100 10), (N.Div0.div_div b 100 10) in *.
  change (100 * 10)%N with 1000%N in *.
  rewrite (N.mod_small (a / 1000) 10), (N.mod_small (b / 1000) 10) by lia.
  destruct (N.compare_spec (a / 1000) (b / 1000)) as [E|E|E];
    destruct (N.compare_spec ((a / 100) mod 10) ((b / 100) mod 10)) as [F2|F2|F2];
    destruct (N.compare_spec ((a / 10) mod 10) ((b / 10) mod 10)) as [F|F|F];
    destruct (N.compare_spec (a mod 10) (b mod 10)) as [F'|F'|F'];
    destruct (N.compare_spec a b) as [G|G|G]; try reflexivity; lia.
Qed.

(** Archive names compare as their dates do, then as their file names. *)
Lemma compare_archive_name d1 d2 f1 f2 :
  date_in_range d1 -> date_in_range d2 ->
  String.compare (archive_name d1 f1) (archive_name d2 f2)
  = match date_compare d1 d2 with
    | Eq => String.compare f1 f2
    | c => c
    end.
Proof.
  intros [Hy1 [Hmo1 [Hd1 [Hh1 [Hmi1 [Hs1 Hms1]]]]]]
         [Hy2 [Hmo2 [Hd2 [Hh2 [Hmi2 [Hs2 Hms2]]]]]].
  unfold archive_name, date_compare, date_key.
  rewrite !timestamp_fields by assumption. rewrite !app_assoc'. simpl lex_compare.
  rewrite compare_pad4 by assumption.
  destruct (year d1 ?= year d2)%N; try reflexivity.
  rewrite (app_cons "-"), (app_cons "-" _ (pad2 (month d2) +:+ _)), compare_same.
  change ("" +:+ ?x) with x.
  rewrite compare_pad2 by assumption.
  destruct (month d1 ?= month d2)%N; try reflexivity.
  rewrite (app_cons "-"), (app_cons "-" _ (pad2 (day d2) +:+ _)), compare_same.
  change ("" +:+ ?x) with x.
  rewrite compare_pad2 by assumption.
  destruct (day d1 ?= day d2)%N; try reflexivity.
  rewrite (app_cons "T"), (app_cons "T" _ (pad2 (hours d2) +:+ _)), compare_same.
  change ("" +:+ ?x) with x.
  rewrite compare_pad2 by assumption.
  destruct (hours d1 ?= hours d2)%N; try reflexivity.
  rewrite (app_cons "-"), (app_cons "-" _ (pad2 (minutes d2) +:+ _)), compare_same.
  change ("" +:+ ?x) with x.
  rewrite compare_pad2 by assumption.
  destruct (minutes d1 ?= minutes d2)%N; try reflexivity.
  rewrite (app_cons "-"), (app_cons "-" _ (pad2 (seconds d2) +:+ _)), compare_same.
  change ("" +:+ ?x) with x.
  rewrite compare_pad2 by assumption.
  destruct (seconds d1 ?= seconds d2)%N; try reflexivity.
  rewrite (app_cons "-"), (app_cons "-" _ (pad3 (milliseconds d2) +:+ _)), compare_same.
  change ("" +:+ ?x) with x.
  rewrite compare_pad3 by assumption.
  destruct (milliseconds d1 ?= milliseconds d2)%N; reflexivity.
Qed.

Lemma date_compare_eq d1 d2 : date_compare d1 d2 = Eq -> d1 = d2.
Proof.
  destruct d1, d2. unfold date_compare, date_key. simpl.
  repeat match goal with
         | |- context [(?a ?= ?b)%N] =>
             destruct (N.compare_spec a b); try discriminate; subst
         end.
  reflexivity.
Qed.

Lemma app_inv_tail' s1 s2 t : s1 +:+ t = s2 +:+ t -> s1 = s2.
Proof.
  revert s2. induction s1 as [|a s1 IH]; intros [|b s2] H.
  - reflexivity.
  - apply (f_equal String.length) in H. rewrite !length_app in H.
    simpl in H. lia.
  - apply (f_equal String.length) in H. rewrite !length_app in H.
    simpl in H. lia.
  - rewrite !app_cons in H. injection H as -> H. f_equal. by apply IH.
Qed.

End Timestamps.

Section ArchivePaths.

Lemma archive_name_plain' d name :
  Js.includes_char "/" name = false ->
  Js.includes_char "/" (archive_name d name) = false
  /\ archive_name d name <> "" /\ archive_name d name <> "."
  /\ archive_name d name <> "..".
Proof. apply archive_name_plain. Qed.

(** The two paths of a save, for a base name. *)
Lemma archive_paths TIKA_SERVER_URL d name :
  Js.includes_char "/" name = false ->
  entry_path (new_DocumentProcessor TIKA_SERVER_URL) d name
  = "completed/" +:+ archive_name d (name +:+ ".json")
  /\ copy_path (new_DocumentProcessor TIKA_SERVER_URL) d name
     = "completed/originals/" +:+ archive_name d name.
Proof.
  intros Hname. destruct (archive_name_plain' d name Hname) as [H [H0 [H1 H2]]].
  unfold entry_path, copy_path.
  change (completedDir (new_DocumentProcessor TIKA_SERVER_URL)) with "./completed".
  rewrite join_completed, join_originals by assumption.
  split; [|reflexivity]. unfold archive_name. by rewrite !app_assoc'.
Qed.

Lemma compare_prefix p s t :
  String.compare (p +:+ s) (p +:+ t) = String.compare s t.
Proof.
  induction p as [|c p IH]; [reflexivity|]. by rewrite !app_cons, compare_same.
Qed.

Lemma compare_refl' s : String.compare s s = Eq.
Proof. induction s as [|c s IH]; [reflexivity|]. by rewrite compare_same. Qed.

End ArchivePaths.

(** X17.  Archive names sort by time: of two saves of base names, the one
    with the earlier reading of the clock has the smaller entry path and the
    smaller copy path in the order of strings, whatever the file names (for
    dates with a four-digit year). *)
Theorem archive_paths_sort_by_time TIKA_SERVER_URL d1 d2 f1 f2 :
  date_in_range d1 -> date_in_range d2 ->
  Js.includes_char "/" f1 = false -> Js.includes_char "/" f2 = false ->
  date_compare d1 d2 = Lt ->
  String.compare (entry_path (new_DocumentProcessor TIKA_SERVER_URL) d1 f1)
    (entry_path (new_DocumentProcessor TIKA_SERVER_URL) d2 f2) = Lt
  /\ String.compare (copy_path (new_DocumentProcessor TIKA_SERVER_URL) d1 f1)
       (copy_path (new_DocumentProcessor TIKA_SERVER_URL) d2 f2) = Lt.
Proof.
  intros Hd1 Hd2 Hf1 Hf2 Hlt.
  destruct (archive_paths TIKA_SERVER_URL d1 f1 Hf1) as [-> ->].
  destruct (archive_paths TIKA_SERVER_URL d2 f2 Hf2) as [-> ->].
  rewrite !compare_prefix, !compare_archive_name by assumption.
  by rewrite Hlt.
Qed.

Lemma archive_paths_sort_by_time_witness :
  String.compare
    (entry_path Demo.processor (now Scenario.healthy 7) "zebra.pdf")
    (entry_path Demo.processor (now Scenario.healthy 12) "apple.pdf") = Lt.
Proof.
  apply (archive_paths_sort_by_time None (now Scenario.healthy 7)
           (now Scenario.healthy 12) "zebra.pdf" "apple.pdf").
  - repeat split; vm_compute; discriminate.
  - repeat split; vm_compute; discriminate.
  - vm_compute. reflexivity.
  - vm_compute. reflexivity.
  - vm_compute. reflexivity.
Defined.

(** X18.  Two saves write to the same entry only when they agree on the
    reading of the clock, to the millisecond, and on the file name: for base
    names and dates with a four-digit year, equal entry paths, or equal copy
    paths, mean equal dates and equal names. *)
Theorem archive_paths_collide_only_when_equal TIKA_SERVER_URL d1 d2 f1 f2 :
  date_in_range d1 -> date_in_range d2 ->
  Js.includes_char "/" f1 = false -> Js.includes_char "/" f2 = false ->
  entry_path (new_DocumentProcessor TIKA_SERVER_URL) d1 f1
  = entry_path (new_DocumentProcessor TIKA_SERVER_URL) d2 f2
  \/ copy_path (new_DocumentProcessor TIKA_SERVER_URL) d1 f1
     = copy_path (new_DocumentProcessor TIKA_SERVER_URL) d2 f2 ->
  d1 = d2 /\ f1 = f2.
Proof.
  intros Hd1 Hd2 Hf1 Hf2 Hsame.
  destruct (archive_paths TIKA_SERVER_URL d1 f1 Hf1) as [He1 Hc1].
  destruct (archive_paths TIKA_SERVER_URL d2 f2 Hf2) as [He2 Hc2].
  rewrite He1, He2, Hc1, Hc2 in Hsame.
  assert (forall g1 g2, archive_name d1 g1 = archive_name d2 g2 ->
                        d1 = d2 /\ g1 = g2) as Hinj.
  { intros g1 g2 E.
    pose proof (compare_refl' (archive_name d1 g1)) as C. rewrite E in C at 2.
    clear E. rename C into E.
    rewrite compare_archive_name in E by assumption.
    destruct (date_compare d1 d2) eqn:Hdate; try discriminate.
    split; [by apply date_compare_eq | by apply String.compare_eq_iff]. }
  destruct Hsame as [E|E]; apply String.app_inj in E.
  - apply Hinj in E as [-> E]. split; [reflexivity|].
    by apply app_inv_tail' in E.
  - by apply Hinj in E.
Qed.

Lemma archive_paths_collide_only_when_equal_witness :
  now Scenario.healthy 3 = now Scenario.healthy 3 /\ "a.pdf" = "a.pdf".
Proof.
  apply (archive_paths_collide_only_when_equal None (now Scenario.healthy 3)
           (now Scenario.healthy 3) "a.pdf" "a.pdf").
  - repeat split; vm_compute; discriminate.
  - repeat split; vm_compute; discriminate.
  - vm_compute. reflexivity.
  - vm_compute. reflexivity.
  - left. reflexivity.
Defined.

(** ** Names without an extension *)

Section NoExtension.

Lemma extname_loop_no_dot rpath st :
  Js.includes_char "." rpath = false ->
  Path.startDot st = None ->
  Path.startDot (Path.extname_loop rpath st) = None.
Proof.
  revert st. induction rpath as [|code rest IH]; intros st Hdot Hst; [exact Hst|].
  simpl in Hdot. apply orb_false_elim in Hdot as [Hcode Hrest].
  simpl. destruct (Ascii.eqb code "/").
  - destruct (negb (Path.matchedSlash st)); [exact Hst | by apply IH].
  - rewrite Hcode. apply IH; [exact Hrest|].
    destruct (Path.end_ st); simpl; by rewrite Hst.
Qed.

Lemma extname_no_dot name :
  Js.includes_char "." name = false -> Path.extname name = "".
Proof.
  intros Hdot. unfold Path.extname.
  by rewrite extname_loop_no_dot; [| rewrite includes_rev |].
Qed.

(** Scanning characters that are neither [.] nor [/] records no dot. *)
Lemma extname_loop_plain r1 r2 st :
  Js.includes_char "." r1 = false ->
  Js.includes_char "/" r1 = false ->
  Path.startDot st = None -> Path.preDotState st = 0%Z ->
  exists st',
    Path.extname_loop (r1 +:+ r2) st = Path.extname_loop r2 st'
    /\ Path.startDot st' = None /\ Path.preDotState st' = 0%Z.
Proof.
  revert st. induction r1 as [|code rest IH]; intros st Hdot Hslash Hst Hpre.
  { exists st. by repeat split. }
  simpl in Hdot, Hslash.
  apply orb_false_elim in Hdot as [Hcode Hdot].
  apply orb_false_elim in Hslash as [Hcode' Hslash].
  rewrite app_cons. simpl. rewrite Hcode, Hcode'.
  apply IH; try assumption; destruct (Path.end_ st); simpl; by rewrite Hst.
Qed.

Lemma extname_dotfile rest :
  Js.includes_char "." rest = false ->
  Js.includes_char "/" rest = false ->
  Path.extname (String "." rest) = "".
Proof.
  intros Hdot Hslash. unfold Path.extname. rewrite rev_cons.
  destruct (extname_loop_plain (String.rev rest) "." Path.ext_init)
    as [st' [-> [Hst Hpre]]]; try (by rewrite includes_rev); try reflexivity.
  assert (Path.preDotState (Path.extname_loop "." st') = 0%Z) as H0.
  { simpl. destruct (Path.end_ st'); simpl; rewrite Hst; simpl; exact Hpre. }
  cbv zeta. rewrite H0.
  destruct (Path.startDot (Path.extname_loop "." st'));
    [destruct (Path.end_ (Path.extname_loop "." st'))|]; reflexivity.
Qed.

End NoExtension.

(** X19.  A name without a dot, and a name whose only dot is its first
    character (a dotfile such as [.pdf]), has no extension and gets the type
    [application/octet-stream], even when the characters after the dot are
    those of a known extension. *)
Theorem getMimeType_without_extension name :
  (Js.includes_char "." name = false ->
   getMimeType name = "application/octet-stream")
  /\ (Js.includes_char "." name = false ->
      Js.includes_char "/" name = false ->
      getMimeType (String "." name) = "application/octet-stream").
Proof.
  split.
  - intros Hdot. unfold getMimeType. by rewrite extname_no_dot.
  - intros Hdot Hslash. unfold getMimeType. by rewrite extname_dotfile.
Qed.

Lemma getMimeType_without_extension_witness :
  getMimeType "README" = "application/octet-stream"
  /\ getMimeType ".pdf" = "application/octet-stream".
Proof.
  split.
  - apply (proj1 (getMimeType_without_extension "README")).
    vm_compute. reflexivity.
  - apply (proj2 (getMimeType_without_extension "pdf"));
      vm_compute; reflexivity.
Defined.

(** ** The causes of a failure *)

Section Causes.







End Causes.



(** ** From the body to the archive *)

Section EndToEnd.

(** One named file under [name], among parts that pass by, is stored and
    left to the handler. *)
Lemma upload_single_stores env host name before filename data rest w :
  let upload := Path.join ["uploads/"; randomName host] in
  forallb passes_by before = true ->
  forallb passes_by rest = true ->
  filename <> "" ->
  fs_fault env (OpWrite upload) = None ->
  upload_single env host name
    (Multipart (before ++ FilePart name filename data :: rest)) w
  = (Ok (Some {| originalname := filename; path := upload |}),
     set_files (<[upload := data]> (files w)) w).
Proof.
  intros upload Hbefore Hrest Hname Hwrite. unfold upload_single.
  rewrite multer_parts_app by exact Hbefore. simpl.
  apply String.eqb_neq in Hname. rewrite Hname, String.eqb_refl. simpl.
  unfold handleFile, bind, writeFile. fold upload. rewrite Hwrite. simpl.
  by rewrite multer_parts_pass.
Qed.

End EndToEnd.

(** X21.  From the body to the archive.  When the body holds one named file
    under [file], among parts that pass by, and every step goes through,
    the request is answered with 200 and what is sent and archived is what
    was uploaded: the requests carry the bytes of the part, the copy in the
    archive holds them, the entry holds the result record, and the stored
    upload is gone again, so that the files are those of before with the
    entry and the copy. *)
Theorem upload_goes_through env host processor before name data rest content
    metadata w :
  let upload := Path.join ["uploads/"; randomName host] in
  let result := result_of content metadata name (now env (clock_reads w)) in
  let saved := now env (S (clock_reads w)) in
  let entry := entry_path processor saved name in
  let copy := copy_path processor saved name in
  forallb passes_by before = true ->
  forallb passes_by rest = true ->
  name <> "" ->
  fs_fault env (OpWrite upload) = None ->
  fs_fault env (OpRead upload) = None ->
  extracted env processor data name content ->
  metadata_outcome env processor data (getMimeType name) = Ok metadata ->
  storage_accepts env processor saved name upload ->
  fs_fault env (OpUnlink upload) = None ->
  upload <> entry -> upload <> copy ->
  route env host processor
    (Multipart (before ++ FilePart "file" name data :: rest)) w
  = (JsonReply {| statusCode := 200; json_body := json_of_result result |},
     {| files :=
          delete upload
            (<[copy := data]>
               (<[entry := Json.stringify2 (outputData result)]> (files w)));
        clock_reads := S (S (clock_reads w));
        requests := requests w ++ expected_requests processor data name;
        console := console w |}).
Proof.
  intros upload result saved entry copy Hbefore Hrest Hname Hwrite Hread
    Hcontent Hmeta Hstore Hunlink Hentry Hcopy.
  unfold route. rewrite upload_single_stores by assumption. fold upload.
  set (file := {| originalname := name; path := upload |}).
  set (w1 := set_files (<[upload := data]> (files w)) w).
  assert (files w1 !! path file = Some data) as Hfile.
  { simpl. apply lookup_insert_eq. }
  rewrite handler_run, process_upload_run.
  change (path file) with upload in *. rewrite Hread, Hfile.
  rewrite (dispatch_reaches_save _ _ _ _ content metadata) by assumption.
  cbv zeta. change (originalname file) with name.
  change (clock_reads w1) with (clock_reads w). fold result.
  assert (<[entry := Json.stringify2 (outputData result)]> (files w1) !! upload
          = Some data) as Hsrc.
  { rewrite lookup_insert_ne by (intros E; by apply Hentry). exact Hfile. }
  erewrite save_accepted; [|exact Hstore|exact Hsrc].
  rewrite Hunlink. simpl. fold saved. fold entry copy.
  rewrite lookup_insert_ne by (intros E; by apply Hcopy).
  rewrite lookup_insert_ne by (intros E; by apply Hentry).
  rewrite lookup_insert_eq. simpl. unfold set_files. simpl.
  do 2 f_equal.
  rewrite (insert_insert_ne _ entry upload) by (intros E; by apply Hentry).
  rewrite (insert_insert_ne _ copy upload) by (intros E; by apply Hcopy).
  by rewrite delete_insert_eq.
Qed.

Lemma upload_goes_through_witness :
  route Scenario.healthy Demo.host Demo.processor
    (Multipart ([FieldPart "note" "hello" false false]
                ++ FilePart "file" "t.csv" csv_sample :: []))
    Demo.empty_world
  = (JsonReply
       {| statusCode := 200;
          json_body :=
            json_of_result
              (result_of ("a" +:+ Js.tab +:+ "b" +:+ Js.nl +:+ " c" +:+ Js.tab +:+ "d")
                 (JObject []) "t.csv" (now Scenario.healthy 0)) |},
     {| files :=
          <["completed/originals/2024-05-06T07-08-09-001Z_t.csv" := csv_sample]>
            (<["completed/2024-05-06T07-08-09-001Z_t.csv.json" :=
                 Json.stringify2
                   (outputData
                      (result_of
                         ("a" +:+ Js.tab +:+ "b" +:+ Js.nl +:+ " c" +:+ Js.tab +:+ "d")
                         (JObject []) "t.csv" (now Scenario.healthy 0)))]> ∅);
        clock_reads := 2;
        requests := [meta_request Demo.processor csv_sample "text/csv"];
        console := [] |}).
Proof.
  etransitivity.
  - apply (upload_goes_through Scenario.healthy Demo.host Demo.processor
             [FieldPart "note" "hello" false false] "t.csv" csv_sample []
             ("a" +:+ Js.tab +:+ "b" +:+ Js.nl +:+ " c" +:+ Js.tab +:+ "d")
             (JObject []) Demo.empty_world).
    + vm_compute. reflexivity.
    + vm_compute. reflexivity.
    + discriminate.
    + vm_compute. reflexivity.
    + vm_compute. reflexivity.
    + vm_compute. reflexivity.
    + vm_compute. reflexivity.
    + repeat split; vm_compute; reflexivity.
    + vm_compute. reflexivity.
    + vm_compute. discriminate.
    + vm_compute. discriminate.
  - vm_compute. reflexivity.
Defined.
